(** * The Cuckoo result server: a shallow embedding of
      [cuckoo/core/resultserver.py] and [cuckoo/common/files.py]

    The module is Python 3 code (it uses f-strings, and [files.py] the
    walrus operator).  A [str] and a [bytes] object are both Rocq
    [string]s; where the program lets the two meet, a value says which
    of them it is ([pydata]).  Python integers are [Z], dictionaries are
    [gmap]s, sets are [gset]s.  Effects (registry, file system, sockets,
    log, lock) are threaded through one state and error monad whose
    state records an ordered trace of observable events. *)

From Stdlib Require Import ZArith Ascii String List Bool Lia.
From stdpp Require Import base option list gmap strings pretty.

Local Open Scope string_scope.
Local Open Scope Z_scope.
Set Warnings "-register-all,-clear-no-such-hyp".

(** ** Python string primitives *)

Module PyStr.

Definition slash : ascii := "/"%char.
Definition backslash : ascii := "\"%char.
Definition newline : ascii := "010"%char.
Definition space : ascii := " "%char.
Definition comma : ascii := ","%char.
Definition nul : ascii := "000"%char.
Definition colon : ascii := ":"%char.

Definition ascii_eqb (a b : ascii) : bool := bool_decide (a = b).
Definition str_eqb (a b : string) : bool := bool_decide (a = b).

(** [len(s)] *)
Definition len (s : string) : Z := Z.of_nat (String.length s).

(** [s[:n]] and [s[n:]] for a natural index. *)
Fixpoint take (n : nat) (s : string) : string :=
  match n, s with
  | O, _ => ""
  | S _, "" => ""
  | S k, String c r => String c (take k r)
  end.

Fixpoint drop (n : nat) (s : string) : string :=
  match n, s with
  | O, _ => s
  | S _, "" => ""
  | S k, String _ r => drop k r
  end.

(** Python slice bounds: a negative bound counts from the end, and both
    ends are clamped to the string. *)
Definition clamp_index (i : Z) (s : string) : nat :=
  if i <? 0 then Z.to_nat (Z.max 0 (len s + i))
  else Z.to_nat (Z.min i (len s)).

(** [s[:i]] *)
Definition slice_to (i : Z) (s : string) : string := take (clamp_index i s) s.
(** [s[i:]] *)
Definition slice_from (i : Z) (s : string) : string := drop (clamp_index i s) s.

(** [s.replace(a, b)] for one-character [a] and [b]. *)
Fixpoint replace_char (a b : ascii) (s : string) : string :=
  match s with
  | "" => ""
  | String c r => String (if ascii_eqb c a then b else c) (replace_char a b r)
  end.

(** [s.find(c)] for a one-character [c]: the first index, or [-1]. *)
Fixpoint find (c : ascii) (s : string) : Z :=
  match s with
  | "" => -1
  | String a r =>
      if ascii_eqb a c then 0
      else let k := find c r in if k <? 0 then -1 else k + 1
  end.

(** [s.rfind(c)] for a one-character [c]: the last index, or [-1]. *)
Fixpoint rfind (c : ascii) (s : string) : Z :=
  match s with
  | "" => -1
  | String a r =>
      let k := rfind c r in
      if 0 <=? k then k + 1 else if ascii_eqb a c then 0 else -1
  end.

(** [c * n] *)
Fixpoint repeat_char (c : ascii) (n : nat) : string :=
  match n with
  | O => ""
  | S k => String c (repeat_char c k)
  end.

(** [s.rstrip(c)] for a one-character [c]. *)
Fixpoint rstrip (c : ascii) (s : string) : string :=
  match s with
  | "" => ""
  | String a r =>
      let r' := rstrip c r in
      if str_eqb r' "" && ascii_eqb a c then "" else String a r'
  end.

(** [c in s] for a one-character [c]. *)
Fixpoint contains (c : ascii) (s : string) : bool :=
  match s with
  | "" => false
  | String a r => ascii_eqb a c || contains c r
  end.

(** [any(p(c) for c in s)] *)
Fixpoint any (p : ascii -> bool) (s : string) : bool :=
  match s with
  | "" => false
  | String a r => p a || any p r
  end.

(** [s.split(c)] for a one-character separator: never empty. *)
Fixpoint split (c : ascii) (s : string) : list string :=
  match s with
  | "" => [""]
  | String a r =>
      match split c r with
      | [] => [String a ""]
      | w :: ws => if ascii_eqb a c then "" :: w :: ws else String a w :: ws
      end
  end.

(** [s.split(c, 1)]: at most one cut, at the first separator. *)
Definition split1 (c : ascii) (s : string) : list string :=
  let pos := find c s in
  if pos <? 0 then [s] else [slice_to pos s; slice_from (pos + 1) s].

(** [s.startswith(c)] for a one-character [c]. *)
Definition startswith (c : ascii) (s : string) : bool :=
  match s with
  | String a _ => ascii_eqb a c
  | "" => false
  end.

End PyStr.

(** ** [posixpath] *)

Module PosixPath.
Import PyStr.

(** [os.path.split]: cut after the last slash, then strip the slashes
    that end the head unless the head consists of slashes only. *)
Definition split (p : string) : string * string :=
  let i := rfind slash p + 1 in
  let head := slice_to i p in
  let tail := slice_from i p in
  let head :=
    if negb (str_eqb head "")
       && negb (str_eqb head (repeat_char slash (String.length head)))
    then rstrip slash head else head in
  (head, tail).

(** [os.path.join(a, b)] of two components. *)
Definition join (a b : string) : string :=
  if startswith slash b then b
  else if str_eqb a "" || (0 <=? rfind slash a) && (rfind slash a =? len a - 1)
       then a ++ b
       else a ++ "/" ++ b.

End PosixPath.

(** ** PathGuard: [netlog_sanitize_fname] *)

Inductive errno := EEXIST | ENOENT | EISDIR | EBADF | ECONNRESET | ETIMEDOUT | EPIPE.

Global Instance errno_eq_dec : EqDecision errno.
Proof. solve_decision. Defined.

Inductive op_error :=
| BannedPath (path : string)
| OverlyLongLine
| NoDumpPath (task_id : Z)
| Overwrite (task_id : Z).

Inductive exn :=
| CuckooOperationalError (e : op_error)
| EOFError
| KeyError
| AttributeError
| TypeError
| ValueError
| NoContextManager               (* [with None:], an AttributeError before
                                    Python 3.11 and a TypeError from it on *)
| OSError (e : errno)            (* [IOError] is the same class *)
| SocketError (e : option errno)
| NonTermination.                (* no exception: a loop that would not end *)

Inductive res (A : Type) :=
| Ok (a : A)
| Raise (e : exn).
Arguments Ok {A} a.
Arguments Raise {A} e.

Definition RESULT_UPLOADABLE : list string :=
  ["files"; "shots"; "buffer"; "extracted"; "memory"; "package_files"; "logs"].
Definition RESULT_DIRECTORIES : list string := RESULT_UPLOADABLE ++ ["reports"].

(** A value that is a [bytes] object or a [str]. *)
Inductive pydata :=
| BytesObj (b : string)
| StrObj (s : string).

(** [BANNED_PATH_CHARS = b'\x00:'], a [bytes] object. *)
Definition BANNED_PATH_CHARS : pydata :=
  BytesObj (String PyStr.nul (String PyStr.colon "")).

(** [c in s] for a [str] [c] of one character: a [str] is looked for in
    a [str]; looking for it in a [bytes] object is a [TypeError]. *)
Definition str_in (c : ascii) (s : pydata) : res bool :=
  match s with
  | StrObj s => Ok (PyStr.contains c s)
  | BytesObj _ => Raise TypeError
  end.

(** [any(p(c) for c in s)] for a test that may raise: the characters are
    tested in order, up to the first that passes or fails the test. *)
Fixpoint any_of (p : ascii -> res bool) (s : string) : res bool :=
  match s with
  | "" => Ok false
  | String a r =>
      match p a with
      | Ok true => Ok true
      | Ok false => any_of p r
      | Raise e => Raise e
      end
  end.

Definition netlog_sanitize_fname (path : string) : res string :=
  let path := PyStr.replace_char PyStr.backslash PyStr.slash path in
  let '(dir_part, name) := PosixPath.split path in
  if negb (bool_decide (dir_part ∈ RESULT_UPLOADABLE)) then
    Raise (CuckooOperationalError (BannedPath path))
  else
    match any_of (fun c => str_in c BANNED_PATH_CHARS) name with
    | Raise e => Raise e
    | Ok true => Raise (CuckooOperationalError (BannedPath path))
    | Ok false => Ok path
    end.

(** ** The values of a header: JSON values as [json.loads] yields them
    ([None] is [JNull]), and the [map] object that the version-2 header
    of FILE holds under [pids] *)

Inductive json :=
| JNull
| JBool (b : bool)
| JInt (z : Z)
| JStr (s : string)
| JList (l : list json)
| JDict (kv : list (string * json))
| JMapInt (fields : list string).   (* [map(int, fields)], not yet iterated *)

(** Python truthiness. *)
Definition truthy (j : json) : bool :=
  match j with
  | JNull => false
  | JBool b => b
  | JInt z => negb (z =? 0)
  | JStr s => negb (PyStr.str_eqb s "")
  | JList l => match l with [] => false | _ => true end
  | JDict kv => match kv with [] => false | _ => true end
  | JMapInt _ => true
  end.

(** What [json.dumps] takes: everything but a [map] object. *)
Fixpoint serializable (j : json) : bool :=
  match j with
  | JMapInt _ => false
  | JList l => forallb serializable l
  | JDict kv => forallb (fun p => serializable (snd p)) kv
  | _ => true
  end.

Fixpoint assoc_get (k : string) (kv : list (string * json)) : option json :=
  match kv with
  | [] => None
  | (k', v) :: r => if PyStr.str_eqb k' k then Some v else assoc_get k r
  end.

(** [d.get(k, dflt)]; anything but a dictionary has no [get]. *)
Definition dict_get (d : json) (k : string) (dflt : json) : res json :=
  match d with
  | JDict kv => Ok (default dflt (assoc_get k kv))
  | _ => Raise AttributeError
  end.

(** ** Observable events and the state of the server *)

Inductive level := DEBUG | WARNING | ERROR.

Inductive log_msg :=
| MsgConnReset (task_id : Z) (ctx : nat)
| MsgTruncated
| MsgFileUploadFor (task_id : Z) (dump_path : string)
| MsgUploadedLength (task_id : Z) (n : Z)
| MsgLiveLogReopen (task_id : Z)
| MsgLiveLogInit (task_id : Z)
| MsgBsonNoPid
| MsgBsonStream (task_id : Z)
| MsgNoTaskWithID (task_id : Z)
| MsgCancel (ctx : nat) (task_id : Z)
| MsgNoTaskForIP (ip : string)
| MsgCancelledDuringNegotiation (task_id : Z) (ip : string)
| MsgUnprocessedData (task_id : Z)
| MsgUnknownProtocol (task_id : Z) (command : string)
| MsgInvalidHeader (task_id : Z) (header : string).

(** A write to one of the three dictionaries of the worker. *)
Inductive reg_op :=
| TasksSet (ip : string) (task_id : Z)         (* self.tasks[ip] = task_id *)
| TasksPop (ip : string)                       (* self.tasks.pop(ip, None) *)
| RtSet (task_id : Z) (rt : nat)               (* self.rthandlers[task_id] = rt *)
| RtPop (task_id : Z)                          (* self.rthandlers.pop(task_id) *)
| HandlersPop (task_id : Z)                    (* self.handlers.pop(task_id, set()) *)
| HandlersAdd (task_id : Z) (ctx : nat)        (* setdefault(task_id, set()).add(ctx) *)
| HandlersDiscard (task_id : Z) (ctx : nat).   (* s.discard(ctx) *)

Inductive event :=
| EvAcquire                              (* task_mgmt_lock taken *)
| EvRelease                              (* task_mgmt_lock released *)
| EvRegistry (op : reg_op)
| EvLog (l : level) (m : log_msg)
| EvCancel (ctx : nat)                   (* ctx.cancel(): sock.shutdown(SHUT_RD) *)
| EvSendall (ctx : nat) (data : string)
| EvSetTimeout (ctx : nat) (t : option Z)
| EvRtStart (rt : nat) (ctx : nat)
| EvRtOnMessage (rt : nat) (msg : json)
| EvTaskLogStart (task_id : Z)
| EvTaskLogStop (task_id : Z)
| EvSockClose (sock : nat).

(** What one [sock.recv(16384)] call does: it returns a [bytes] object
    or raises [socket.error]. *)
Inductive recv_result :=
| RecvData (s : string)
| RecvError (e : option errno).

Record HandlerContext := {
  ctx_task_id : Z;
  ctx_command : option string;
  ctx_rt : option nat;
  ctx_response_id : json;
  ctx_storagepath : string;
  ctx_incoming : list recv_result;       (* what the peer will deliver *)
  ctx_buf : option string;               (* a [str]; [None] once drained *)
}.

Global Instance HandlerContext_inhabited : Inhabited HandlerContext :=
  populate {| ctx_task_id := 0; ctx_command := None; ctx_rt := None;
              ctx_response_id := JNull; ctx_storagepath := "";
              ctx_incoming := []; ctx_buf := None |}.

Record World := {
  tasks : gmap string Z;                 (* self.tasks: IP address -> task id *)
  rthandlers : gmap Z nat;               (* self.rthandlers *)
  handlers : gmap Z (gset nat);          (* self.handlers: running contexts *)
  ctxs : gmap nat HandlerContext;        (* the HandlerContext objects *)
  shut_rd : gset nat;                    (* sockets whose read side is shut *)
  fs_files : gmap string string;         (* regular files and their bytes *)
  fs_dirs : gset string;                 (* directories *)
  trace : list event;                    (* oldest first *)
}.

Definition set_tasks (f : gmap string Z -> gmap string Z) (w : World) : World :=
  {| tasks := f (tasks w); rthandlers := rthandlers w; handlers := handlers w;
     ctxs := ctxs w; shut_rd := shut_rd w; fs_files := fs_files w;
     fs_dirs := fs_dirs w; trace := trace w |}.
Definition set_rthandlers (f : gmap Z nat -> gmap Z nat) (w : World) : World :=
  {| tasks := tasks w; rthandlers := f (rthandlers w); handlers := handlers w;
     ctxs := ctxs w; shut_rd := shut_rd w; fs_files := fs_files w;
     fs_dirs := fs_dirs w; trace := trace w |}.
Definition set_handlers (f : gmap Z (gset nat) -> gmap Z (gset nat)) (w : World) : World :=
  {| tasks := tasks w; rthandlers := rthandlers w; handlers := f (handlers w);
     ctxs := ctxs w; shut_rd := shut_rd w; fs_files := fs_files w;
     fs_dirs := fs_dirs w; trace := trace w |}.
Definition set_ctxs (f : gmap nat HandlerContext -> gmap nat HandlerContext) (w : World) : World :=
  {| tasks := tasks w; rthandlers := rthandlers w; handlers := handlers w;
     ctxs := f (ctxs w); shut_rd := shut_rd w; fs_files := fs_files w;
     fs_dirs := fs_dirs w; trace := trace w |}.
Definition set_shut_rd (f : gset nat -> gset nat) (w : World) : World :=
  {| tasks := tasks w; rthandlers := rthandlers w; handlers := handlers w;
     ctxs := ctxs w; shut_rd := f (shut_rd w); fs_files := fs_files w;
     fs_dirs := fs_dirs w; trace := trace w |}.
Definition set_fs_files (f : gmap string string -> gmap string string) (w : World) : World :=
  {| tasks := tasks w; rthandlers := rthandlers w; handlers := handlers w;
     ctxs := ctxs w; shut_rd := shut_rd w; fs_files := f (fs_files w);
     fs_dirs := fs_dirs w; trace := trace w |}.
Definition set_trace (f : list event -> list event) (w : World) : World :=
  {| tasks := tasks w; rthandlers := rthandlers w; handlers := handlers w;
     ctxs := ctxs w; shut_rd := shut_rd w; fs_files := fs_files w;
     fs_dirs := fs_dirs w; trace := f (trace w) |}.

(** ** The state and exception monad *)

Definition M (A : Type) : Type := World -> res A * World.

Definition ret {A} (a : A) : M A := fun w => (Ok a, w).
Definition raise {A} (e : exn) : M A := fun w => (Raise e, w).
Definition bind {A B} (m : M A) (k : A -> M B) : M B :=
  fun w => match m w with
           | (Ok a, w') => k a w'
           | (Raise e, w') => (Raise e, w')
           end.
Definition lift {A} (r : res A) : M A := fun w => (r, w).
Definition get : M World := fun w => (Ok w, w).
Definition modify (f : World -> World) : M unit := fun w => (Ok tt, f w).

Declare Scope py_scope.
Delimit Scope py_scope with py.
Notation "x <- m ;; k" := (bind m (fun x => k))
  (at level 100, m at next level, right associativity) : py_scope.
Notation "m ;; k" := (bind m (fun _ => k))
  (at level 100, right associativity) : py_scope.
Local Open Scope py_scope.

(** [try: body finally: fin] *)
Definition try_finally {A} (body : M A) (fin : M unit) : M A :=
  fun w => let '(r, w1) := body w in
           match fin w1 with
           | (Ok _, w2) => (r, w2)
           | (Raise e, w2) => (Raise e, w2)
           end.

(** [try: body except <handled>: handler] *)
Definition try_except {A} (body : M A) (handler : exn -> option (M A)) : M A :=
  fun w => match body w with
           | (Ok a, w1) => (Ok a, w1)
           | (Raise e, w1) =>
               match handler e with
               | Some h => h w1
               | None => (Raise e, w1)
               end
           end.

Definition emit (ev : event) : M unit := modify (set_trace (fun t => (t ++ [ev])%list)).
Definition log (l : level) (m : log_msg) : M unit := emit (EvLog l m).

(** A write to the registry: recorded in the trace, then carried out.
    [s.discard(ctx)] works on the set object taken from [self.handlers]
    earlier; a set that [del_task] has popped since is no longer part of
    the registry, and a set put in its place never held this context. *)
Definition apply_op (op : reg_op) : World -> World :=
  match op with
  | TasksSet ip t => set_tasks (insert ip t)
  | TasksPop ip => set_tasks (delete ip)
  | RtSet t rt => set_rthandlers (insert t rt)
  | RtPop t => set_rthandlers (delete t)
  | HandlersPop t => set_handlers (delete t)
  | HandlersAdd t c =>
      set_handlers (fun h => <[t := {[c]} ∪ default ∅ (h !! t)]> h)
  | HandlersDiscard t c =>
      set_handlers (fun h => match h !! t with
                             | Some s => <[t := s ∖ {[c]}]> h
                             | None => h
                             end)
  end.

Definition registry (op : reg_op) : M unit :=
  emit (EvRegistry op) ;; modify (apply_op op).

(** [with self.task_mgmt_lock: body] *)
Definition with_lock {A} (body : M A) : M A :=
  emit EvAcquire ;; try_finally body (emit EvRelease).

(** ** The file system, as far as the server relies on it

    [open(2)] on a store of regular files and directories; a file
    descriptor is the path it was opened on, and writes append and are
    in the file at once.  A path is a key of the store as it is
    written: [.], [..] and a slash at the end of a path are not
    resolved, and the paths of the properties below are paths of
    regular files. *)

Module Os.
Definition O_WRONLY : Z := 1.
Definition O_RDWR : Z := 2.
Definition O_CREAT : Z := 64.
Definition O_EXCL : Z := 128.
Definition O_TRUNC : Z := 512.
Definition O_APPEND : Z := 1024.

Definition has_flag (flags f : Z) : bool := negb (Z.land flags f =? 0).

Definition exists_b (path : string) (w : World) : bool :=
  bool_decide (is_Some (fs_files w !! path)) || bool_decide (path ∈ fs_dirs w).

(** [os.open(path, flags)] *)
Definition open (path : string) (flags : Z) : M string := fun w =>
  if exists_b path w then
    if has_flag flags O_CREAT && has_flag flags O_EXCL then (Raise (OSError EEXIST), w)
    else if bool_decide (path ∈ fs_dirs w) then (Raise (OSError EISDIR), w)
    else if has_flag flags O_TRUNC then (Ok path, set_fs_files (insert path "") w)
    else (Ok path, w)
  else if has_flag flags O_CREAT then
    if bool_decide (fst (PosixPath.split path) ∈ fs_dirs w)
    then (Ok path, set_fs_files (insert path "") w)
    else (Raise (OSError ENOENT), w)
  else (Raise (OSError ENOENT), w).

(** [fd.write(data)] *)
Definition write (fd : string) (data : string) : M unit :=
  modify (set_fs_files (fun m => <[fd := default "" (m !! fd) ++ data]> m)).

(** [fd.tell()] *)
Definition tell (fd : string) : M Z :=
  fun w => (Ok (PyStr.len (default "" (fs_files w !! fd))), w).
End Os.

(** [cuckoo.common.files.open_exclusive] *)
Definition open_exclusive (path : string) : M string :=
  Os.open path (Z.lor (Z.lor Os.O_CREAT Os.O_EXCL) Os.O_WRONLY).

(** The builtin [open(path, mode)] with the flags of its mode; its
    failures are [OSError]s as well. *)
Definition builtin_open (path : string) (flags : Z) : M string :=
  Os.open path flags.

(** [fd.write(data)] on a file object.  Every file of the module is
    opened in binary mode (["wb"], ["a+b"]), and such a file takes
    [bytes] only: a [str] is a [TypeError]. *)
Definition file_write (fd : string) (data : pydata) : M unit :=
  match data with
  | BytesObj b => Os.write fd b
  | StrObj _ => raise TypeError
  end.

(** ** HandlerContext *)

Definition MAX_NETLOG_LINE : Z := 4 * 1024.
Definition BUFSIZE : Z := 16 * 1024.

Definition the_ctx (cid : nat) : M HandlerContext :=
  fun w => (Ok (ctxs w !!! cid), w).
Definition update_ctx (cid : nat) (f : HandlerContext -> HandlerContext) : M unit :=
  modify (set_ctxs (fun m => <[cid := f (m !!! cid)]> m)).

Definition with_buf (b : option string) (c : HandlerContext) : HandlerContext :=
  {| ctx_task_id := ctx_task_id c; ctx_command := ctx_command c; ctx_rt := ctx_rt c;
     ctx_response_id := ctx_response_id c; ctx_storagepath := ctx_storagepath c;
     ctx_incoming := ctx_incoming c; ctx_buf := b |}.
Definition with_incoming (i : list recv_result) (c : HandlerContext) : HandlerContext :=
  {| ctx_task_id := ctx_task_id c; ctx_command := ctx_command c; ctx_rt := ctx_rt c;
     ctx_response_id := ctx_response_id c; ctx_storagepath := ctx_storagepath c;
     ctx_incoming := i; ctx_buf := ctx_buf c |}.
Definition with_command (k : option string) (c : HandlerContext) : HandlerContext :=
  {| ctx_task_id := ctx_task_id c; ctx_command := k; ctx_rt := ctx_rt c;
     ctx_response_id := ctx_response_id c; ctx_storagepath := ctx_storagepath c;
     ctx_incoming := ctx_incoming c; ctx_buf := ctx_buf c |}.

(** [HandlerContext.__init__] *)
Definition new_ctx (task_id : Z) (storagepath : string)
    (sock : list recv_result) (rt : option nat) : HandlerContext :=
  {| ctx_task_id := task_id; ctx_command := None; ctx_rt := rt;
     ctx_response_id := JNull; ctx_storagepath := storagepath;
     ctx_incoming := sock; ctx_buf := Some "" |}.

(** [cancel]: [shutdown(SHUT_RD)], whose own failure is swallowed. *)
Definition cancel (cid : nat) : M unit :=
  emit (EvCancel cid) ;; modify (set_shut_rd (fun s => {[cid]} ∪ s)).

(** [write] *)
Definition ctx_write (cid : nat) (data : string) : M unit := emit (EvSendall cid data).

(** [self.sock.recv(16384)]: on a socket whose read side is shut, and
    once the peer has delivered everything and closed, every call
    returns [b''] at once. *)
Definition sock_recv (cid : nat) : M recv_result := fun w =>
  if bool_decide (cid ∈ shut_rd w) then (Ok (RecvData ""), w)
  else match ctx_incoming (ctxs w !!! cid) with
       | [] => (Ok (RecvData ""), w)
       | r :: rest => (Ok r, set_ctxs (fun m => <[cid := with_incoming rest (m !!! cid)]> m) w)
       end.

(** [read]: the [bytes] that [recv] returns, or the [str] [""] after
    [EBADF] or [ECONNRESET]. *)
Definition read (cid : nat) : M pydata :=
  r <- sock_recv cid ;;
  match r with
  | RecvData s => ret (BytesObj s)
  | RecvError e =>
      if bool_decide (e = Some EBADF) then ret (StrObj "")
      else if negb (bool_decide (e = Some ECONNRESET)) then raise (SocketError e)
      else c <- the_ctx cid ;;
           log DEBUG (MsgConnReset (ctx_task_id c) cid) ;;
           ret (StrObj "")
  end.

(** [buf == ""]: a [bytes] object never equals a [str], not even
    [b''] the empty one. *)
Definition is_empty_str (d : pydata) : bool :=
  match d with
  | StrObj s => PyStr.str_eqb s ""
  | BytesObj _ => false
  end.

(** [len(d)] and [d[:n]] *)
Definition data_len (d : pydata) : Z :=
  match d with BytesObj b => PyStr.len b | StrObj s => PyStr.len s end.
Definition data_slice_to (n : Z) (d : pydata) : pydata :=
  match d with
  | BytesObj b => BytesObj (PyStr.slice_to n b)
  | StrObj s => StrObj (PyStr.slice_to n s)
  end.

(** [drain_buffer] *)
Definition drain_buffer (cid : nat) : M (option string) :=
  c <- the_ctx cid ;;
  update_ctx cid (with_buf None) ;;
  ret (ctx_buf c).

(** The loop of [read_newline].  [self.buf += buf] adds a [str] to the
    [str] that the buffer is; adding the [bytes] that [recv] returned
    is a [TypeError].  The loop goes round only after such an addition,
    so fuel is never used up; [None] marks exhausted fuel. *)
Fixpoint read_newline_loop (fuel : nat) (cid : nat) : M (option string) :=
  match fuel with
  | O => ret None
  | S fuel' =>
      c <- the_ctx cid ;;
      match ctx_buf c with
      | None => raise AttributeError
      | Some buf =>
          let pos := PyStr.find PyStr.newline buf in
          if pos <? 0 then
            if MAX_NETLOG_LINE <=? PyStr.len buf then
              raise (CuckooOperationalError OverlyLongLine)
            else
              data <- read cid ;;
              if is_empty_str data then raise EOFError
              else match data with
                   | StrObj s =>
                       update_ctx cid (with_buf (Some (buf ++ s))) ;;
                       read_newline_loop fuel' cid
                   | BytesObj _ => raise TypeError
                   end
          else
            update_ctx cid (with_buf (Some (PyStr.slice_from (pos + 1) buf))) ;;
            ret (Some (PyStr.slice_to pos buf))
      end
  end.

Definition pending (cid : nat) (w : World) : nat :=
  List.length (ctx_incoming (ctxs w !!! cid)).

(** What stands for a loop that never ends.  [NonTermination] is no
    exception of Python; it is given to a run whose loop has come back
    to the state it was in.  Only [copy_to_fd] under a cap can get
    there, and no handler gets to such a copy, so that [try_finally]
    and [try_except] never meet it in a run of [handle]. *)
Definition diverge {A} : M A := raise NonTermination.

Definition read_newline (cid : nat) : M string := fun w =>
  (r <- read_newline_loop (S (pending cid w)) cid ;;
   match r with Some line => ret line | None => diverge end) w.

(** ** WriteLimiter *)

Record WriteLimiter := {
  wl_fd : string;
  wl_remain : Z;
  wl_warned : bool;
}.

Definition TRUNCATED : string := "... (truncated)".

(** [WriteLimiter.write]; the marker it writes is a [str]. *)
Definition WriteLimiter_write (wl : WriteLimiter) (buf : pydata) : M WriteLimiter :=
  let size := data_len buf in
  let write := Z.min size (wl_remain wl) in
  wl1 <- (if negb (write =? 0) then
            file_write (wl_fd wl) (data_slice_to write buf) ;;
            ret {| wl_fd := wl_fd wl; wl_remain := wl_remain wl - write;
                   wl_warned := wl_warned wl |}
          else ret wl) ;;
  if negb (size =? 0) && negb (size =? write) && negb (wl_warned wl1) then
    log WARNING MsgTruncated ;;
    file_write (wl_fd wl1) (StrObj TRUNCATED) ;;
    ret {| wl_fd := wl_fd wl1; wl_remain := wl_remain wl1; wl_warned := true |}
  else ret wl1.

(** What [copy_to_fd] writes to: the file itself or a limiter around it. *)
Inductive sink :=
| ToFile (fd : string)
| ToLimiter (wl : WriteLimiter).

Definition sink_write (s : sink) (buf : pydata) : M sink :=
  match s with
  | ToFile fd => file_write fd buf ;; ret s
  | ToLimiter wl => wl' <- WriteLimiter_write wl buf ;; ret (ToLimiter wl')
  end.

(** The [while True] loop of [copy_to_fd], which ends when [read]
    returns the [str] [""]; [None] marks exhausted fuel. *)
Fixpoint copy_loop (fuel : nat) (cid : nat) (s : sink) : M (option sink) :=
  match fuel with
  | O => ret None
  | S fuel' =>
      buf <- read cid ;;
      if is_empty_str buf then ret (Some s)
      else s' <- sink_write s buf ;; copy_loop fuel' cid s'
  end.

(** [copy_to_fd(fd, max_size)].  What is drained from the buffer is a
    [str], or [None] when it was drained before; neither a file nor
    [len] takes [None].  Every turn of the loop takes a delivery off the
    socket until none is left; the turn after that reads [b''], which
    is not [""], finds everything as the turn before did, and so does
    every turn that follows: fuel above the number of pending deliveries
    is used up only by a loop that does not end. *)
Definition copy_to_fd (cid : nat) (fd : string) (max_size : option Z) : M unit :=
  let s := match max_size with
           | Some n => if negb (n =? 0)
                       then ToLimiter {| wl_fd := fd; wl_remain := n; wl_warned := false |}
                       else ToFile fd
           | None => ToFile fd
           end in
  drained <- drain_buffer cid ;;
  match drained with
  | None => raise TypeError
  | Some buf =>
      s1 <- sink_write s (StrObj buf) ;;
      w <- get ;;
      r <- copy_loop (S (pending cid w)) cid s1 ;;
      match r with
      | Some _ => ret tt
      | None => diverge
      end
  end.

(** ** What the module takes from outside

    The JSON codec, the analysis directory of a task
    ([cwd(analysis=task_id)]) and the configured upload cap are not part
    of the module; the server is stated over any choice of them. *)

Record Externals := {
  json_loads : string -> option json;      (* [None]: ValueError *)
  json_dumps : json -> string;
  cwd_analysis : Z -> string;
  upload_max_size : Z;
}.

(** ** Protocol handlers *)

Inductive command := BSON | FILE | LOG | REALTIME.

Record ProtocolHandler := {
  ph_class : command;
  ph_task_id : Z;
  ph_handler : nat;                  (* the HandlerContext *)
  ph_fd : option string;
  ph_header : json;
  ph_response_id : option json;      (* set by FileUpload only *)
}.

Definition with_header (h : json) (p : ProtocolHandler) : ProtocolHandler :=
  {| ph_class := ph_class p; ph_task_id := ph_task_id p; ph_handler := ph_handler p;
     ph_fd := ph_fd p; ph_header := h; ph_response_id := ph_response_id p |}.
Definition with_fd (fd : option string) (p : ProtocolHandler) : ProtocolHandler :=
  {| ph_class := ph_class p; ph_task_id := ph_task_id p; ph_handler := ph_handler p;
     ph_fd := fd; ph_header := ph_header p; ph_response_id := ph_response_id p |}.
Definition with_response_id (r : json) (p : ProtocolHandler) : ProtocolHandler :=
  {| ph_class := ph_class p; ph_task_id := ph_task_id p; ph_handler := ph_handler p;
     ph_fd := ph_fd p; ph_header := ph_header p; ph_response_id := Some r |}.

(** [ProtocolHandler.__init__] *)
Definition new_protocol (k : command) (task_id : Z) (ctx : nat) (header : json)
    : ProtocolHandler :=
  {| ph_class := k; ph_task_id := task_id; ph_handler := ctx; ph_fd := None;
     ph_header := header; ph_response_id := None |}.

Definition of_option {A} (e : exn) (o : option A) : M A :=
  match o with Some a => ret a | None => raise e end.

Fixpoint mapM {A B} (f : A -> M B) (l : list A) : M (list B) :=
  match l with
  | [] => ret []
  | a :: r => b <- f a ;; bs <- mapM f r ;; ret (b :: bs)
  end.

(** *** FileUpload *)

(** The first part of [FileUpload.handle]: set the timeout of the line
    phase and settle the header.  [map] converts nothing before it is
    iterated, so the fields of the third line of a version-2 header are
    kept as they are.  The handlers are stated over the externals; this
    part uses none of them. *)
Definition FileUpload_header (X : Externals) (p : ProtocolHandler)
    : M ProtocolHandler :=
  let cid := ph_handler p in
  emit (EvSetTimeout cid (Some 30)) ;;
  match ph_header p with
  | JNull =>
      store_as <- read_newline cid ;;
      ret (with_header (JDict [("store_as", JStr store_as)]) p)
  | h =>
      if match h with JInt z => z =? 2 | _ => false end then
        store_as <- read_newline cid ;;
        path <- read_newline cid ;;
        line <- read_newline cid ;;
        ret (with_header (JDict [("store_as", JStr store_as);
                                 ("path", JStr path);
                                 ("pids", JMapInt (PyStr.split PyStr.comma line))]) p)
      else
        rid <- lift (dict_get h "rid" JNull) ;;
        ret (with_response_id rid p)
  end.

Section Server.
Variable X : Externals.

Definition filelog (storagepath : string) : string :=
  PosixPath.join storagepath "files.json".

(** [json.dumps] of the journal entry of one upload; a value that
    holds a [map] object is not serializable. *)
Definition journal_entry (dump_path : string) (path pids : json) : res string :=
  if serializable path && serializable pids
  then Ok (json_dumps X (JDict [("path", JStr dump_path); ("filepath", path);
                                ("pids", pids)]))
  else Raise TypeError.

(** [s.decode("utf-8")] for a [str] [s]: a [str] has no [decode]. *)
Definition str_decode (s : string) : res string := Raise AttributeError.

(** The middle part of [FileUpload.handle], from [dump_path = ...] to
    the exclusive open of the destination: it yields the open file with
    what the journal line is made of. *)
Definition FileUpload_open (p : ProtocolHandler)
    : M (string * string * json * json) :=
  let cid := ph_handler p in
  let task_id := ph_task_id p in
  c <- the_ctx cid ;;
  let storagepath := ctx_storagepath c in
  dump_path <- lift (dict_get (ph_header p) "store_as" JNull) ;;
  if negb (truthy dump_path) then
    raise (CuckooOperationalError (NoDumpPath task_id))
  else
    dump_path <- match dump_path with
                 | JStr s => lift (netlog_sanitize_fname s)
                 | _ => raise AttributeError
                 end ;;
    path <- lift (dict_get (ph_header p) "path" JNull) ;;
    pids <- lift (dict_get (ph_header p) "pids" (JList [])) ;;
    log DEBUG (MsgFileUploadFor task_id dump_path) ;;
    decoded <- lift (str_decode dump_path) ;;
    let file_path := PosixPath.join storagepath decoded in
    fd <- try_except (open_exclusive file_path)
            (fun e => match e with
                      | OSError EEXIST =>
                          Some (raise (CuckooOperationalError (Overwrite task_id)))
                      | _ => None
                      end) ;;
    ret (fd, dump_path, path, pids).

(** The last part of [FileUpload.handle]: the journal line, which
    [print] writes as a [str] to the journal opened with ["a+b"], and
    the body. *)
Definition FileUpload_receive (p : ProtocolHandler)
    (fd dump_path : string) (path pids : json) : M ProtocolHandler :=
  let cid := ph_handler p in
  let task_id := ph_task_id p in
  c <- the_ctx cid ;;
  f <- builtin_open (filelog (ctx_storagepath c))
         (Z.lor (Z.lor Os.O_RDWR Os.O_CREAT) Os.O_APPEND) ;;
  entry <- lift (journal_entry dump_path path pids) ;;
  file_write f (StrObj entry) ;;
  file_write f (StrObj (String PyStr.newline "")) ;;
  emit (EvSetTimeout cid None) ;;
  try_finally (copy_to_fd cid fd (Some (upload_max_size X)))
    (n <- Os.tell fd ;; log DEBUG (MsgUploadedLength task_id n)) ;;
  ret (with_fd (Some fd) p).

Definition FileUpload_store (p : ProtocolHandler) : M ProtocolHandler :=
  opened <- FileUpload_open p ;;
  let '(fd, dump_path, path, pids) := opened in
  FileUpload_receive p fd dump_path path pids.

Definition FileUpload_handle (p : ProtocolHandler) : M ProtocolHandler :=
  p1 <- FileUpload_header X p ;;
  FileUpload_store p1.

(** *** LogHandler *)

Definition LogHandler_init (p : ProtocolHandler) : M ProtocolHandler :=
  c <- the_ctx (ph_handler p) ;;
  let logpath := PosixPath.join (ctx_storagepath c) "analysis.log" in
  try_except
    (fd <- open_exclusive logpath ;;
     log DEBUG (MsgLiveLogInit (ph_task_id p)) ;;
     ret (with_fd (Some fd) p))
    (fun e => match e with
              | OSError _ => Some (log DEBUG (MsgLiveLogReopen (ph_task_id p)) ;; ret p)
              | _ => None
              end).

Definition LogHandler_handle (p : ProtocolHandler) : M ProtocolHandler :=
  match ph_fd p with
  | Some fd => copy_to_fd (ph_handler p) fd None ;; ret p
  | None => ret p
  end.

(** *** BsonStore *)

Definition BsonStore_init (p : ProtocolHandler) : M ProtocolHandler :=
  pid <- lift (dict_get (ph_header p) "pid" JNull) ;;
  match pid with
  | JNull => log ERROR MsgBsonNoPid ;; ret (with_fd None p)
  | _ =>
      name <- match pid with
              | JInt z => ret (pretty z ++ ".bson")
              | JBool b => ret ((if b then "1" else "0") ++ ".bson")
              | _ => raise TypeError
              end ;;
      c <- the_ctx (ph_handler p) ;;
      fd <- builtin_open
              (PosixPath.join (PosixPath.join (ctx_storagepath c) "logs") name)
              (Z.lor (Z.lor Os.O_WRONLY Os.O_CREAT) Os.O_TRUNC) ;;
      ret (with_fd (Some fd) p)
  end.

Definition BsonStore_handle (p : ProtocolHandler) : M ProtocolHandler :=
  log DEBUG (MsgBsonStream (ph_task_id p)) ;;
  match ph_fd p with
  | Some fd => copy_to_fd (ph_handler p) fd None ;; ret p
  | None => ret p
  end.

(** *** RealTimeHandler *)

Definition recv_bytes (r : recv_result) : nat :=
  match r with RecvData s => String.length s | RecvError _ => 0 end.

(** Each line read takes at least its line feed out of what is
    buffered; what is still to arrive is counted with it. *)
Definition pending_bytes (cid : nat) (w : World) : nat :=
  let c := ctxs w !!! cid in
  (String.length (default "" (ctx_buf c))
   + foldr (fun r n => recv_bytes r + n) 0 (ctx_incoming c))%nat.

Fixpoint RealTime_loop (fuel : nat) (cid rt : nat) : M (option unit) :=
  match fuel with
  | O => ret None
  | S fuel' =>
      line <- try_except (l <- read_newline cid ;; ret (Some l))
                (fun e => match e with EOFError => Some (ret None) | _ => None end) ;;
      match line with
      | None => ret (Some tt)
      | Some l =>
          msg <- of_option ValueError (json_loads X l) ;;
          emit (EvRtOnMessage rt msg) ;;
          RealTime_loop fuel' cid rt
      end
  end.

Definition RealTimeHandler_handle (p : ProtocolHandler) : M ProtocolHandler :=
  let cid := ph_handler p in
  c <- the_ctx cid ;;
  rt <- of_option AttributeError (ctx_rt c) ;;
  emit (EvRtStart rt cid) ;;
  w <- get ;;
  r <- RealTime_loop (S (pending_bytes cid w)) cid rt ;;
  match r with Some _ => ret p | None => diverge end.

(** *** Dispatch on the class, and the [with protocol:] block *)

Definition init (p : ProtocolHandler) : M ProtocolHandler :=
  match ph_class p with
  | FILE => ret (with_fd None p)
  | LOG => LogHandler_init p
  | BSON => BsonStore_init p
  | REALTIME => ret p
  end.

Definition handle_protocol (p : ProtocolHandler) : M ProtocolHandler :=
  match ph_class p with
  | FILE => FileUpload_handle p
  | LOG => LogHandler_handle p
  | BSON => BsonStore_handle p
  | REALTIME => RealTimeHandler_handle p
  end.

(** [with protocol: protocol.handle()].  [__exit__] closes the output
    file, which changes nothing that is modelled; [None] is no context
    manager. *)
Definition with_protocol (protocol : option ProtocolHandler) : M unit :=
  match protocol with
  | None => raise NoContextManager
  | Some p => p1 <- init p ;; try_finally (handle_protocol p1 ;; ret tt) (ret tt)
  end.

(** *** GeventResultServerWorker *)

Definition commands (name : string) : option command :=
  if PyStr.str_eqb name "BSON" then Some BSON
  else if PyStr.str_eqb name "FILE" then Some FILE
  else if PyStr.str_eqb name "LOG" then Some LOG
  else if PyStr.str_eqb name "REALTIME" then Some REALTIME
  else None.

Definition add_task (task_id : Z) (ipaddr : string) (rt_handler : nat) : M unit :=
  with_lock
    (registry (TasksSet ipaddr task_id) ;;
     registry (RtSet task_id rt_handler)).

(** [for ctx in ctxs: log.warning(...); ctx.cancel()] *)
Fixpoint cancel_all (task_id : Z) (l : list nat) : M unit :=
  match l with
  | [] => ret tt
  | ctx :: r =>
      log WARNING (MsgCancel ctx task_id) ;; cancel ctx ;; cancel_all task_id r
  end.

Definition del_task (task_id : Z) (ipaddr : string) : M unit :=
  with_lock
    (w <- get ;;
     registry (TasksPop ipaddr) ;;
     (if bool_decide (tasks w !! ipaddr = None)
      then log WARNING (MsgNoTaskWithID task_id) else ret tt) ;;
     of_option KeyError (rthandlers w !! task_id) ;;
     registry (RtPop task_id) ;;
     let ctxs := default ∅ (handlers w !! task_id) in
     registry (HandlersPop task_id) ;;
     cancel_all task_id (elements ctxs)).

(** [negotiate_protocol], from the first line on. *)
Definition negotiate_line (task_id : Z) (ctx : nat) (line : string)
    : M (option ProtocolHandler) :=
  let header := PyStr.split1 PyStr.space line in
  let command := default "" (head header) in
  match commands command with
  | None => log WARNING (MsgUnknownProtocol task_id command) ;; ret None
  | Some klass =>
      match header with
      | [_; h1] =>
          match json_loads X h1 with
          | None => log ERROR (MsgInvalidHeader task_id h1) ;; ret None
          | Some data =>
              let data :=
                if PyStr.str_eqb command "BSON" && negb (PyStr.startswith "{"%char h1)
                then JDict [("pid", data)] else data in
              update_ctx ctx (with_command (Some command)) ;;
              ret (Some (new_protocol klass task_id ctx data))
          end
      | _ =>
          update_ctx ctx (with_command (Some command)) ;;
          ret (Some (new_protocol klass task_id ctx JNull))
      end
  end.

Definition negotiate_protocol (task_id : Z) (ctx : nat) : M (option ProtocolHandler) :=
  line <- read_newline ctx ;;
  negotiate_line task_id ctx line.

(** The [finally] block of the inner [try] of [handle]. *)
Definition handle_cleanup (task_id : Z) (sock : nat) : M unit :=
  c <- the_ctx sock ;;
  match ctx_response_id c with
  | JNull => ret tt
  | _ => raise AttributeError   (* [self.rt]: the worker has no such attribute *)
  end ;;
  with_lock (registry (HandlersDiscard task_id sock)) ;;
  cancel sock ;;
  c <- the_ctx sock ;;
  if truthy (JStr (default "" (ctx_buf c)))
  then log WARNING (MsgUnprocessedData task_id)
  else ret tt.

(** What [handle] does with the outcome of the negotiation: check the
    task again, register the context, run the handler. *)
Definition register_and_run (meanwhile : World -> World)
    (task_id : Z) (sock : nat) (ipaddr : string)
    (protocol : option ProtocolHandler) : M unit :=
  modify meanwhile ;;
  registered <- with_lock
    (w <- get ;;
     if negb (bool_decide (tasks w !! ipaddr = Some task_id)) then
       log WARNING (MsgCancelledDuringNegotiation task_id ipaddr) ;;
       ret false
     else
       registry (HandlersAdd task_id sock) ;;
       ret true) ;;
  if negb registered then ret tt
  else try_finally (with_protocol protocol) (handle_cleanup task_id sock).

(** The body of the outer [try] of [handle]. *)
Definition handle_session (meanwhile : World -> World)
    (task_id : Z) (sock : nat) (ipaddr : string) : M unit :=
  neg <- try_except (p <- negotiate_protocol task_id sock ;; ret (Some p))
           (fun e => match e with EOFError => Some (ret None) | _ => None end) ;;
  match neg with
  | None => ret tt
  | Some protocol => register_and_run meanwhile task_id sock ipaddr protocol
  end.

(** [handle(sock, addr)].  [sock] names the socket and the context made
    for it, [stream] is what the peer delivers on it, and [meanwhile] is
    what other threads do to the state while this one negotiates. *)
Definition handle (meanwhile : World -> World)
    (sock : nat) (stream : list recv_result) (ipaddr : string) : M unit :=
  found <- with_lock
    (w <- get ;;
     match tasks w !! ipaddr with
     | Some task_id =>
         if task_id =? 0 then log WARNING (MsgNoTaskForIP ipaddr) ;; ret None
         else ret (Some (task_id, rthandlers w !! task_id))
     | None => log WARNING (MsgNoTaskForIP ipaddr) ;; ret None
     end) ;;
  match found with
  | None => ret tt
  | Some (task_id, rt) =>
      let storagepath := cwd_analysis X task_id in
      modify (set_ctxs (insert sock (new_ctx task_id storagepath stream rt))) ;;
      emit (EvTaskLogStart task_id) ;;
      try_finally (handle_session meanwhile task_id sock ipaddr)
        (emit (EvTaskLogStop task_id))
  end.

(** gevent's [StreamServer] runs [handle] in a greenlet of its own for
    every accepted socket and closes the socket when [handle] is left,
    by return or by exception. *)
Definition serve_connection (meanwhile : World -> World)
    (sock : nat) (stream : list recv_result) (ipaddr : string) : M unit :=
  try_finally (handle meanwhile sock stream ipaddr) (emit (EvSockClose sock)).

End Server.

(** ** Notions the specification states its properties with *)

(** The split as the specification words it: the part before the last
    slash and the part after it, nothing stripped. *)
Definition split_on_last_slash (p : string) : string * string :=
  let i := PyStr.rfind PyStr.slash p in
  if i <? 0 then ("", p) else (PyStr.slice_to i p, PyStr.slice_from (i + 1) p).

(** Walking a trace with the state of the lock: is every event that [p]
    picks met while the lock is held, respectively while it is free? *)
Fixpoint all_under_lock (p : event -> bool) (held : bool) (tr : list event) : bool :=
  match tr with
  | [] => true
  | EvAcquire :: r => all_under_lock p true r
  | EvRelease :: r => all_under_lock p false r
  | e :: r => (negb (p e) || held) && all_under_lock p held r
  end.

Fixpoint all_outside_lock (p : event -> bool) (held : bool) (tr : list event) : bool :=
  match tr with
  | [] => true
  | EvAcquire :: r => all_outside_lock p true r
  | EvRelease :: r => all_outside_lock p false r
  | e :: r => (negb (p e) || negb held) && all_outside_lock p held r
  end.

Definition is_cancel (e : event) : bool :=
  match e with EvCancel _ => true | _ => false end.
Definition is_registry (e : event) : bool :=
  match e with EvRegistry _ => true | _ => false end.
Definition is_truncation_warning (e : event) : bool :=
  match e with EvLog WARNING MsgTruncated => true | _ => false end.
Definition is_on_message (e : event) : bool :=
  match e with EvRtOnMessage _ _ => true | _ => false end.

(** A computation preserves [R] when the state it leaves is related to
    the state it started from, whatever it returns or raises. *)
Definition preserves (R : World -> World -> Prop) {A} (m : M A) : Prop :=
  forall w, R w (snd (m w)).

(** The events of cancelling the contexts of a list, in order. *)
Definition cancel_events (task_id : Z) (l : list nat) : list event :=
  flat_map (fun c => [EvLog WARNING (MsgCancel c task_id); EvCancel c]) l.

(** A registry with one task and one running session, over an analysis
    directory that has its upload directories. *)
Definition registered_world : World :=
  {| tasks := {[ "10.0.0.5" := 7 ]}; rthandlers := {[ 7 := 1%nat ]};
     handlers := {[ 7 := {[ 3%nat ]} ]}; ctxs := ∅; shut_rd := ∅; fs_files := ∅;
     fs_dirs := {[ "/s/7"; "/s/7/shots"; "/s/7/files" ]}; trace := [] |}.

(** Relations between the state before and after a computation. *)

(** The file system is as it was. *)
Definition same_files (w w' : World) : Prop :=
  fs_files w' = fs_files w /\ fs_dirs w' = fs_dirs w.

(** The three dictionaries of the worker are as they were. *)
Definition same_registry (w w' : World) : Prop :=
  tasks w' = tasks w /\ rthandlers w' = rthandlers w /\ handlers w' = handlers w.

(** The state in which [handle] starts the session of task [task_id] on
    [sock]: the lookup under the lock is done, the context exists and the
    task log is started. *)
Definition session_world (X : Externals) (sock : nat) (stream : list recv_result)
    (task_id : Z) (w : World) : World :=
  set_trace (fun t => (t ++ [EvAcquire; EvRelease; EvTaskLogStart task_id])%list)
    (set_ctxs (insert sock (new_ctx task_id (cwd_analysis X task_id) stream
                              (rthandlers w !! task_id))) w).

(** A line feed, as a string. *)
Definition LF : string := String PyStr.newline "".

(** A stand-in for what the module takes from outside: a JSON decoder
    that knows the header texts listed in [known] and rejects every other
    text, an encoder that writes the empty object, analysis directories
    under ["/s"], and [cap] as the upload cap. *)
Definition stub_externals (known : list (string * json)) (cap : Z) : Externals :=
  {| json_loads := fun s => assoc_get s known;
     json_dumps := fun _ => "{}";
     cwd_analysis := fun t => "/s/" ++ pretty t;
     upload_max_size := cap |}.

(** The header text [{"store_as":"shots/2.jpg","rid":5}] and its value. *)
Definition DQ : string := String "034"%char "".
Definition rid_header_text : string :=
  "{" ++ DQ ++ "store_as" ++ DQ ++ ":" ++ DQ ++ "shots/2.jpg" ++ DQ ++ ","
  ++ DQ ++ "rid" ++ DQ ++ ":5}".
Definition rid_header : json :=
  JDict [("store_as", JStr "shots/2.jpg"); ("rid", JInt 5)].

(** A registry with one task and no running session. *)
Definition idle_world : World :=
  {| tasks := {[ "10.0.0.5" := 7 ]}; rthandlers := {[ 7 := 1%nat ]};
     handlers := ∅; ctxs := ∅; shut_rd := ∅; fs_files := ∅;
     fs_dirs := {[ "/s/7"; "/s/7/shots"; "/s/7/files" ]}; trace := [] |}.

(** How often the truncation warning was logged. *)
Definition truncation_warnings (tr : list event) : nat :=
  List.length (List.filter is_truncation_warning tr).

(** A computation raises only exceptions that [P] holds of. *)
Definition raises_only (P : exn -> Prop) {A} (m : M A) : Prop :=
  forall w e w', m w = (Raise e, w') -> P e.

(** The errors with which an upload ends before its destination is open:
    no dump path, a banned path, an overwrite, or a failed open. *)
Definition early_error (e : exn) : Prop :=
  match e with
  | CuckooOperationalError (NoDumpPath _)
  | CuckooOperationalError (BannedPath _)
  | CuckooOperationalError (Overwrite _)
  | OSError _ => True
  | _ => False
  end.

(** The exceptions with which a FILE upload ends before it gets to its
    destination: those of the header lines, a value that has no [get],
    [replace] or [decode], a missing dump path, a banned path, and the
    [TypeError] of the test against [BANNED_PATH_CHARS]. *)
Definition upload_failure (e : exn) : Prop :=
  match e with
  | AttributeError | TypeError | EOFError | SocketError _
  | CuckooOperationalError (NoDumpPath _)
  | CuckooOperationalError (BannedPath _)
  | CuckooOperationalError OverlyLongLine => True
  | _ => False
  end.

(** A session of task 7: a fresh context on [sock] whose peer is about
    to deliver the line [store_as] and then [body], in one piece. *)
Definition legacy_upload (sock : nat) (store_as body : string) (w : World) : World :=
  set_ctxs (insert sock (new_ctx 7 "/s/7" [RecvData (store_as ++ LF ++ body)]
                           (Some 1%nat))) w.

(** A context at the start of the body of an upload: nothing buffered,
    thirteen bytes to arrive in two deliveries, and an empty
    destination. *)
Definition copying_world : World :=
  set_fs_files (insert "/s/7/shots/1.jpg" "")
    (set_ctxs (insert 3%nat
       {| ctx_task_id := 7; ctx_command := Some "FILE"; ctx_rt := Some 1%nat;
          ctx_response_id := JNull; ctx_storagepath := "/s/7";
          ctx_incoming := [RecvData "0123456789"; RecvData "abc"];
          ctx_buf := Some "" |})
       idle_world).

(** ** Notions for the properties of the handlers and of the worker *)

(** The events that the negotiation and the protocol handlers add to the
    trace: log records, socket timeouts and calls of the dispatcher. *)
Definition is_session_event (e : event) : bool :=
  match e with
  | EvLog _ _ | EvSetTimeout _ _ | EvRtStart _ _ | EvRtOnMessage _ _ => true
  | _ => false
  end.

(** What the negotiation and the protocol handlers leave as it is: the
    three dictionaries of the worker, the sockets that are shut, the
    directories, and the [response_id] of every context; what they add to
    the trace are session events only. *)
Definition session_footprint (w w' : World) : Prop :=
  same_registry w w'
  /\ shut_rd w' = shut_rd w
  /\ fs_dirs w' = fs_dirs w
  /\ (forall cid, ctx_response_id (ctxs w' !!! cid) = ctx_response_id (ctxs w !!! cid))
  /\ exists t, trace w' = (trace w ++ t)%list /\ forallb is_session_event t = true.

(** Walking a trace with the state of [task_mgmt_lock], which is not
    reentrant: the lock is taken only while free and released only while
    held, and the registry is written only while it is held.  [Some held]
    is the state of the lock after a trace that keeps to this. *)
Fixpoint lock_discipline (held : bool) (tr : list event) : option bool :=
  match tr with
  | [] => Some held
  | EvAcquire :: r => if held then None else lock_discipline true r
  | EvRelease :: r => if held then lock_discipline false r else None
  | EvRegistry _ :: r => if held then lock_discipline held r else None
  | _ :: r => lock_discipline held r
  end.

(** A computation that starts with the lock in state [held] adds a trace
    that keeps to the discipline and leaves the lock in that state. *)
Definition lock_run (held : bool) (w w' : World) : Prop :=
  exists t, trace w' = (trace w ++ t)%list /\ lock_discipline held t = Some held.

(** What [read_newline] comes to.  [read] returns [bytes] or the [str]
    [""], so the loop never adds to the buffer and never goes round: a
    line is cut from what is buffered, or the one [read] ends the call. *)
Definition read_newline_turn (cid : nat) : M string :=
  c <- the_ctx cid ;;
  match ctx_buf c with
  | None => raise AttributeError
  | Some buf =>
      let pos := PyStr.find PyStr.newline buf in
      if pos <? 0 then
        if MAX_NETLOG_LINE <=? PyStr.len buf then
          raise (CuckooOperationalError OverlyLongLine)
        else
          data <- read cid ;;
          if is_empty_str data then raise EOFError else raise TypeError
      else
        update_ctx cid (with_buf (Some (PyStr.slice_from (pos + 1) buf))) ;;
        ret (PyStr.slice_to pos buf)
  end.

(** The contexts registered as running for a task. *)
Definition running (task_id : Z) (w : World) : gset nat :=
  default ∅ (handlers w !! task_id).

(** ** [cuckoo.common.files.Files.create] *)






(** * Checks of the embedding on concrete inputs *)

Example sanitize_empty_name : netlog_sanitize_fname "shots/" = Ok "shots/".
Proof. vm_compute. reflexivity. Qed.
Example sanitize_bs : netlog_sanitize_fname "files\" = Ok "files/".
Proof. vm_compute. reflexivity. Qed.
Example sanitize_dslash : netlog_sanitize_fname "files//" = Ok "files//".
Proof. vm_compute. reflexivity. Qed.
Example sanitize_dotdot :
  netlog_sanitize_fname "../etc/passwd"
  = Raise (CuckooOperationalError (BannedPath "../etc/passwd")).
Proof. vm_compute. reflexivity. Qed.
Example sanitize_shot : netlog_sanitize_fname "shots/0001.jpg" = Raise TypeError.
Proof. vm_compute. reflexivity. Qed.
Example sanitize_colon : netlog_sanitize_fname "files/a:b" = Raise TypeError.
Proof. vm_compute. reflexivity. Qed.
Example join1 : PosixPath.join "/s/7" "files/a" = "/s/7/files/a".
Proof. vm_compute. reflexivity. Qed.
Example join2 : PosixPath.join "/s/7/" "files/a" = "/s/7/files/a".
Proof. vm_compute. reflexivity. Qed.
Example split_p : PyStr.split PyStr.comma "1,22,,3" = ["1"; "22"; ""; "3"].
Proof. vm_compute. reflexivity. Qed.
Example split1_p : PyStr.split1 PyStr.space "FILE {a b}" = ["FILE"; "{a b}"].
Proof. vm_compute. reflexivity. Qed.


(** A legacy FILE upload over a connection: the first delivery cannot
    be added to the buffer, and [handle] is left by the [TypeError]
    before a line is read. *)
Example legacy_file_connection :
  let '(r, w') := serve_connection (stub_externals [] 10) id 3%nat
                    [RecvData ("FILE" ++ LF ++ "shots/0001.jpg" ++ LF ++ "abc")]
                    "10.0.0.5" idle_world in
  r = Raise TypeError
  /\ fs_files w' = ∅
  /\ handlers w' = ∅
  /\ trace w' = [EvAcquire; EvRelease; EvTaskLogStart 7; EvTaskLogStop 7;
                 EvSockClose 3%nat].
Proof. vm_compute. repeat split; reflexivity. Qed.

(** A peer that closes at once. *)
Example closed_connection :
  let '(r, w') := serve_connection (stub_externals [] 10) id 3%nat []
                    "10.0.0.5" idle_world in
  r = Raise TypeError /\ handlers w' = ∅.
Proof. vm_compute. repeat split; reflexivity. Qed.

(** A connection that is reset before anything arrives. *)
Example reset_connection :
  let '(r, w') := serve_connection (stub_externals [] 10) id 3%nat
                    [RecvError (Some ECONNRESET)] "10.0.0.5" idle_world in
  r = Ok tt
  /\ trace w' = [EvAcquire; EvRelease; EvTaskLogStart 7;
                 EvLog DEBUG (MsgConnReset 7 3%nat); EvTaskLogStop 7;
                 EvSockClose 3%nat].
Proof. vm_compute. repeat split; reflexivity. Qed.

(** A FILE handler with a JSON header: the name of the file cannot be
    tested against the banned characters. *)
Example json_file_upload :
  let '(r, w') := with_protocol (stub_externals [] 10)
                    (Some (new_protocol FILE 7 3%nat
                             (JDict [("store_as", JStr "shots/0001.jpg")])))
                    idle_world in
  r = Raise TypeError /\ fs_files w' = ∅
  /\ trace w' = [EvSetTimeout 3%nat (Some 30)].
Proof. vm_compute. repeat split; reflexivity. Qed.

(** The same with an empty file name, which passes the guard. *)
Example json_file_upload_empty_name :
  let '(r, w') := with_protocol (stub_externals [] 10)
                    (Some (new_protocol FILE 7 3%nat
                             (JDict [("store_as", JStr "shots/")])))
                    idle_world in
  r = Raise AttributeError /\ fs_files w' = ∅
  /\ trace w' = [EvSetTimeout 3%nat (Some 30);
                 EvLog DEBUG (MsgFileUploadFor 7 "shots/")].
Proof. vm_compute. repeat split; reflexivity. Qed.

(** The second [del_task] of a task. *)
Example del_task_twice :
  let '(r1, w1) := del_task 7 "10.0.0.5" idle_world in
  let '(r2, w2) := del_task 7 "10.0.0.5" w1 in
  r1 = Ok tt /\ r2 = Raise KeyError
  /\ trace w2
     = [EvAcquire; EvRegistry (TasksPop "10.0.0.5"); EvRegistry (RtPop 7);
        EvRegistry (HandlersPop 7); EvRelease;
        EvAcquire; EvRegistry (TasksPop "10.0.0.5");
        EvLog WARNING (MsgNoTaskWithID 7); EvRelease].
Proof. vm_compute. repeat split; reflexivity. Qed.

(** * PathGuard *)

Section PathGuardFacts.
Import PyStr.

Lemma len_nonneg s : 0 <= len s.
Proof. unfold len. lia. Qed.

Lemma len_String c s : len (String c s) = len s + 1.
Proof. unfold len. simpl String.length. lia. Qed.

Lemma rfind_bounds c s : -1 <= rfind c s < len s.
Proof.
  induction s as [|a r IH]; [unfold len; simpl; lia|].
  rewrite len_String. simpl rfind.
  destruct (0 <=? rfind c r) eqn:E; [apply Z.leb_le in E; lia|].
  destruct (ascii_eqb a c); pose proof (len_nonneg r); lia.
Qed.

Lemma slice_to_nat (n : nat) s :
  (n <= String.length s)%nat -> slice_to (Z.of_nat n) s = take n s.
Proof.
  intros Hn. unfold slice_to, clamp_index, len.
  destruct (Z.of_nat n <? 0) eqn:E; [apply Z.ltb_lt in E; lia|].
  f_equal. lia.
Qed.

(** The character at the index [rfind] returns is the one looked for. *)
Lemma take_rfind c s :
  0 <= rfind c s ->
  take (S (Z.to_nat (rfind c s))) s = take (Z.to_nat (rfind c s)) s ++ String c "".
Proof.
  induction s as [|a r IH]; simpl rfind; [lia|].
  destruct (0 <=? rfind c r) eqn:E.
  - apply Z.leb_le in E. intros _.
    replace (Z.to_nat (rfind c r + 1)) with (S (Z.to_nat (rfind c r))) by lia.
    change (take (S (S ?n)) (String a r)) with (String a (take (S n) r)).
    rewrite (IH E). reflexivity.
  - unfold ascii_eqb. case_bool_decide as Hac; [|lia].
    intros _. subst a. reflexivity.
Qed.

Lemma rstrip_snoc c s : rstrip c (s ++ String c "") = rstrip c s.
Proof.
  induction s as [|a r IH]; simpl.
  - unfold str_eqb, ascii_eqb. rewrite !bool_decide_eq_true_2; done.
  - rewrite IH. reflexivity.
Qed.

(** The test of the file name against [BANNED_PATH_CHARS] passes for
    the empty name only: the first character there is makes it fail. *)
Lemma any_banned_result name :
  any_of (fun c => str_in c BANNED_PATH_CHARS) name
  = if str_eqb name "" then Ok false else Raise TypeError.
Proof. destruct name; reflexivity. Qed.

Lemma whitelisted_not_slashes d :
  d ∈ RESULT_UPLOADABLE ->
  str_eqb d "" = false /\ str_eqb d (repeat_char slash (String.length d)) = false.
Proof.
  unfold RESULT_UPLOADABLE. rewrite !elem_of_cons, elem_of_nil.
  intros H. repeat (destruct H as [->|H]; [split; reflexivity|]). done.
Qed.

(** [os.path.split] against the plain split: the same name, and the
    directory with the slashes at its end stripped, whenever the
    directory is a whitelisted one. *)
Lemma posix_split_whitelisted p :
  fst (PosixPath.split p) ∈ RESULT_UPLOADABLE ->
  fst (PosixPath.split p) = rstrip slash (fst (split_on_last_slash p))
  /\ snd (PosixPath.split p) = snd (split_on_last_slash p).
Proof.
  unfold PosixPath.split, split_on_last_slash.
  pose proof (rfind_bounds slash p) as Hb.
  destruct (rfind slash p <? 0) eqn:E.
  - apply Z.ltb_lt in E. assert (rfind slash p = -1) as -> by lia.
    simpl. intros H. exfalso. revert H.
    unfold slice_to, clamp_index. simpl. destruct p; simpl; intros H;
      apply whitelisted_not_slashes in H as [H _]; discriminate.
  - apply Z.ltb_ge in E. simpl fst. simpl snd. intros H. split; [|reflexivity].
    revert H.
    set (k := Z.to_nat (rfind slash p)).
    assert (Hk : rfind slash p = Z.of_nat k) by (subst k; lia).
    assert (Hlt : (k < String.length p)%nat) by (unfold len in Hb; lia).
    replace (rfind slash p + 1) with (Z.of_nat (S k)) by lia.
    rewrite Hk, !slice_to_nat by lia.
    subst k. rewrite take_rfind by lia.
    set (h := take (Z.to_nat (rfind slash p)) p).
    destruct (negb (str_eqb (h ++ String slash "") "") &&
              negb (str_eqb (h ++ String slash "")
                      (repeat_char slash (String.length (h ++ String slash ""))))) eqn:C.
    + intros _. apply rstrip_snoc.
    + intros H. apply whitelisted_not_slashes in H as [H1 H2].
      rewrite H1, H2 in C. discriminate.
Qed.

End PathGuardFacts.

(** C3, as amended.  A path that [netlog_sanitize_fname] accepts is the
    input with every backslash replaced by a slash; its directory as
    [os.path.split] gives it, which is the part before the last slash with
    the slashes at its end stripped, is one of the seven whitelisted
    names; and its file name, the part after the last slash, holds
    neither NUL nor a colon. *)
Theorem sanitize_accepts_whitelisted (raw p : string) :
  netlog_sanitize_fname raw = Ok p ->
  p = PyStr.replace_char PyStr.backslash PyStr.slash raw
  /\ PyStr.rstrip PyStr.slash (fst (split_on_last_slash p)) ∈ RESULT_UPLOADABLE
  /\ PyStr.contains PyStr.nul (snd (split_on_last_slash p)) = false
  /\ PyStr.contains PyStr.colon (snd (split_on_last_slash p)) = false.
Proof.
  unfold netlog_sanitize_fname.
  set (q := PyStr.replace_char PyStr.backslash PyStr.slash raw).
  destruct (PosixPath.split q) as [d n] eqn:Hs.
  case_bool_decide as Hd; simpl; [|discriminate].
  rewrite any_banned_result.
  destruct (PyStr.str_eqb n "") eqn:Hn; [|discriminate].
  apply bool_decide_eq_true in Hn. subst n.
  intros [= <-]. split; [reflexivity|].
  assert (Hd' : fst (PosixPath.split q) ∈ RESULT_UPLOADABLE) by (rewrite Hs; exact Hd).
  destruct (posix_split_whitelisted q Hd') as [H1 H2].
  rewrite Hs in H1, H2. simpl in H1, H2. rewrite <- H1, <- H2.
  split; [exact Hd|]. split; reflexivity.
Qed.

Lemma sanitize_accepts_whitelisted_witness :
  netlog_sanitize_fname "shots\" = Ok "shots/"
  /\ PyStr.rstrip PyStr.slash (fst (split_on_last_slash "shots/")) ∈ RESULT_UPLOADABLE.
Proof.
  split; [vm_compute; reflexivity|].
  apply (sanitize_accepts_whitelisted "shots\" "shots/").
  vm_compute. reflexivity.
Defined.

(** C3 as stated fails: ["files//"] is accepted and returned as it is,
    and the part of it before the last slash is ["files/"], which is not
    a whitelisted name. *)
Lemma sanitize_parent_not_exact :
  netlog_sanitize_fname "files//" = Ok "files//"
  /\ fst (split_on_last_slash
            (PyStr.replace_char PyStr.backslash PyStr.slash "files//")) = "files/"
  /\ "files/" ∉ RESULT_UPLOADABLE.
Proof.
  split; [vm_compute; reflexivity|]. split; [vm_compute; reflexivity|].
  unfold RESULT_UPLOADABLE. rewrite !elem_of_cons, elem_of_nil.
  intros H. repeat (destruct H as [H|H]; [discriminate|]). done.
Qed.

(** * The task registry: [del_task] *)

Ltac munfold :=
  unfold with_lock, registry, log, emit, modify, of_option, try_finally,
    try_except, bind, ret, raise, lift, get, the_ctx, update_ctx in *.

Lemma cancel_all_spec task_id l w :
  exists w', cancel_all task_id l w = (Ok tt, w')
    /\ tasks w' = tasks w /\ rthandlers w' = rthandlers w
    /\ handlers w' = handlers w /\ fs_files w' = fs_files w
    /\ trace w' = (trace w ++ cancel_events task_id l)%list.
Proof.
  revert w. induction l as [|c l IH]; intros w.
  - exists w. cbn. rewrite app_nil_r. done.
  - cbn [cancel_all]. unfold cancel. munfold. cbn.
    match goal with |- context [cancel_all task_id l ?w1] =>
      destruct (IH w1) as (w' & -> & Ht & Hr & Hh & Hf & Htr) end.
    exists w'. cbn in *. rewrite Ht, Hr, Hh, Hf, Htr.
    rewrite <- !app_assoc. done.
Qed.

Lemma all_under_lock_cancel_events p task_id l :
  all_under_lock p true (cancel_events task_id l ++ [EvRelease]) = true.
Proof.
  induction l as [|c l IH]; [reflexivity|].
  cbn. rewrite !orb_true_r. cbn. exact IH.
Qed.

(** What a call of [del_task] does, by whether the task still has its
    dispatcher entry. *)
Lemma del_task_spec task_id ip w :
  let warn := if bool_decide (tasks w !! ip = None)
              then [EvLog WARNING (MsgNoTaskWithID task_id)] else [] in
  exists w', 
    tasks w' = delete ip (tasks w) /\ fs_files w' = fs_files w /\
    match rthandlers w !! task_id with
    | None =>
        del_task task_id ip w = (Raise KeyError, w')
        /\ rthandlers w' = rthandlers w /\ handlers w' = handlers w
        /\ trace w' = (trace w ++ [EvAcquire; EvRegistry (TasksPop ip)] ++ warn
                               ++ [EvRelease])%list
    | Some _ =>
        del_task task_id ip w = (Ok tt, w')
        /\ rthandlers w' = delete task_id (rthandlers w)
        /\ handlers w' = delete task_id (handlers w)
        /\ trace w' = (trace w ++ [EvAcquire; EvRegistry (TasksPop ip)] ++ warn
                         ++ [EvRegistry (RtPop task_id); EvRegistry (HandlersPop task_id)]
                         ++ cancel_events task_id
                              (elements (default ∅ (handlers w !! task_id)))
                         ++ [EvRelease])%list
    end.
Proof.
  unfold del_task. munfold. cbn.
  destruct (rthandlers w !! task_id) as [rt|] eqn:Hrt.
  - case_bool_decide as Hip; cbn; rewrite ?Hrt; cbn;
      match goal with |- context [cancel_all task_id ?l ?w1] =>
        destruct (cancel_all_spec task_id l w1) as (w' & -> & Ht & Hr & Hh & Hf & Htr) end;
      match goal with |- context [(Ok (), ?wf)] => exists wf end;
      cbn in *; rewrite Ht, Hr, Hh, Hf, Htr;
      rewrite <- ?app_assoc; cbn; done.
  - case_bool_decide as Hip; cbn; rewrite ?Hrt; cbn;
      match goal with |- context [(Raise KeyError, ?wf)] => exists wf end;
      cbn; rewrite <- ?app_assoc; cbn; done.
Qed.

(** C5.  A second [del_task] with the arguments of a first one that
    returned does not return: it leaves the three dictionaries as they
    are, but [self.rthandlers.pop(task_id)] finds no entry and raises
    [KeyError]. *)
Theorem del_task_repeat_raises (task_id : Z) (ip : string) (w w1 : World) :
  del_task task_id ip w = (Ok tt, w1) ->
  exists w2, del_task task_id ip w1 = (Raise KeyError, w2)
    /\ tasks w2 = tasks w1 /\ rthandlers w2 = rthandlers w1
    /\ handlers w2 = handlers w1.
Proof.
  intros H1.
  destruct (del_task_spec task_id ip w) as (w' & Ht & _ & Hcase).
  destruct (rthandlers w !! task_id) eqn:Hrt.
  2:{ destruct Hcase as (Hd & _). rewrite Hd in H1. discriminate. }
  destruct Hcase as (Hd & Hr & Hh & _). rewrite Hd in H1.
  injection H1 as <-.
  destruct (del_task_spec task_id ip w') as (w2 & Ht2 & _ & Hcase2).
  rewrite Hr, lookup_delete_eq in Hcase2.
  destruct Hcase2 as (Hd2 & Hr2 & Hh2 & _).
  exists w2. rewrite Hd2, Ht2, Ht, Hr2, Hh2. rewrite delete_delete_eq. done.
Qed.

Lemma del_task_repeat_raises_witness :
  exists w1, del_task 7 "10.0.0.5" registered_world = (Ok tt, w1)
    /\ exists w2, del_task 7 "10.0.0.5" w1 = (Raise KeyError, w2)
         /\ tasks w2 = tasks w1 /\ rthandlers w2 = rthandlers w1
         /\ handlers w2 = handlers w1.
Proof.
  eexists. split; [vm_compute; reflexivity|].
  eapply (del_task_repeat_raises 7 "10.0.0.5" registered_world).
  vm_compute. reflexivity.
Defined.

(** C8, as amended.  A [del_task] that returns has taken the lock once
    and released it at its very end; between the two it removed the three
    entries and cancelled every session it took out of the registry, so
    that each registry write and each [cancel()] falls while the lock is
    held. *)
Theorem del_task_cancels_under_lock (task_id : Z) (ip : string) (w w' : World) :
  del_task task_id ip w = (Ok tt, w') ->
  exists mid,
    trace w' = (trace w ++ EvAcquire :: mid ++ [EvRelease])%list
    /\ (EvAcquire ∉ mid) /\ (EvRelease ∉ mid)
    /\ EvRegistry (TasksPop ip) ∈ mid
    /\ EvRegistry (RtPop task_id) ∈ mid
    /\ EvRegistry (HandlersPop task_id) ∈ mid
    /\ (forall c, c ∈ default ∅ (handlers w !! task_id) -> EvCancel c ∈ mid)
    /\ tasks w' !! ip = None /\ rthandlers w' !! task_id = None
    /\ handlers w' !! task_id = None
    /\ all_under_lock is_cancel false (EvAcquire :: mid ++ [EvRelease]) = true
    /\ all_under_lock is_registry false (EvAcquire :: mid ++ [EvRelease]) = true.
Proof.
  intros H1.
  destruct (del_task_spec task_id ip w) as (w1 & Ht & _ & Hcase).
  destruct (rthandlers w !! task_id) eqn:Hrt.
  2:{ destruct Hcase as (Hd & _). rewrite Hd in H1. discriminate. }
  destruct Hcase as (Hd & Hr & Hh & Htr). rewrite Hd in H1. injection H1 as <-.
  set (l := elements (default ∅ (handlers w !! task_id))) in *.
  set (warn := if bool_decide (tasks w !! ip = None)
               then [EvLog WARNING (MsgNoTaskWithID task_id)] else []) in *.
  exists ([EvRegistry (TasksPop ip)] ++ warn
          ++ [EvRegistry (RtPop task_id); EvRegistry (HandlersPop task_id)]
          ++ cancel_events task_id l)%list.
  assert (Hce : forall e, e ∈ cancel_events task_id l ->
                  exists c, e = EvLog WARNING (MsgCancel c task_id) \/ e = EvCancel c).
  { intros e. unfold cancel_events. rewrite list_elem_of_In, in_flat_map.
    intros (c & _ & Hin). exists c. cbn in Hin.
    destruct Hin as [<-|[<-|[]]]; auto. }
  assert (Hw : forall e, e ∈ warn -> e = EvLog WARNING (MsgNoTaskWithID task_id)).
  { intros e. subst warn. case_bool_decide; rewrite ?elem_of_cons, elem_of_nil; tauto. }
  assert (Hnot : forall e, (e = EvAcquire \/ e = EvRelease) ->
            e ∉ ([EvRegistry (TasksPop ip)] ++ warn
                 ++ [EvRegistry (RtPop task_id); EvRegistry (HandlersPop task_id)]
                 ++ cancel_events task_id l)%list).
  { intros e He. rewrite !elem_of_app, !elem_of_cons, elem_of_nil.
    intros [Hx|[Hx|[Hx|Hx]]].
    - destruct He as [-> | ->]; destruct Hx as [?|?]; done.
    - apply Hw in Hx. destruct He as [-> | ->]; done.
    - destruct He as [-> | ->]; destruct Hx as [?|[?|?]]; done.
    - apply Hce in Hx as (c & [-> | ->]); destruct He; done. }
  split.
  { rewrite Htr. cbn. rewrite <- ?app_assoc. cbn. reflexivity. }
  split; [apply Hnot; auto|]. split; [apply Hnot; auto|].
  split; [set_solver|]. split; [set_solver|]. split; [set_solver|].
  split.
  { intros c Hc. rewrite !elem_of_app. right. right. right.
    unfold cancel_events. rewrite list_elem_of_In, in_flat_map.
    exists c. split; [|cbn; tauto].
    rewrite <- list_elem_of_In. subst l. by apply elem_of_elements. }
  split; [rewrite Ht; apply lookup_delete_eq|].
  split; [rewrite Hr; apply lookup_delete_eq|].
  split; [rewrite Hh; apply lookup_delete_eq|].
  split.
  - cbn. subst warn. case_bool_decide; cbn; apply all_under_lock_cancel_events.
  - cbn. subst warn. case_bool_decide; cbn; apply all_under_lock_cancel_events.
Qed.

(** * Strings *)

Section StringFacts.
Import PyStr.

Lemma str_app_nil_l (b : string) : "" ++ b = b.
Proof. reflexivity. Qed.

Lemma str_app_cons x (a b : string) : String x a ++ b = String x (a ++ b).
Proof. reflexivity. Qed.

Lemma str_app_assoc (a b c : string) : (a ++ b) ++ c = a ++ (b ++ c).
Proof.
  induction a as [|x a IH]; rewrite ?str_app_nil_l, ?str_app_cons; [done|by f_equal].
Qed.

Lemma str_app_nil_r (a : string) : a ++ "" = a.
Proof.
  induction a as [|x a IH]; rewrite ?str_app_nil_l, ?str_app_cons; [done|by f_equal].
Qed.

Lemma str_length_app (a b : string) :
  String.length (a ++ b) = (String.length a + String.length b)%nat.
Proof.
  induction a as [|x a IH]; rewrite ?str_app_nil_l, ?str_app_cons; [done|].
  cbn [String.length]. by rewrite IH.
Qed.

Lemma len_app (a b : string) : len (a ++ b) = len a + len b.
Proof. unfold len. rewrite str_length_app. lia. Qed.

Lemma find_bounds c s : -1 <= find c s < len s.
Proof.
  induction s as [|a r IH]; [unfold len; cbn; lia|].
  rewrite len_String. cbn [find]. pose proof (len_nonneg r).
  destruct (ascii_eqb a c); [lia|].
  destruct (find c r <? 0) eqn:E; [lia|]. apply Z.ltb_ge in E. lia.
Qed.

Lemma take_ge n s : (String.length s <= n)%nat -> take n s = s.
Proof.
  revert n. induction s as [|x s IH]; intros [|n] H; cbn in *; try done; try lia.
  rewrite IH by lia. done.
Qed.

Lemma take_app_le n (a b : string) :
  (n <= String.length a)%nat -> take n (a ++ b) = take n a.
Proof.
  revert n. induction a as [|x a IH]; intros [|n] H;
    rewrite ?str_app_nil_l, ?str_app_cons; cbn in *; try done; try lia.
  all: try (rewrite IH by lia; done).
  all: try by destruct b.
Qed.

Lemma take_app_ge n (a b : string) :
  (String.length a <= n)%nat -> take n (a ++ b) = a ++ take (n - String.length a) b.
Proof.
  revert n. induction a as [|x a IH]; intros n H;
    rewrite ?str_app_nil_l, ?str_app_cons; cbn in *.
  - by rewrite Nat.sub_0_r.
  - destruct n as [|n]; [lia|]. cbn. rewrite IH by lia. done.
Qed.

End StringFacts.

(** * The reader: [read] and [read_newline] *)

(** A delivery is passed on as the [bytes] it is. *)
Lemma read_data cid w s rest :
  cid ∉ shut_rd w ->
  ctx_incoming (ctxs w !!! cid) = RecvData s :: rest ->
  read cid w
  = (Ok (BytesObj s), set_ctxs (fun m => <[cid := with_incoming rest (m !!! cid)]> m) w).
Proof.
  intros Hs Hi. unfold read, bind, sock_recv.
  rewrite bool_decide_eq_false_2 by done. rewrite Hi. reflexivity.
Qed.

(** After a shutdown, and once the peer has closed, [read] gives [b'']
    and changes nothing. *)
Lemma read_closed cid w :
  cid ∈ shut_rd w \/ ctx_incoming (ctxs w !!! cid) = [] ->
  read cid w = (Ok (BytesObj ""), w).
Proof.
  intros Hi. unfold read, bind, sock_recv.
  case_bool_decide; [reflexivity|]. destruct Hi as [Hi|Hi]; [done|].
  rewrite Hi. reflexivity.
Qed.

(** The two errors that [read] turns into the [str] [""]. *)
Lemma read_swallowed cid w e rest :
  cid ∉ shut_rd w ->
  ctx_incoming (ctxs w !!! cid) = RecvError e :: rest ->
  e = Some EBADF \/ e = Some ECONNRESET ->
  exists t,
    read cid w
    = (Ok (StrObj ""),
       set_trace (fun tr => (tr ++ t)%list)
         (set_ctxs (fun m => <[cid := with_incoming rest (m !!! cid)]> m) w))
    /\ (t = [] \/ t = [EvLog DEBUG (MsgConnReset (ctx_task_id (ctxs w !!! cid)) cid)]).
Proof.
  intros Hs Hi He. unfold read, bind, sock_recv.
  rewrite bool_decide_eq_false_2 by done. rewrite Hi.
  destruct He as [-> | ->].
  - exists []. split; [|by left]. rewrite bool_decide_eq_true_2 by done.
    unfold ret. f_equal. unfold set_trace. cbn. rewrite app_nil_r.
    by destruct w.
  - exists [EvLog DEBUG (MsgConnReset (ctx_task_id (ctxs w !!! cid)) cid)].
    split; [|by right].
    rewrite bool_decide_eq_false_2 by done. rewrite bool_decide_eq_true_2 by done.
    cbn [negb]. unfold the_ctx, bind, log, emit, modify, ret. cbn [ctxs set_ctxs].
    rewrite lookup_total_insert_eq. reflexivity.
Qed.

(** Any other error of the socket is raised. *)
Lemma read_raises cid w e rest :
  cid ∉ shut_rd w ->
  ctx_incoming (ctxs w !!! cid) = RecvError e :: rest ->
  e <> Some EBADF -> e <> Some ECONNRESET ->
  read cid w
  = (Raise (SocketError e),
     set_ctxs (fun m => <[cid := with_incoming rest (m !!! cid)]> m) w).
Proof.
  intros Hs Hi H1 H2. unfold read, bind, sock_recv.
  rewrite bool_decide_eq_false_2 by done. rewrite Hi.
  rewrite !bool_decide_eq_false_2 by done. reflexivity.
Qed.

(** What [read] returns is a [bytes] object or the [str] [""]. *)
Lemma read_result cid w d w1 :
  read cid w = (Ok d, w1) -> (exists b, d = BytesObj b) \/ d = StrObj "".
Proof.
  unfold read, bind, sock_recv. case_bool_decide.
  { intros [= <- _]. eauto. }
  destruct (ctx_incoming (ctxs w !!! cid)) as [|[s|e] rest].
  - intros [= <- _]. eauto.
  - intros [= <- _]. eauto.
  - unfold the_ctx, log, emit, modify, ret, raise.
    repeat case_bool_decide; cbn; intros [= <- _]; auto.
Qed.

(** What [read] raises is an error of the socket. *)
Lemma read_raise cid w e w1 :
  read cid w = (Raise e, w1) -> exists n, e = SocketError n.
Proof.
  unfold read, bind, sock_recv. case_bool_decide; [discriminate|].
  destruct (ctx_incoming (ctxs w !!! cid)) as [|[s|n] rest]; try discriminate.
  unfold the_ctx, log, emit, modify, ret, raise.
  repeat case_bool_decide; cbn; try discriminate. intros [= <- _]. eauto.
Qed.

(** * The loops end

    The fuel given to the loops of [read_newline], [copy_to_fd] and the
    REALTIME handler is never used up. *)

Lemma bind_inv {A B} (m : M A) (k : A -> M B) w r w' :
  bind m k w = (r, w') ->
  (exists e, m w = (Raise e, w') /\ r = Raise e)
  \/ (exists a w1, m w = (Ok a, w1) /\ k a w1 = (r, w')).
Proof.
  unfold bind. destruct (m w) as [[a|e] w1]; intros H.
  - right. eauto.
  - left. injection H as <- <-. eauto.
Qed.

(** [read_newline] is one turn of its loop. *)
Lemma read_newline_turn_eq cid w : read_newline cid w = read_newline_turn cid w.
Proof.
  unfold read_newline, read_newline_turn. cbn [read_newline_loop].
  unfold bind, the_ctx, update_ctx, modify, ret, raise, diverge.
  destruct (ctx_buf (ctxs w !!! cid)) as [buf|]; [|reflexivity].
  cbn zeta. destruct (PyStr.find PyStr.newline buf <? 0); [|reflexivity].
  destruct (MAX_NETLOG_LINE <=? PyStr.len buf); [reflexivity|].
  destruct (read cid w) as [[d|e] w1] eqn:Hrd; [|reflexivity].
  destruct (read_result cid w d w1 Hrd) as [[b ->] | ->]; reflexivity.
Qed.

(** [read_newline] never stands for a loop without end. *)
Lemma read_newline_total cid w : fst (read_newline cid w) <> Raise NonTermination.
Proof.
  rewrite read_newline_turn_eq. unfold read_newline_turn.
  unfold bind at 1, the_ctx at 1.
  destruct (ctx_buf (ctxs w !!! cid)) as [buf|]; [|discriminate].
  cbn zeta. destruct (PyStr.find PyStr.newline buf <? 0).
  2:{ unfold bind, update_ctx, modify, ret. discriminate. }
  destruct (MAX_NETLOG_LINE <=? PyStr.len buf); [discriminate|].
  unfold bind at 1. destruct (read cid w) as [[d|e] w1] eqn:Hrd.
  - destruct (is_empty_str d); discriminate.
  - apply read_raise in Hrd as [n ->]. discriminate.
Qed.

(** A line that [read_newline] returns was in the buffer, followed by
    its line feed: the call takes both out and touches nothing else. *)
Lemma read_newline_Ok cid w line w1 :
  read_newline cid w = (Ok line, w1) ->
  exists buf,
    ctx_buf (ctxs w !!! cid) = Some buf
    /\ 0 <= PyStr.find PyStr.newline buf
    /\ line = PyStr.slice_to (PyStr.find PyStr.newline buf) buf
    /\ w1 = set_ctxs (fun m => <[cid := with_buf
               (Some (PyStr.slice_from (PyStr.find PyStr.newline buf + 1) buf))
               (m !!! cid)]> m) w.
Proof.
  rewrite read_newline_turn_eq. unfold read_newline_turn.
  unfold bind at 1, the_ctx at 1.
  destruct (ctx_buf (ctxs w !!! cid)) as [buf|]; [|discriminate].
  cbn zeta. destruct (PyStr.find PyStr.newline buf <? 0) eqn:E.
  - destruct (MAX_NETLOG_LINE <=? PyStr.len buf); [discriminate|].
    unfold bind at 1. destruct (read cid w) as [[d|e] w0]; [|discriminate].
    destruct (is_empty_str d); discriminate.
  - unfold bind, update_ctx, modify, ret. intros [= <- <-].
    exists buf. apply Z.ltb_ge in E. done.
Qed.

Lemma length_drop n s : String.length (PyStr.drop n s) = (String.length s - n)%nat.
Proof.
  revert n. induction s as [|c s IH]; intros [|n]; cbn; done.
Qed.

(** A line read takes at least its newline out of what is buffered. *)
Lemma read_newline_bytes cid w l w1 :
  read_newline cid w = (Ok l, w1) ->
  (pending_bytes cid w1 < pending_bytes cid w)%nat.
Proof.
  intros H. apply read_newline_Ok in H as (buf & Hb & Hpos & _ & ->).
  unfold pending_bytes. cbn. rewrite lookup_total_insert_eq. cbn. rewrite Hb. cbn.
  pose proof (find_bounds PyStr.newline buf) as Hfb.
  unfold PyStr.slice_from, PyStr.clamp_index.
  destruct (PyStr.find PyStr.newline buf + 1 <? 0) eqn:E; [apply Z.ltb_lt in E; lia|].
  rewrite length_drop. unfold PyStr.len in *. lia.
Qed.

Lemma RealTime_loop_total X fuel : forall cid rt w,
  (pending_bytes cid w < fuel)%nat ->
  fst (RealTime_loop X fuel cid rt w) <> Ok None.
Proof.
  induction fuel as [|fuel IH]; intros cid rt w Hf; [lia|].
  cbn [RealTime_loop]. unfold bind at 1, try_except, bind at 1.
  destruct (read_newline cid w) as [[l|e] w1] eqn:Hl.
  - apply read_newline_bytes in Hl. unfold ret at 1 2.
    unfold bind at 1, of_option.
    destruct (json_loads X l); [|discriminate].
    unfold ret at 1. unfold bind at 1, emit, modify.
    apply IH. unfold pending_bytes in *. cbn. lia.
  - destruct e; discriminate.
Qed.

(** * Frame reasoning: what a computation leaves as it is *)

Section Preserves.
Context (R : World -> World -> Prop) `{!PreOrder R}.

Lemma preserves_ret {A} (a : A) : preserves R (ret a).
Proof. intros w. reflexivity. Qed.

Lemma preserves_raise {A} e : preserves R (@raise A e).
Proof. intros w. reflexivity. Qed.

Lemma preserves_lift {A} (r : res A) : preserves R (lift r).
Proof. intros w. reflexivity. Qed.

Lemma preserves_get : preserves R get.
Proof. intros w. reflexivity. Qed.

Lemma preserves_the_ctx cid : preserves R (the_ctx cid).
Proof. intros w. reflexivity. Qed.

Lemma preserves_of_option {A} e (o : option A) : preserves R (of_option e o).
Proof. destruct o; intros w; reflexivity. Qed.

Lemma preserves_modify f : (forall w, R w (f w)) -> preserves R (modify f).
Proof. intros H w. apply H. Qed.

Lemma preserves_bind {A B} (m : M A) (k : A -> M B) :
  preserves R m -> (forall a, preserves R (k a)) -> preserves R (bind m k).
Proof.
  intros Hm Hk w. unfold bind. specialize (Hm w).
  destruct (m w) as [[a|e] w1]; cbn in *; [|exact Hm].
  etransitivity; [exact Hm|apply Hk].
Qed.

Lemma preserves_try_finally {A} (m : M A) (f : M unit) :
  preserves R m -> preserves R f -> preserves R (try_finally m f).
Proof.
  intros Hm Hf w. unfold try_finally. specialize (Hm w).
  destruct (m w) as [r w1]. specialize (Hf w1).
  destruct (f w1) as [[u|e] w2]; cbn in *; etransitivity; eauto.
Qed.

Lemma preserves_try_except {A} (m : M A) (h : exn -> option (M A)) :
  preserves R m -> (forall e k, h e = Some k -> preserves R k) ->
  preserves R (try_except m h).
Proof.
  intros Hm Hh w. unfold try_except. specialize (Hm w).
  destruct (m w) as [[a|e] w1]; cbn in *; [exact Hm|].
  destruct (h e) as [k|] eqn:E; [|exact Hm].
  etransitivity; [exact Hm|]. eapply Hh. exact E.
Qed.

Lemma preserves_mapM {A B} (f : A -> M B) l :
  (forall a, preserves R (f a)) -> preserves R (mapM f l).
Proof.
  intros Hf. induction l as [|a l IH]; cbn [mapM].
  - apply preserves_ret.
  - apply preserves_bind; [apply Hf|]. intros b.
    apply preserves_bind; [apply IH|]. intros bs. apply preserves_ret.
Qed.

Lemma preserves_fun {A} (f : World -> M A) :
  (forall w0, preserves R (f w0)) -> preserves R (fun w => f w w).
Proof. intros H w. apply (H w w). Qed.

End Preserves.

(** The structure of a computation, peeled down to its state changes. *)
Ltac frame_step :=
  lazymatch goal with
  | |- preserves ?R _ =>
    first
      [ apply (preserves_ret R) | apply (preserves_raise R) | apply (preserves_lift R)
      | apply (preserves_get R) | apply (preserves_the_ctx R)
      | apply (preserves_of_option R)
      | apply (preserves_bind R); [|intros ?]
      | apply (preserves_try_finally R)
      | apply (preserves_try_except R);
          [|let e := fresh "e" in let k := fresh "k" in let H := fresh "H" in
            intros e k H; repeat (destruct e; try discriminate H);
            injection H as <-]
      | apply (preserves_mapM R); intros ?
      | match goal with
        | |- preserves _ (match ?x with _ => _ end) => destruct x
        | |- preserves _ (let '(_, _) := ?x in _) => destruct x
        end ]
  end.

Global Instance same_files_preorder : PreOrder same_files.
Proof.
  split.
  - intros w. split; reflexivity.
  - intros a b c [H1 H2] [H3 H4]. split; congruence.
Qed.

(** What the context operations do to the state: they change the buffer
    and the pending deliveries of a context, and add events other than
    [on_message] calls. *)
Section SessionFrames.
Context (R : World -> World -> Prop) `{!PreOrder R}.
Hypothesis R_ctx : forall cid f w,
  (forall c, ctx_response_id (f c) = ctx_response_id c) ->
  R w (set_ctxs (fun m => <[cid := f (m !!! cid)]> m) w).
Hypothesis R_ev : forall ev w,
  is_on_message ev = false -> R w (set_trace (fun t => (t ++ [ev])%list) w).

Lemma preserves_emit ev : is_on_message ev = false -> preserves R (emit ev).
Proof. intros H. apply (preserves_modify R). intros w. by apply R_ev. Qed.

Lemma preserves_log l m : preserves R (log l m).
Proof. by apply preserves_emit. Qed.

Lemma preserves_sock_recv cid : preserves R (sock_recv cid).
Proof.
  intros w. unfold sock_recv. case_bool_decide; [reflexivity|].
  destruct (ctx_incoming _); [reflexivity|]. cbn. apply R_ctx. reflexivity.
Qed.

Lemma preserves_read cid : preserves R (read cid).
Proof.
  unfold read. apply (preserves_bind R); [apply preserves_sock_recv|].
  intros [s|e]; [apply (preserves_ret R)|].
  repeat first [ apply preserves_log | frame_step ].
Qed.

Lemma preserves_update_buf cid b : preserves R (update_ctx cid (with_buf b)).
Proof. apply (preserves_modify R). intros w. apply R_ctx. reflexivity. Qed.

Lemma preserves_read_newline_loop fuel cid :
  preserves R (read_newline_loop fuel cid).
Proof.
  induction fuel as [|fuel IH]; cbn [read_newline_loop]; [apply (preserves_ret R)|].
  repeat first [ apply preserves_read | apply preserves_update_buf | apply IH
               | frame_step ].
Qed.

Lemma preserves_read_newline cid : preserves R (read_newline cid).
Proof.
  unfold read_newline.
  apply (preserves_fun R (fun w0 =>
    bind (read_newline_loop (S (pending cid w0)) cid)
         (fun r => match r with Some line => ret line | None => diverge end))).
  intros w0. apply (preserves_bind R); [apply preserves_read_newline_loop|].
  intros [l|]; [apply (preserves_ret R)|apply (preserves_raise R)].
Qed.

Lemma preserves_FileUpload_header X p : preserves R (FileUpload_header X p).
Proof.
  unfold FileUpload_header.
  repeat first [ apply preserves_read_newline | apply preserves_emit; reflexivity
               | frame_step ].
Qed.

End SessionFrames.

Lemma same_files_update_ctx cid f w :
  (forall c, ctx_response_id (f c) = ctx_response_id c) ->
  same_files w (set_ctxs (fun m => <[cid := f (m !!! cid)]> m) w).
Proof. intros _. split; reflexivity. Qed.

Lemma same_files_emit ev w :
  is_on_message ev = false ->
  same_files w (set_trace (fun t => (t ++ [ev])%list) w).
Proof. intros _. split; reflexivity. Qed.

(** * The worker: [handle] *)

Lemma world_eq (a b : World) :
  tasks a = tasks b -> rthandlers a = rthandlers b -> handlers a = handlers b ->
  ctxs a = ctxs b -> shut_rd a = shut_rd b -> fs_files a = fs_files b ->
  fs_dirs a = fs_dirs b -> trace a = trace b -> a = b.
Proof. destruct a, b. cbn. intros. subst. reflexivity. Qed.

Lemma handle_found X meanwhile sock stream ip w task_id :
  tasks w !! ip = Some task_id -> task_id <> 0 ->
  handle X meanwhile sock stream ip w
  = try_finally (handle_session X meanwhile task_id sock ip)
      (emit (EvTaskLogStop task_id)) (session_world X sock stream task_id w).
Proof.
  intros Ht Hz. unfold handle. munfold. cbn. rewrite Ht.
  apply Z.eqb_neq in Hz. rewrite Hz. cbn.
  match goal with |- context [handle_session _ _ _ _ _ ?w1] =>
    replace w1 with (session_world X sock stream task_id w); [reflexivity|] end.
  apply world_eq; cbn; try reflexivity.
  rewrite <- !app_assoc. reflexivity.
Qed.

Lemma handle_not_found X meanwhile sock stream ip w :
  tasks w !! ip = None \/ tasks w !! ip = Some 0 ->
  handle X meanwhile sock stream ip w
  = (Ok tt, set_trace (fun t => (t ++ [EvAcquire; EvLog WARNING (MsgNoTaskForIP ip);
                                      EvRelease])%list) w).
Proof.
  intros Ht. unfold handle. munfold. cbn.
  destruct Ht as [-> | ->]; cbn; f_equal; apply world_eq; cbn; try reflexivity;
    rewrite <- !app_assoc; reflexivity.
Qed.

(** C10.  A task registered with id [0] does not count: a connection
    from its address is answered as one from an address that was never
    registered, with the warning and nothing else; no context is made and
    neither the registry nor the file system changes. *)
Theorem handle_task_zero_as_unregistered
    (X : Externals) (meanwhile : World -> World) (sock : nat)
    (stream : list recv_result) (ip : string) (rt : nat) (w : World) :
  let answer := fun w0 : World =>
    (Ok tt, set_trace (fun t => (t ++ [EvAcquire; EvLog WARNING (MsgNoTaskForIP ip);
                                       EvRelease])%list) w0) in
  exists w1, add_task 0 ip rt w = (Ok tt, w1)
    /\ tasks w1 !! ip = Some 0
    /\ handle X meanwhile sock stream ip w1 = answer w1
    /\ (forall w0, tasks w0 !! ip = None ->
          handle X meanwhile sock stream ip w0 = answer w0)
    /\ ctxs (snd (answer w1)) = ctxs w1
    /\ same_registry w1 (snd (answer w1)) /\ same_files w1 (snd (answer w1)).
Proof.
  cbn zeta. unfold add_task. munfold. cbn.
  eexists. split; [reflexivity|]. split; [cbn; apply lookup_insert_eq|].
  split; [apply handle_not_found; right; cbn; apply lookup_insert_eq|].
  split; [intros w0 H0; apply handle_not_found; left; exact H0|].
  repeat split; reflexivity.
Qed.

(** * [read_newline] on a socket *)

Section ReadNewline.
Variables (cid : nat) (w : World) (buf : string).
Hypothesis Hbuf : ctx_buf (ctxs w !!! cid) = Some buf.
Hypothesis Hnl : PyStr.find PyStr.newline buf < 0.

(** A buffer of [MAX_NETLOG_LINE] characters or more without a line feed
    ends the call before anything is read. *)
Lemma read_newline_overlong :
  MAX_NETLOG_LINE <= PyStr.len buf ->
  read_newline cid w = (Raise (CuckooOperationalError OverlyLongLine), w).
Proof.
  intros Hlen. rewrite read_newline_turn_eq. unfold read_newline_turn.
  unfold bind at 1, the_ctx at 1. rewrite Hbuf. cbn zeta.
  apply Z.ltb_lt in Hnl. rewrite Hnl. apply Z.leb_le in Hlen. rewrite Hlen.
  reflexivity.
Qed.

Hypothesis Hshort : PyStr.len buf < MAX_NETLOG_LINE.

Lemma read_newline_reads :
  read_newline cid w
  = (data <- read cid ;;
     if is_empty_str data then raise EOFError else raise TypeError) w.
Proof.
  rewrite read_newline_turn_eq. unfold read_newline_turn.
  unfold bind at 1, the_ctx at 1. rewrite Hbuf. cbn zeta.
  apply Z.ltb_lt in Hnl. rewrite Hnl. apply Z.leb_gt in Hshort. rewrite Hshort.
  reflexivity.
Qed.

(** A delivery is taken off the socket and cannot be added to the
    buffer. *)
Lemma read_newline_delivery d rest :
  cid ∉ shut_rd w ->
  ctx_incoming (ctxs w !!! cid) = RecvData d :: rest ->
  read_newline cid w
  = (Raise TypeError,
     set_ctxs (fun m => <[cid := with_incoming rest (m !!! cid)]> m) w).
Proof.
  intros Hs Hi. rewrite read_newline_reads. unfold bind.
  rewrite (read_data cid w d rest Hs Hi). reflexivity.
Qed.

(** Nor can the [b''] of a closed or shut socket. *)
Lemma read_newline_closed :
  cid ∈ shut_rd w \/ ctx_incoming (ctxs w !!! cid) = [] ->
  read_newline cid w = (Raise TypeError, w).
Proof.
  intros Hc. rewrite read_newline_reads. unfold bind.
  rewrite (read_closed cid w Hc). reflexivity.
Qed.

(** [EOFError] is raised after [EBADF] and [ECONNRESET] only. *)
Lemma read_newline_swallowed e rest :
  cid ∉ shut_rd w ->
  ctx_incoming (ctxs w !!! cid) = RecvError e :: rest ->
  e = Some EBADF \/ e = Some ECONNRESET ->
  exists t,
    read_newline cid w
    = (Raise EOFError,
       set_trace (fun tr => (tr ++ t)%list)
         (set_ctxs (fun m => <[cid := with_incoming rest (m !!! cid)]> m) w))
    /\ (t = [] \/ t = [EvLog DEBUG (MsgConnReset (ctx_task_id (ctxs w !!! cid)) cid)]).
Proof.
  intros Hs Hi He. rewrite read_newline_reads. unfold bind.
  destruct (read_swallowed cid w e rest Hs Hi He) as (t & -> & Ht).
  exists t. split; [reflexivity|exact Ht].
Qed.

Lemma read_newline_raises e rest :
  cid ∉ shut_rd w ->
  ctx_incoming (ctxs w !!! cid) = RecvError e :: rest ->
  e <> Some EBADF -> e <> Some ECONNRESET ->
  read_newline cid w
  = (Raise (SocketError e),
     set_ctxs (fun m => <[cid := with_incoming rest (m !!! cid)]> m) w).
Proof.
  intros Hs Hi H1 H2. rewrite read_newline_reads. unfold bind.
  rewrite (read_raises cid w e rest Hs Hi H1 H2). reflexivity.
Qed.

End ReadNewline.

(** * [handle] on a connection *)

(** The state in which [handle] is left when the negotiation has taken
    a delivery off the socket and failed: the context is there, with
    what is left to arrive, and the task log was started and stopped. *)
Lemma session_world_taken X sock r rest task_id w :
  set_ctxs (fun m => <[sock := with_incoming rest (m !!! sock)]> m)
    (session_world X sock (r :: rest) task_id w)
  = session_world X sock rest task_id w.
Proof.
  unfold session_world. apply world_eq; cbn; try reflexivity.
  rewrite lookup_total_insert_eq, insert_insert_eq. reflexivity.
Qed.

Lemma session_world_ctx X sock stream task_id w :
  ctxs (session_world X sock stream task_id w) !!! sock
  = new_ctx task_id (cwd_analysis X task_id) stream (rthandlers w !! task_id).
Proof. cbn. apply lookup_total_insert_eq. Qed.

(** A first delivery, whatever it holds, ends the session with the
    [TypeError] of [read_newline]. *)
Lemma handle_first_delivery X meanwhile sock d rest ip w task_id :
  tasks w !! ip = Some task_id -> task_id <> 0 ->
  sock ∉ shut_rd w ->
  handle X meanwhile sock (RecvData d :: rest) ip w
  = (Raise TypeError,
     set_trace (fun t => (t ++ [EvTaskLogStop task_id])%list)
       (session_world X sock rest task_id w)).
Proof.
  intros Ht Hz Hs.
  rewrite (handle_found X meanwhile sock _ ip w task_id Ht Hz).
  unfold try_finally, handle_session, negotiate_protocol, try_except.
  unfold bind at 1 2 3.
  set (ws := session_world X sock (RecvData d :: rest) task_id w).
  pose proof (session_world_ctx X sock (RecvData d :: rest) task_id w) as Hc.
  fold ws in Hc.
  rewrite (read_newline_delivery sock ws "" ltac:(by rewrite Hc)
             ltac:(reflexivity) ltac:(reflexivity) d rest Hs ltac:(by rewrite Hc)).
  subst ws. rewrite session_world_taken. reflexivity.
Qed.

(** So does a peer that has closed without sending anything. *)
Lemma handle_closed X meanwhile sock ip w task_id :
  tasks w !! ip = Some task_id -> task_id <> 0 ->
  handle X meanwhile sock [] ip w
  = (Raise TypeError,
     set_trace (fun t => (t ++ [EvTaskLogStop task_id])%list)
       (session_world X sock [] task_id w)).
Proof.
  intros Ht Hz.
  rewrite (handle_found X meanwhile sock _ ip w task_id Ht Hz).
  unfold try_finally, handle_session, negotiate_protocol, try_except.
  unfold bind at 1 2 3.
  set (ws := session_world X sock [] task_id w).
  pose proof (session_world_ctx X sock [] task_id w) as Hc. fold ws in Hc.
  rewrite (read_newline_closed sock ws "" ltac:(by rewrite Hc)
             ltac:(reflexivity) ltac:(reflexivity) ltac:(right; by rewrite Hc)).
  reflexivity.
Qed.

(** C6.  The limit itself is kept: a buffer that holds
    [MAX_NETLOG_LINE = 4096] characters or more without a line feed
    makes [read_newline] raise "overly long line".  But nothing that
    arrives on the socket ever gets into the buffer.  With a shorter
    buffer without a line feed, [read_newline] reads once; the [bytes]
    that [recv] returns are not the [str] [""] that stands for the end
    of the stream, not even the [b''] of a peer that has closed, and
    cannot be added to the [str] buffer: the call ends with [TypeError].
    So at the negotiation a line of 4096 bytes without a line feed, and
    a peer that closes cleanly, both end [handle] with [TypeError], not
    with "overly long line" and not with [EOFError]; the socket is
    closed, and registry and file system are as before. *)
Theorem read_newline_refuses_deliveries :
  (forall cid w buf,
     ctx_buf (ctxs w !!! cid) = Some buf ->
     PyStr.find PyStr.newline buf < 0 ->
     MAX_NETLOG_LINE <= PyStr.len buf ->
     read_newline cid w = (Raise (CuckooOperationalError OverlyLongLine), w))
  /\ (forall cid w buf d rest,
        ctx_buf (ctxs w !!! cid) = Some buf ->
        PyStr.find PyStr.newline buf < 0 ->
        PyStr.len buf < MAX_NETLOG_LINE ->
        cid ∉ shut_rd w ->
        ctx_incoming (ctxs w !!! cid) = RecvData d :: rest ->
        read_newline cid w
        = (Raise TypeError,
           set_ctxs (fun m => <[cid := with_incoming rest (m !!! cid)]> m) w))
  /\ (forall cid w buf,
        ctx_buf (ctxs w !!! cid) = Some buf ->
        PyStr.find PyStr.newline buf < 0 ->
        PyStr.len buf < MAX_NETLOG_LINE ->
        cid ∈ shut_rd w \/ ctx_incoming (ctxs w !!! cid) = [] ->
        read_newline cid w = (Raise TypeError, w))
  /\ (forall X meanwhile sock ip w task_id stream,
        tasks w !! ip = Some task_id -> task_id <> 0 ->
        sock ∉ shut_rd w ->
        stream = [] \/ (exists d rest, stream = RecvData d :: rest) ->
        exists w',
          serve_connection X meanwhile sock stream ip w = (Raise TypeError, w')
          /\ last (trace w') = Some (EvSockClose sock)
          /\ same_files w w' /\ same_registry w w').
Proof.
  split; [|split; [|split]].
  - intros cid w buf Hb Hn Hl. exact (read_newline_overlong cid w buf Hb Hn Hl).
  - intros cid w buf d rest Hb Hn Hl Hs Hi.
    exact (read_newline_delivery cid w buf Hb Hn Hl d rest Hs Hi).
  - intros cid w buf Hb Hn Hl Hc. exact (read_newline_closed cid w buf Hb Hn Hl Hc).
  - intros X meanwhile sock ip w task_id stream Ht Hz Hs Hst.
    unfold serve_connection, try_finally.
    destruct Hst as [-> | (d & rest & ->)].
    + rewrite (handle_closed X meanwhile sock ip w task_id Ht Hz).
      eexists. split; [reflexivity|]. cbn.
      split; [apply last_snoc|]. repeat split; reflexivity.
    + rewrite (handle_first_delivery X meanwhile sock d rest ip w task_id Ht Hz Hs).
      eexists. split; [reflexivity|]. cbn.
      split; [apply last_snoc|]. repeat split; reflexivity.
Qed.

(** C7.  A connection whose first line names a command that is not
    known: the line is never looked at.  Whatever the first delivery
    holds, [handle] is left by the [TypeError] of [read_newline] before
    a command is read.  No warning is logged: between the lookup under
    the lock and the end of the task log the trace has no event.  The
    context never gets a command and is never registered, and the
    registry and the files are as they were. *)
Theorem unknown_command_never_read (X : Externals) (meanwhile : World -> World)
    (sock : nat) (ip : string) (w : World) (task_id : Z)
    (s : string) (rest : list recv_result) :
  tasks w !! ip = Some task_id -> task_id <> 0 ->
  sock ∉ shut_rd w ->
  exists w',
    handle X meanwhile sock (RecvData s :: rest) ip w = (Raise TypeError, w')
    /\ trace w' = (trace w ++ [EvAcquire; EvRelease; EvTaskLogStart task_id;
                               EvTaskLogStop task_id])%list
    /\ ctx_command (ctxs w' !!! sock) = None
    /\ same_registry w w' /\ same_files w w'.
Proof.
  intros Ht Hz Hs.
  rewrite (handle_first_delivery X meanwhile sock s rest ip w task_id Ht Hz Hs).
  eexists. split; [reflexivity|]. cbn.
  split; [rewrite <- app_assoc; reflexivity|].
  split; [rewrite lookup_total_insert_eq; reflexivity|].
  repeat split; reflexivity.
Qed.

(** * The response header of a FILE upload *)

(** C4.  A FILE header that carries [rid] leaves the [rid] on the
    handler object and not in the session: throughout a FILE session the
    [response_id] of the context stays [None], so that when the handler
    is left the header is forwarded to no dispatcher: no [on_message]
    call is made. *)
Theorem file_rid_never_forwarded (X : Externals) :
  (forall p kv rid w,
     ph_header p = JDict kv -> assoc_get "rid" kv = Some rid ->
     exists w1, FileUpload_header X p w = (Ok (with_response_id rid p), w1)
       /\ ctxs w1 = ctxs w)
  /\ (forall sock ip w task_id s rest r w',
        tasks w !! ip = Some task_id -> task_id <> 0 ->
        sock ∉ shut_rd w ->
        0 <= PyStr.find PyStr.newline s ->
        default "" (head (PyStr.split1 PyStr.space
                            (PyStr.slice_to (PyStr.find PyStr.newline s) s))) = "FILE" ->
        handle X id sock (RecvData s :: rest) ip w = (r, w') ->
        ctx_response_id (ctxs w' !!! sock) = JNull
        /\ List.filter is_on_message (trace w') = List.filter is_on_message (trace w)).
Proof.
  split.
  - intros p kv rid w Hh Hrid. unfold FileUpload_header. rewrite Hh.
    munfold. cbn. rewrite Hrid. cbn. eexists. split; reflexivity.
  - intros sock ip w task_id s rest r w' Ht Hz Hs Hpos Hname Hrun.
    rewrite (handle_first_delivery X id sock s rest ip w task_id Ht Hz Hs) in Hrun.
    injection Hrun as _ <-. cbn. split.
    + rewrite lookup_total_insert_eq. reflexivity.
    + rewrite !List.filter_app. cbn. rewrite !app_nil_r. reflexivity.
Qed.
(** * [WriteLimiter] and [copy_to_fd] *)

Lemma slice_to_nonneg k s :
  0 <= k <= PyStr.len s -> PyStr.slice_to k s = PyStr.take (Z.to_nat k) s.
Proof.
  intros Hk. unfold PyStr.slice_to, PyStr.clamp_index.
  destruct (k <? 0) eqn:E; [apply Z.ltb_lt in E; lia|].
  f_equal. lia.
Qed.

Lemma concat_cons (s : string) (cs : list string) :
  String.concat "" (s :: cs) = s ++ String.concat "" cs.
Proof. cbn. destruct cs; [by rewrite str_app_nil_r|reflexivity]. Qed.

(** A delivery that fits the budget is written whole, and the budget is
    reduced by its length. *)
Lemma limiter_within fd remain b cur w :
  PyStr.len b <= remain ->
  fs_files w !! fd = Some cur ->
  exists w',
    WriteLimiter_write {| wl_fd := fd; wl_remain := remain; wl_warned := false |}
      (BytesObj b) w
    = (Ok {| wl_fd := fd; wl_remain := remain - PyStr.len b; wl_warned := false |}, w')
    /\ ctxs w' = ctxs w /\ shut_rd w' = shut_rd w /\ trace w' = trace w
    /\ fs_files w' = <[fd := cur ++ b]> (fs_files w).
Proof.
  intros Hle Hcur. pose proof (len_nonneg b) as Hl.
  unfold WriteLimiter_write. cbn [wl_fd wl_remain wl_warned data_len data_slice_to].
  replace (Z.min (PyStr.len b) remain) with (PyStr.len b) by lia.
  rewrite Z.eqb_refl, andb_false_r. cbn [negb andb].
  destruct (PyStr.len b =? 0) eqn:E; cbn [negb].
  - apply Z.eqb_eq in E. exists w. unfold bind, ret. rewrite E, Z.sub_0_r.
    split; [reflexivity|]. repeat (split; [reflexivity|]).
    assert (b = "") as ->.
    { destruct b as [|a r]; [done|].
      rewrite len_String in E. pose proof (len_nonneg r). lia. }
    rewrite str_app_nil_r. symmetry. by apply insert_id.
  - unfold file_write, Os.write, bind, modify, ret. eexists. split; [reflexivity|].
    cbn. repeat (split; [reflexivity|]).
    rewrite Hcur. cbn. rewrite slice_to_nonneg by lia.
    rewrite take_ge by (unfold PyStr.len; lia). reflexivity.
Qed.

(** The first delivery that does not fit is cut at the budget, the
    warning is logged, and the marker, a [str], is refused by the
    file. *)
Lemma limiter_overflow fd remain b cur w :
  0 <= remain < PyStr.len b ->
  fs_files w !! fd = Some cur ->
  exists w',
    WriteLimiter_write {| wl_fd := fd; wl_remain := remain; wl_warned := false |}
      (BytesObj b) w
    = (Raise TypeError, w')
    /\ ctxs w' = ctxs w /\ shut_rd w' = shut_rd w
    /\ trace w' = (trace w ++ [EvLog WARNING MsgTruncated])%list
    /\ fs_files w' = <[fd := cur ++ PyStr.take (Z.to_nat remain) b]> (fs_files w).
Proof.
  intros Hlt Hcur.
  unfold WriteLimiter_write. cbn [wl_fd wl_remain wl_warned data_len data_slice_to].
  replace (Z.min (PyStr.len b) remain) with remain by lia.
  assert (Hne : (PyStr.len b =? 0) = false) by (apply Z.eqb_neq; lia).
  assert (Hnk : (PyStr.len b =? remain) = false) by (apply Z.eqb_neq; lia).
  destruct (remain =? 0) eqn:E; cbn [negb].
  - apply Z.eqb_eq in E. subst remain.
    unfold bind at 1, ret at 1. cbn [wl_warned wl_fd]. rewrite ?Hne, ?Hnk. cbn [negb andb].
    unfold file_write, log, emit, bind, modify, raise. eexists.
    split; [reflexivity|]. cbn. repeat (split; [reflexivity|]).
    rewrite str_app_nil_r. symmetry. by apply insert_id.
  - unfold file_write at 1, Os.write, bind at 1 2, modify at 1, ret at 1.
    cbn [wl_warned wl_fd]. rewrite ?Hne, ?Hnk. cbn [negb andb].
    unfold file_write, log, emit, bind, modify, raise. eexists.
    split; [reflexivity|]. cbn. repeat (split; [reflexivity|]).
    rewrite Hcur. cbn. rewrite slice_to_nonneg by lia. reflexivity.
Qed.

(** The copy loop through a limiter, when more arrives than the budget
    allows: the file gets what arrives up to the budget, the warning is
    logged once, and the loop is left by the [TypeError] of the
    marker. *)
Lemma copy_loop_overflow cs : forall fuel cid fd remain w rest cur,
  (length cs < fuel)%nat ->
  cid ∉ shut_rd w ->
  ctx_incoming (ctxs w !!! cid) = ((RecvData <$> cs) ++ rest)%list ->
  0 <= remain < PyStr.len (String.concat "" cs) ->
  fs_files w !! fd = Some cur ->
  exists w',
    copy_loop fuel cid
      (ToLimiter {| wl_fd := fd; wl_remain := remain; wl_warned := false |}) w
    = (Raise TypeError, w')
    /\ fs_files w'
       = <[fd := cur ++ PyStr.take (Z.to_nat remain) (String.concat "" cs)]> (fs_files w)
    /\ trace w' = (trace w ++ [EvLog WARNING MsgTruncated])%list.
Proof.
  induction cs as [|s cs IH]; intros fuel cid fd remain w rest cur Hf Hs Hi Hr Hcur.
  { change (PyStr.len (String.concat "" [])) with 0 in Hr. lia. }
  destruct fuel as [|fuel]; [cbn in Hf; lia|]. cbn [copy_loop].
  cbn [fmap list_fmap app] in Hi.
  unfold bind at 1. rewrite (read_data cid w s _ Hs Hi).
  cbn [is_empty_str]. set (w1 := set_ctxs _ w).
  assert (Hcur1 : fs_files w1 !! fd = Some cur) by exact Hcur.
  rewrite concat_cons in Hr |- *. rewrite len_app in Hr.
  pose proof (len_nonneg s) as Hls.
  unfold bind at 1, sink_write, bind at 1.
  destruct (Z_le_gt_dec (PyStr.len s) remain) as [Hle|Hgt].
  - destruct (limiter_within fd remain s cur w1 Hle Hcur1)
      as (w2 & Hw & Hc2 & Hs2 & Ht2 & Hf2).
    rewrite Hw. unfold ret at 1.
    destruct (IH fuel cid fd (remain - PyStr.len s) w2 rest (cur ++ s))
      as (w' & Hloop & Hfs & Htr).
    + cbn in Hf. lia.
    + rewrite Hs2. exact Hs.
    + rewrite Hc2. subst w1. cbn. rewrite lookup_total_insert_eq. reflexivity.
    + lia.
    + rewrite Hf2. apply lookup_insert_eq.
    + exists w'. split; [exact Hloop|]. split.
      * rewrite Hfs, Hf2, insert_insert_eq. f_equal.
        rewrite take_app_ge by (unfold PyStr.len in *; lia).
        rewrite str_app_assoc. do 3 f_equal. unfold PyStr.len. lia.
      * rewrite Htr, Ht2. reflexivity.
  - destruct (limiter_overflow fd remain s cur w1 ltac:(lia) Hcur1)
      as (w2 & Hw & Hc2 & Hs2 & Ht2 & Hf2).
    rewrite Hw. exists w2. split; [reflexivity|]. split.
    + rewrite Hf2. rewrite take_app_le by (unfold PyStr.len in *; lia). reflexivity.
    + exact Ht2.
Qed.

(** C2.  Under a cap [C > 0], when the copy of a body starts with
    nothing buffered and more than [C] bytes arrive, [copy_to_fd] does
    not return: the file gets the first [C] bytes of what arrives, the
    truncation warning is logged once, and the marker, which the limiter
    writes as a [str] to a file opened in binary mode, ends the copy
    with [TypeError].  The marker is not in the file. *)
Theorem copy_to_fd_truncation_raises (cid : nat) (fd : string) (cap : Z) (w : World)
    (cs : list string) (rest : list recv_result) (old : string) :
  0 < cap ->
  cid ∉ shut_rd w ->
  ctx_buf (ctxs w !!! cid) = Some "" ->
  ctx_incoming (ctxs w !!! cid) = ((RecvData <$> cs) ++ rest)%list ->
  fs_files w !! fd = Some old ->
  cap < PyStr.len (String.concat "" cs) ->
  exists w',
    copy_to_fd cid fd (Some cap) w = (Raise TypeError, w')
    /\ fs_files w'
       = <[fd := old ++ PyStr.take (Z.to_nat cap) (String.concat "" cs)]> (fs_files w)
    /\ truncation_warnings (trace w') = S (truncation_warnings (trace w)).
Proof.
  intros Hcap Hs Hbuf Hi Hold Hlen. unfold copy_to_fd.
  assert (Hnz : negb (cap =? 0) = true) by (apply negb_true_iff, Z.eqb_neq; lia).
  rewrite Hnz.
  unfold bind at 1, drain_buffer, bind at 1, the_ctx at 1.
  unfold bind at 1, update_ctx at 1, modify at 1. unfold ret at 1.
  rewrite Hbuf. cbn iota beta.
  set (w1 := set_ctxs _ w).
  unfold bind at 1, sink_write, bind at 1, WriteLimiter_write.
  cbn [wl_fd wl_remain wl_warned data_len data_slice_to].
  change (PyStr.len "") with 0. replace (Z.min 0 cap) with 0 by lia.
  cbn [Z.eqb negb andb]. unfold bind at 1, ret at 1 2 3.
  unfold bind at 1, get at 1. unfold bind at 1.
  destruct (copy_loop_overflow cs (S (pending cid w1)) cid fd cap w1 rest old)
    as (w' & Hloop & Hfs & Htr).
  - unfold pending. subst w1. cbn. rewrite lookup_total_insert_eq. cbn.
    rewrite Hi, length_app, length_fmap. lia.
  - exact Hs.
  - subst w1. cbn. rewrite lookup_total_insert_eq. exact Hi.
  - lia.
  - exact Hold.
  - rewrite Hloop. exists w'. split; [reflexivity|]. split; [exact Hfs|].
    unfold truncation_warnings. rewrite Htr, List.filter_app, length_app. cbn. lia.
Qed.
(** * FILE uploads: the way to the exclusive open *)

Section RaisesOnly.
Context (P : exn -> Prop).

Lemma raises_ret {A} (a : A) : raises_only P (ret a).
Proof. intros w e w' H. discriminate. Qed.

Lemma raises_lift {A} (r : res A) :
  (forall e, r = Raise e -> P e) -> raises_only P (lift r).
Proof. intros Hr w e w' [= -> _]. by apply Hr. Qed.

Lemma raises_modify f : raises_only P (modify f).
Proof. intros w e w' H. discriminate. Qed.

Lemma raises_bind {A B} (m : M A) (k : A -> M B) :
  raises_only P m -> (forall a, raises_only P (k a)) -> raises_only P (bind m k).
Proof.
  intros Hm Hk w e w' H. apply bind_inv in H as [(e0 & H & [= ->])|(a & w1 & _ & H)].
  - eapply Hm. exact H.
  - eapply Hk. exact H.
Qed.

End RaisesOnly.

(** What [read_newline] raises. *)
Lemma raises_read_newline cid : raises_only upload_failure (read_newline cid).
Proof.
  intros w e w'. rewrite read_newline_turn_eq. unfold read_newline_turn.
  unfold bind at 1, the_ctx at 1.
  destruct (ctx_buf (ctxs w !!! cid)) as [buf|]; [|intros [= <- _]; exact I].
  cbn zeta. destruct (PyStr.find PyStr.newline buf <? 0).
  2:{ unfold bind, update_ctx, modify, ret. discriminate. }
  destruct (MAX_NETLOG_LINE <=? PyStr.len buf); [intros [= <- _]; exact I|].
  unfold bind at 1. destruct (read cid w) as [[d|e0] w1] eqn:Hrd.
  - destruct (is_empty_str d); intros [= <- _]; exact I.
  - apply read_raise in Hrd as [n ->]. intros [= <- _]. exact I.
Qed.

Lemma raises_FileUpload_header X p : raises_only upload_failure (FileUpload_header X p).
Proof.
  unfold FileUpload_header, emit.
  apply (raises_bind upload_failure); [apply raises_modify|intros _].
  destruct (ph_header p) as [| |z| | | |];
    try (apply (raises_bind upload_failure);
           [apply raises_lift; intros e [= <-]; exact I|intros ?; apply raises_ret]).
  - apply (raises_bind upload_failure); [apply raises_read_newline|].
    intros ?. apply raises_ret.
  - destruct (z =? 2).
    + repeat (apply (raises_bind upload_failure); [apply raises_read_newline|intros ?]).
      apply raises_ret.
    + apply (raises_bind upload_failure);
        [apply raises_lift; intros e [= <-]; exact I|intros ?; apply raises_ret].
Qed.

Lemma same_files_header X p : preserves same_files (FileUpload_header X p).
Proof.
  apply (preserves_FileUpload_header same_files).
  - apply same_files_update_ctx.
  - apply same_files_emit.
Qed.

(** The middle part of an upload never gets as far as its open: the
    dump path is missing, or is no [str], or is banned, or has a name
    that cannot be tested against [BANNED_PATH_CHARS], or, with an empty
    name, has passed the guard and has no [decode]. *)
Lemma FileUpload_open_raises p w :
  exists e t,
    FileUpload_open p w = (Raise e, set_trace (fun tr => (tr ++ t)%list) w)
    /\ upload_failure e
    /\ (t = [] \/ exists s, t = [EvLog DEBUG (MsgFileUploadFor (ph_task_id p) s)]).
Proof.
  assert (Hid : forall e : exn,
            (Raise e, w) = (@Raise (string * string * json * json) e,
                            set_trace (fun tr => (tr ++ [])%list) w)).
  { intros e. f_equal. unfold set_trace. rewrite app_nil_r. by destruct w. }
  unfold FileUpload_open. unfold bind at 1, the_ctx at 1. unfold bind at 1, lift at 1.
  destruct (dict_get (ph_header p) "store_as" JNull) as [v|e0] eqn:Hv.
  2:{ exists e0, []. split; [apply Hid|]. split; [|by left].
      destruct (ph_header p); try discriminate; injection Hv as <-; exact I. }
  destruct (negb (truthy v)).
  { eexists _, []. split; [apply Hid|]. split; [exact I|by left]. }
  unfold bind at 1.
  destruct v as [| | |s| | |];
    try (exists AttributeError, []; split; [apply Hid|]; split; [exact I|by left]).
  unfold lift at 1.
  destruct (netlog_sanitize_fname s) as [dp|e0] eqn:Hsan.
  2:{ exists e0, []. split; [apply Hid|]. split; [|by left].
      revert Hsan. unfold netlog_sanitize_fname.
      destruct (PosixPath.split _) as [d n].
      destruct (negb _); [intros [= <-]; exact I|].
      rewrite any_banned_result. destruct (PyStr.str_eqb n "");
        [discriminate|intros [= <-]; exact I]. }
  assert (Hd : exists kv, ph_header p = JDict kv).
  { destruct (ph_header p); try discriminate. eauto. }
  destruct Hd as [kv Hkv]. rewrite Hkv. cbn [dict_get].
  unfold bind at 1, lift at 1. unfold bind at 1, lift at 1.
  unfold bind at 1, log, emit, modify.
  unfold bind at 1, lift at 1, str_decode.
  exists AttributeError, [EvLog DEBUG (MsgFileUploadFor (ph_task_id p) dp)].
  split; [reflexivity|]. split; [exact I|]. right. eauto.
Qed.

(** Every FILE upload fails, and fails before it has touched a file. *)
Lemma FileUpload_handle_raises X p w :
  exists e w',
    FileUpload_handle X p w = (Raise e, w') /\ upload_failure e /\ same_files w w'.
Proof.
  unfold FileUpload_handle, bind.
  pose proof (same_files_header X p w) as Hsf.
  destruct (FileUpload_header X p w) as [[p1|e] w1] eqn:Hh; cbn in Hsf.
  - unfold FileUpload_store, bind.
    destruct (FileUpload_open_raises p1 w1) as (e & t & -> & He & _).
    exists e. eexists. split; [reflexivity|]. split; [exact He|].
    etransitivity; [exact Hsf|]. split; reflexivity.
  - exists e, w1. split; [reflexivity|]. split; [|exact Hsf].
    eapply raises_FileUpload_header. exact Hh.
Qed.

(** C9.  A FILE upload that ends with one of the errors that precede the
    body (no dump path, banned path, overwrite, failed open) leaves the
    file system, the journal with it, as it found it.  In every run the
    file system is either unchanged or holds the destination, which did
    not exist before: the journal is written only after the exclusive
    open has succeeded. *)
Theorem journal_only_after_open (X : Externals) (p : ProtocolHandler)
    (w : World) (r : res ProtocolHandler) (w' : World) :
  FileUpload_handle X p w = (r, w') ->
  (forall e, r = Raise e -> early_error e ->
     same_files w w'
     /\ forall storagepath,
          fs_files w' !! filelog storagepath = fs_files w !! filelog storagepath)
  /\ (same_files w w'
      \/ exists dest, Os.exists_b dest w = false /\ is_Some (fs_files w' !! dest)).
Proof.
  intros Hrun.
  destruct (FileUpload_handle_raises X p w) as (e0 & w0 & Hr & _ & Hsf).
  rewrite Hrun in Hr. injection Hr as -> ->.
  split; [|left; exact Hsf].
  intros e _ _. split; [exact Hsf|]. intros sp. destruct Hsf as [-> _]. reflexivity.
Qed.

(** C1.  No FILE upload gets as far as the exclusive open.  Every run of
    the handler, whatever its header and whatever arrives, ends with an
    exception that is not the overwrite error, and leaves every file and
    directory as it was.  An upload that is to be stored as
    ["shots/1.jpg"] ends, with only the socket timeout set, at the test
    of the file name against [BANNED_PATH_CHARS], which looks for a [str]
    in a [bytes] object: the first such upload stores nothing, and so a
    second one has nothing to find. *)
Theorem file_upload_never_opens (X : Externals) :
  (forall p w, exists e w',
      FileUpload_handle X p w = (Raise e, w')
      /\ upload_failure e
      /\ (forall t, e <> CuckooOperationalError (Overwrite t))
      /\ same_files w w')
  /\ (forall task_id cid w,
        FileUpload_handle X
          (new_protocol FILE task_id cid (JDict [("store_as", JStr "shots/1.jpg")])) w
        = (Raise TypeError,
           set_trace (fun t => (t ++ [EvSetTimeout cid (Some 30)])%list) w)).
Proof.
  split.
  - intros p w. destruct (FileUpload_handle_raises X p w) as (e & w' & Hr & He & Hsf).
    exists e, w'. split; [exact Hr|]. split; [exact He|]. split; [|exact Hsf].
    intros t ->. exact He.
  - intros task_id cid w. reflexivity.
Qed.
(** * The claims on concrete sessions *)

(** C7 on a first line that names the command [FOO]. *)
Lemma unknown_command_never_read_witness :
  exists w',
    handle (stub_externals [] 10) id 3%nat [RecvData ("FOO" ++ LF)] "10.0.0.5" idle_world
    = (Raise TypeError, w')
    /\ trace w' = [EvAcquire; EvRelease; EvTaskLogStart 7; EvTaskLogStop 7]
    /\ ctx_command (ctxs w' !!! 3%nat) = None
    /\ same_registry idle_world w' /\ same_files idle_world w'.
Proof.
  apply (unknown_command_never_read (stub_externals [] 10) id 3%nat "10.0.0.5"
           idle_world 7 ("FOO" ++ LF) []).
  - reflexivity.
  - discriminate.
  - apply not_elem_of_empty.
Defined.

(** The run of C7's failing input, event by event. *)
Example unknown_command_run :
  let '(r, w') := serve_connection (stub_externals [] 10) id 3%nat
                    [RecvData ("FOO" ++ LF)] "10.0.0.5" idle_world in
  r = Raise TypeError
  /\ handlers w' = ∅
  /\ trace w'
     = [EvAcquire; EvRelease; EvTaskLogStart 7; EvTaskLogStop 7; EvSockClose 3%nat].
Proof. vm_compute. repeat split; reflexivity. Qed.

(** C6 on concrete input: a buffer of 4096 characters without a line
    feed; three bytes that arrive for an empty buffer; a negotiation
    line of exactly 4096 bytes; and a peer that closes at once. *)
Lemma read_newline_refuses_deliveries_witness :
  let long := PyStr.repeat_char "a"%char 4096 in
  let full := set_ctxs (insert 3%nat (with_buf (Some long) (new_ctx 7 "/s/7" [] None)))
                idle_world in
  let fresh := set_ctxs (insert 3%nat (new_ctx 7 "/s/7" [RecvData "abc"] None))
                 idle_world in
  read_newline 3%nat full = (Raise (CuckooOperationalError OverlyLongLine), full)
  /\ read_newline 3%nat fresh
     = (Raise TypeError,
        set_ctxs (fun m => <[3%nat := with_incoming [] (m !!! 3%nat)]> m) fresh)
  /\ (exists w',
        serve_connection (stub_externals [] 10) id 3%nat [RecvData long] "10.0.0.5"
          idle_world
        = (Raise TypeError, w')
        /\ last (trace w') = Some (EvSockClose 3%nat)
        /\ same_files idle_world w' /\ same_registry idle_world w')
  /\ (exists w',
        serve_connection (stub_externals [] 10) id 3%nat [] "10.0.0.5" idle_world
        = (Raise TypeError, w')
        /\ last (trace w') = Some (EvSockClose 3%nat)
        /\ same_files idle_world w' /\ same_registry idle_world w').
Proof.
  intros long full fresh.
  destruct read_newline_refuses_deliveries as (Hlong & Hdata & _ & Hneg).
  split; [|split; [|split]].
  - apply (Hlong 3%nat full long).
    + vm_compute. reflexivity.
    + vm_compute. reflexivity.
    + vm_compute. discriminate.
  - apply (Hdata 3%nat fresh "" "abc" []).
    + vm_compute. reflexivity.
    + vm_compute. reflexivity.
    + vm_compute. reflexivity.
    + apply not_elem_of_empty.
    + vm_compute. reflexivity.
  - apply (Hneg (stub_externals [] 10) id 3%nat "10.0.0.5" idle_world 7 [RecvData long]).
    + reflexivity.
    + discriminate.
    + apply not_elem_of_empty.
    + right. eauto.
  - apply (Hneg (stub_externals [] 10) id 3%nat "10.0.0.5" idle_world 7 []).
    + reflexivity.
    + discriminate.
    + apply not_elem_of_empty.
    + by left.
Defined.

(** C8 on a task with one running session. *)
Lemma del_task_cancels_under_lock_witness :
  exists mid,
    trace (snd (del_task 7 "10.0.0.5" registered_world))
    = (trace registered_world ++ EvAcquire :: mid ++ [EvRelease])%list
    /\ EvCancel 3%nat ∈ mid
    /\ all_under_lock is_cancel false (EvAcquire :: mid ++ [EvRelease]) = true.
Proof.
  destruct (del_task_cancels_under_lock 7 "10.0.0.5" registered_world
              (snd (del_task 7 "10.0.0.5" registered_world)))
    as (mid & Htr & _ & _ & _ & _ & _ & Hc & _ & _ & _ & Hall & _).
  - vm_compute. reflexivity.
  - exists mid. split; [exact Htr|]. split; [|exact Hall].
    apply Hc. vm_compute. set_solver.
Defined.

(** C8 as stated fails: the session of the task is cancelled between the
    taking and the release of the lock. *)
Lemma del_task_cancels_before_release :
  let '(r, w') := del_task 7 "10.0.0.5" registered_world in
  r = Ok tt
  /\ trace w'
     = [EvAcquire; EvRegistry (TasksPop "10.0.0.5"); EvRegistry (RtPop 7);
        EvRegistry (HandlersPop 7); EvLog WARNING (MsgCancel 3%nat 7);
        EvCancel 3%nat; EvRelease]
  /\ all_outside_lock is_cancel false (trace w') = false.
Proof. vm_compute. repeat split; reflexivity. Qed.

(** C2 under a cap of ten bytes: thirteen bytes arrive. *)
Lemma copy_to_fd_truncation_raises_witness :
  exists w',
    copy_to_fd 3%nat "/s/7/shots/1.jpg" (Some 10) copying_world = (Raise TypeError, w')
    /\ fs_files w' !! "/s/7/shots/1.jpg" = Some "0123456789"
    /\ truncation_warnings (trace w') = 1%nat.
Proof.
  destruct (copy_to_fd_truncation_raises 3%nat "/s/7/shots/1.jpg" 10 copying_world
              ["0123456789"; "abc"] [] "")
    as (w' & Hrun & Hfs & Hn).
  - reflexivity.
  - apply not_elem_of_empty.
  - vm_compute. reflexivity.
  - vm_compute. reflexivity.
  - vm_compute. reflexivity.
  - vm_compute. reflexivity.
  - exists w'. split; [exact Hrun|]. split.
    + rewrite Hfs. rewrite lookup_insert_eq. vm_compute. reflexivity.
    + rewrite Hn. vm_compute. reflexivity.
Defined.

(** The run of C2's failing input. *)
Example truncated_copy_run :
  let '(r, w') := copy_to_fd 3%nat "/s/7/shots/1.jpg" (Some 10) copying_world in
  r = Raise TypeError
  /\ fs_files w' !! "/s/7/shots/1.jpg" = Some "0123456789"
  /\ trace w' = [EvLog WARNING MsgTruncated].
Proof. vm_compute. repeat split; reflexivity. Qed.

(** C4 on a header that carries [rid]: the [rid] is put on the handler,
    and the session ends without a call of [on_message]. *)
Lemma file_rid_never_forwarded_witness :
  let X := stub_externals [(rid_header_text, rid_header)] 10 in
  (exists w1, FileUpload_header X (new_protocol FILE 7 3%nat rid_header) idle_world
              = (Ok (with_response_id (JInt 5) (new_protocol FILE 7 3%nat rid_header)), w1)
     /\ ctxs w1 = ctxs idle_world)
  /\ exists r w',
       handle X id 3%nat [RecvData ("FILE " ++ rid_header_text ++ LF ++ "abc")]
         "10.0.0.5" idle_world = (r, w')
       /\ ctx_response_id (ctxs w' !!! 3%nat) = JNull
       /\ List.filter is_on_message (trace w')
          = List.filter is_on_message (trace idle_world).
Proof.
  intros X. split.
  - apply (proj1 (file_rid_never_forwarded X) (new_protocol FILE 7 3%nat rid_header)
             [("store_as", JStr "shots/2.jpg"); ("rid", JInt 5)] (JInt 5) idle_world);
      reflexivity.
  - destruct (handle X id 3%nat [RecvData ("FILE " ++ rid_header_text ++ LF ++ "abc")]
                "10.0.0.5" idle_world) as [r w'] eqn:Hrun.
    exists r, w'. split; [reflexivity|].
    apply (proj2 (file_rid_never_forwarded X) 3%nat "10.0.0.5" idle_world 7
             ("FILE " ++ rid_header_text ++ LF ++ "abc") [] r w').
    + reflexivity.
    + discriminate.
    + apply not_elem_of_empty.
    + vm_compute. discriminate.
    + vm_compute. reflexivity.
    + exact Hrun.
Defined.

(** C9 on a banned path. *)
Lemma journal_only_after_open_witness :
  let X := stub_externals [] 10 in
  let p := new_protocol FILE 7 3%nat (JDict [("store_as", JStr "../etc/passwd")]) in
  exists r w',
    FileUpload_handle X p idle_world = (r, w')
    /\ r = Raise (CuckooOperationalError (BannedPath "../etc/passwd"))
    /\ same_files idle_world w'
    /\ fs_files w' !! filelog "/s/7" = fs_files idle_world !! filelog "/s/7".
Proof.
  intros X p.
  destruct (FileUpload_handle X p idle_world) as [r w'] eqn:Hrun.
  exists r, w'. split; [reflexivity|].
  assert (Hr : r = Raise (CuckooOperationalError (BannedPath "../etc/passwd"))).
  { vm_compute in Hrun. congruence. }
  split; [exact Hr|].
  destruct (journal_only_after_open X p idle_world r w' Hrun) as [Hearly _].
  destruct (Hearly _ Hr I) as [Hsf Hj]. split; [exact Hsf|apply Hj].
Defined.

(** The two uploads of C1, run one after the other: neither stores
    anything. *)
Example same_store_as_both_fail :
  let X := stub_externals [] 10 in
  let p := new_protocol FILE 7 3%nat (JDict [("store_as", JStr "shots/1.jpg")]) in
  let '(r1, w1) := FileUpload_handle X p idle_world in
  let '(r2, w2) := FileUpload_handle X p w1 in
  r1 = Raise TypeError /\ r2 = Raise TypeError
  /\ fs_files w1 = ∅ /\ fs_files w2 = ∅.
Proof. vm_compute. repeat split; reflexivity. Qed.

(** * PathGuard: the paths that are accepted, and where they lead *)

Section PathShape.
Import PyStr.

Lemma slice_from_nat (n : nat) s :
  (n <= String.length s)%nat -> slice_from (Z.of_nat n) s = drop n s.
Proof.
  intros Hn. unfold slice_from, clamp_index, len.
  destruct (Z.of_nat n <? 0) eqn:E; [apply Z.ltb_lt in E; lia|].
  f_equal. lia.
Qed.

Lemma str_take_drop n s : take n s ++ drop n s = s.
Proof.
  revert s. induction n as [|n IH]; intros [|a r]; simpl; try reflexivity.
  rewrite str_app_cons, IH. reflexivity.
Qed.

Lemma str_drop_app_length (a b : string) n :
  drop (String.length a + n) (a ++ b) = drop n b.
Proof.
  induction a as [|x a IH]; [rewrite str_app_nil_l; reflexivity|].
  rewrite str_app_cons. simpl. exact IH.
Qed.

Lemma repeat_char_snoc c k :
  repeat_char c k ++ String c "" = String c (repeat_char c k).
Proof.
  induction k as [|k IH]; simpl; [reflexivity|].
  rewrite str_app_cons, IH. reflexivity.
Qed.

(** A string is what [rstrip] leaves of it, followed by the characters
    stripped. *)
Lemma rstrip_repeat c s : exists j, s = rstrip c s ++ repeat_char c j.
Proof.
  induction s as [|a r [j IH]]; [exists O; reflexivity|].
  simpl rstrip. destruct (str_eqb (rstrip c r) "" && ascii_eqb a c) eqn:E.
  - apply andb_true_iff in E as [E1 E2].
    apply bool_decide_eq_true in E1, E2. subst a.
    rewrite E1, str_app_nil_l in IH. exists (S j).
    rewrite str_app_nil_l. simpl. congruence.
  - exists j. rewrite str_app_cons, <- IH. reflexivity.
Qed.

Lemma rstrip_app_repeat c s k : rstrip c (s ++ repeat_char c k) = rstrip c s.
Proof.
  induction k as [|k IH]; simpl; [by rewrite str_app_nil_r|].
  rewrite <- repeat_char_snoc, <- str_app_assoc, rstrip_snoc. exact IH.
Qed.

Lemma rfind_absent c s : contains c s = false -> rfind c s = -1.
Proof.
  induction s as [|a r IH]; [reflexivity|]. simpl.
  intros H. apply orb_false_iff in H as [Ha Hr]. rewrite (IH Hr), Ha. reflexivity.
Qed.

Lemma rfind_neg_absent c s : rfind c s < 0 -> contains c s = false.
Proof.
  induction s as [|a r IH]; [reflexivity|]. simpl.
  destruct (0 <=? rfind c r) eqn:E; [apply Z.leb_le in E; lia|].
  apply Z.leb_gt in E. destruct (ascii_eqb a c); [lia|].
  intros _. exact (IH E).
Qed.

Lemma rfind_app_sep c a name :
  contains c name = false -> rfind c (a ++ String c name) = len a.
Proof.
  intros Hn. induction a as [|x a IH].
  - rewrite str_app_nil_l. simpl. rewrite (rfind_absent _ _ Hn). simpl.
    unfold ascii_eqb. rewrite bool_decide_eq_true_2 by reflexivity. reflexivity.
  - rewrite str_app_cons. simpl rfind. rewrite IH, len_String.
    pose proof (len_nonneg a).
    destruct (0 <=? len a) eqn:E; [reflexivity|apply Z.leb_gt in E; lia].
Qed.

(** Nothing after the index that [rfind] returns holds the character
    looked for. *)
Lemma rfind_tail_clean c s :
  0 <= rfind c s -> contains c (drop (S (Z.to_nat (rfind c s))) s) = false.
Proof.
  induction s as [|a r IH]; simpl rfind; [lia|].
  destruct (0 <=? rfind c r) eqn:E.
  - apply Z.leb_le in E. intros _.
    replace (Z.to_nat (rfind c r + 1)) with (S (Z.to_nat (rfind c r))) by lia.
    exact (IH E).
  - apply Z.leb_gt in E. destruct (ascii_eqb a c); [|lia].
    intros _. simpl. by apply rfind_neg_absent.
Qed.

(** A whitelisted name starts with a character other than a slash, and
    no slash ends it. *)
Lemma whitelisted_head d :
  d ∈ RESULT_UPLOADABLE ->
  rstrip slash d = d /\ exists x r, d = String x r /\ x <> slash.
Proof.
  unfold RESULT_UPLOADABLE. rewrite !elem_of_cons, elem_of_nil.
  intros H.
  repeat (destruct H as [->|H];
          [split; [reflexivity|eexists _, _; split; [reflexivity|discriminate]]|]).
  done.
Qed.

(** [os.path.split] of a whitelisted directory, slashes and a name. *)
Lemma posix_split_dir d k name :
  d ∈ RESULT_UPLOADABLE -> contains slash name = false ->
  PosixPath.split (d ++ repeat_char slash (S k) ++ name) = (d, name).
Proof.
  intros Hd Hn. destruct (whitelisted_head d Hd) as (Hrs & x & r & Hx & Hne).
  set (a := d ++ repeat_char slash k).
  assert (Hp : d ++ repeat_char slash (S k) ++ name = a ++ String slash name).
  { subst a. change (repeat_char slash (S k)) with (String slash (repeat_char slash k)).
    rewrite <- repeat_char_snoc, !str_app_assoc, str_app_cons, str_app_nil_l.
    reflexivity. }
  rewrite Hp. unfold PosixPath.split. rewrite (rfind_app_sep _ _ _ Hn).
  unfold len. replace (Z.of_nat (String.length a) + 1)
    with (Z.of_nat (S (String.length a))) by lia.
  rewrite slice_to_nat, slice_from_nat by (rewrite str_length_app; simpl; lia).
  rewrite take_app_ge by lia.
  replace (S (String.length a) - String.length a)%nat with 1%nat by lia.
  replace (S (String.length a)) with (String.length a + 1)%nat by lia.
  rewrite str_drop_app_length. simpl take. simpl drop.
  assert (Hhead : a ++ String slash "" = String x (r ++ repeat_char slash (S k))).
  { subst a. rewrite str_app_assoc, repeat_char_snoc, Hx, str_app_cons. reflexivity. }
  assert (Hstrip : rstrip slash (a ++ String slash "") = d).
  { subst a. rewrite rstrip_snoc, rstrip_app_repeat. exact Hrs. }
  rewrite Hstrip, Hhead.
  unfold str_eqb at 1 2. simpl String.length.
  rewrite !bool_decide_eq_false_2; [reflexivity| |discriminate].
  simpl. intros [= E _]. exact (Hne E).
Qed.

(** A path whose directory, as [os.path.split] gives it, is whitelisted
    is that directory, one or more slashes, and a name without a
    slash. *)
Lemma split_shape path d name :
  PosixPath.split path = (d, name) -> d ∈ RESULT_UPLOADABLE ->
  exists k, path = d ++ repeat_char slash (S k) ++ name
    /\ contains slash name = false.
Proof.
  intros Hsp Hd.
  assert (Hd' : fst (PosixPath.split path) ∈ RESULT_UPLOADABLE) by (rewrite Hsp; exact Hd).
  destruct (posix_split_whitelisted path Hd') as [Hfst Hsnd].
  rewrite Hsp in Hfst, Hsnd. cbn [fst snd] in Hfst, Hsnd.
  unfold split_on_last_slash in Hfst, Hsnd.
  pose proof (rfind_bounds slash path) as Hb.
  destruct (rfind slash path <? 0) eqn:E.
  - cbn [fst] in Hfst. simpl in Hfst. subst d.
    apply whitelisted_not_slashes in Hd as [Hd _]. discriminate.
  - apply Z.ltb_ge in E. cbn [fst snd] in Hfst, Hsnd.
    set (i := Z.to_nat (rfind slash path)) in *.
    assert (Hi : rfind slash path = Z.of_nat i) by (subst i; lia).
    assert (Hlt : (i < String.length path)%nat) by (unfold len in Hb; lia).
    replace (rfind slash path + 1) with (Z.of_nat (S i)) in Hsnd by lia.
    rewrite Hi, slice_to_nat in Hfst by lia.
    rewrite slice_from_nat in Hsnd by lia.
    destruct (rstrip_repeat slash (take i path)) as [j Hj].
    rewrite <- Hfst in Hj.
    exists j. split.
    + rewrite <- (str_take_drop (S i) path) at 1.
      subst i. rewrite take_rfind by lia. rewrite Hj, <- Hsnd.
      change (repeat_char slash (S j)) with (String slash (repeat_char slash j)).
      rewrite <- repeat_char_snoc, !str_app_assoc. reflexivity.
    + rewrite Hsnd. subst i. by apply rfind_tail_clean.
Qed.

(** The three outcomes of the guard, by the directory and the name of
    the path. *)
Lemma sanitize_cases raw :
  let path := replace_char backslash slash raw in
  netlog_sanitize_fname raw
  = if negb (bool_decide (fst (PosixPath.split path) ∈ RESULT_UPLOADABLE))
    then Raise (CuckooOperationalError (BannedPath path))
    else if str_eqb (snd (PosixPath.split path)) "" then Ok path
    else Raise TypeError.
Proof.
  intros path. unfold netlog_sanitize_fname. fold path.
  destruct (PosixPath.split path) as [d name]. cbn [fst snd].
  destruct (negb _); [reflexivity|].
  rewrite any_banned_result. destruct (str_eqb name ""); reflexivity.
Qed.

Lemma replace_char_idem a b s :
  a <> b -> replace_char a b (replace_char a b s) = replace_char a b s.
Proof.
  intros Hab. induction s as [|c r IH]; [reflexivity|]. simpl. rewrite IH.
  f_equal. unfold ascii_eqb. destruct (decide (c = a)) as [->|Hc].
  - rewrite (bool_decide_eq_true_2 (a = a)) by reflexivity.
    rewrite (bool_decide_eq_false_2 (b = a)) by congruence. reflexivity.
  - rewrite !(bool_decide_eq_false_2 (c = a)) by exact Hc. reflexivity.
Qed.

End PathShape.

(** X1.  The paths that [netlog_sanitize_fname] accepts are exactly those
    that, once every backslash is a slash, consist of a whitelisted
    directory and one or more slashes, with no file name after them.
    Whenever a file name follows, with a banned character or without,
    the test of its first character against [BANNED_PATH_CHARS] is a
    [TypeError]; paths under any other directory, and bare names, are
    banned. *)
Theorem sanitize_accepted_paths (raw p : string) :
  (netlog_sanitize_fname raw = Ok p <->
   p = PyStr.replace_char PyStr.backslash PyStr.slash raw
   /\ exists d k, d ∈ RESULT_UPLOADABLE
        /\ p = d ++ PyStr.repeat_char PyStr.slash (S k))
  /\ (netlog_sanitize_fname raw = Raise TypeError <->
      exists d k name, d ∈ RESULT_UPLOADABLE
        /\ PyStr.replace_char PyStr.backslash PyStr.slash raw
           = d ++ PyStr.repeat_char PyStr.slash (S k) ++ name
        /\ name <> "" /\ PyStr.contains PyStr.slash name = false).
Proof.
  pose proof (sanitize_cases raw) as Hc. cbn zeta in Hc.
  set (path := PyStr.replace_char PyStr.backslash PyStr.slash raw) in *.
  destruct (PosixPath.split path) as [d name] eqn:Hsp. cbn [fst snd] in Hc.
  rewrite Hc. clear Hc. split; split.
  - case_bool_decide as Hd; cbn [negb]; [|discriminate].
    destruct (PyStr.str_eqb name "") eqn:En; [|discriminate].
    apply bool_decide_eq_true in En. subst name. intros [= <-].
    split; [reflexivity|].
    destruct (split_shape path d "" Hsp Hd) as (k & Hp & _).
    exists d, k. split; [exact Hd|]. rewrite Hp. by rewrite str_app_nil_r.
  - intros (-> & d0 & k & Hd0 & Hp).
    assert (Hs0 : PosixPath.split path = (d0, "")).
    { rewrite Hp. rewrite <- (str_app_nil_r (PyStr.repeat_char PyStr.slash (S k))).
      by apply posix_split_dir. }
    rewrite Hsp in Hs0. injection Hs0 as -> ->.
    rewrite bool_decide_eq_true_2 by exact Hd0. reflexivity.
  - case_bool_decide as Hd; cbn [negb]; [|discriminate].
    destruct (PyStr.str_eqb name "") eqn:En; [discriminate|].
    apply bool_decide_eq_false in En. intros _.
    destruct (split_shape path d name Hsp Hd) as (k & Hp & Hsl).
    exists d, k, name. done.
  - intros (d0 & k & name0 & Hd0 & Hp & Hne & Hsl).
    rewrite Hp, (posix_split_dir d0 k name0 Hd0 Hsl) in Hsp.
    injection Hsp as <- <-.
    rewrite bool_decide_eq_true_2 by exact Hd0. cbn [negb].
    unfold PyStr.str_eqb. rewrite bool_decide_eq_false_2 by exact Hne. reflexivity.
Qed.

(** X2.  The guard is idempotent: a path it has accepted is accepted again,
    unchanged. *)
Theorem sanitize_idempotent (raw p : string) :
  netlog_sanitize_fname raw = Ok p -> netlog_sanitize_fname p = Ok p.
Proof.
  rewrite !sanitize_cases. cbn zeta.
  set (path := PyStr.replace_char PyStr.backslash PyStr.slash raw).
  destruct (negb _) eqn:Hd; [discriminate|].
  destruct (PyStr.str_eqb _ "") eqn:Hn; [|discriminate]. intros [= <-].
  subst path. rewrite replace_char_idem by discriminate.
  rewrite Hd, Hn. reflexivity.
Qed.

Lemma sanitize_idempotent_witness :
  netlog_sanitize_fname "files\" = Ok "files/"
  /\ netlog_sanitize_fname "files/" = Ok "files/".
Proof.
  split; [reflexivity|].
  apply (sanitize_idempotent "files\"). reflexivity.
Defined.

(** X4.  [reports], the one result directory that is not in the whitelist of
    uploads, cannot be written to through the guard: every path that
    leads into it is rejected. *)
Theorem reports_is_not_uploadable (raw name : string) :
  PyStr.replace_char PyStr.backslash PyStr.slash raw = "reports/" ++ name ->
  "reports" ∈ RESULT_DIRECTORIES
  /\ netlog_sanitize_fname raw = Raise (CuckooOperationalError (BannedPath ("reports/" ++ name))).
Proof.
  intros Hraw. split; [unfold RESULT_DIRECTORIES, RESULT_UPLOADABLE; set_solver|].
  rewrite sanitize_cases. cbn zeta. rewrite Hraw.
  destruct (PosixPath.split ("reports/" ++ name)) as [d nm] eqn:Hsp. cbn [fst snd].
  case_bool_decide as Hd; [|reflexivity]. exfalso.
  destruct (split_shape _ d nm Hsp Hd) as (k & Hp & _). revert Hp.
  unfold RESULT_UPLOADABLE in Hd. rewrite !elem_of_cons, elem_of_nil in Hd.
  repeat (destruct Hd as [->|Hd]; [rewrite !str_app_cons; discriminate|]). done.
Qed.

Lemma reports_is_not_uploadable_witness :
  "reports" ∈ RESULT_DIRECTORIES
  /\ netlog_sanitize_fname "reports\report.json"
     = Raise (CuckooOperationalError (BannedPath ("reports/" ++ "report.json"))).
Proof.
  apply (reports_is_not_uploadable "reports\report.json" "report.json"). reflexivity.
Defined.

(** * What the reader returns and what the copy does without a cap *)

Section FindFacts.
Import PyStr.

(** The index that [find] returns cuts the string at the first
    occurrence of the character. *)
Lemma find_split c s :
  0 <= find c s ->
  s = take (Z.to_nat (find c s)) s ++ String c (drop (S (Z.to_nat (find c s))) s)
  /\ contains c (take (Z.to_nat (find c s)) s) = false.
Proof.
  induction s as [|a r IH]; simpl find; [lia|].
  unfold ascii_eqb. case_bool_decide as Hac.
  - intros _. subst a. simpl. rewrite str_app_nil_l. done.
  - destruct (find c r <? 0) eqn:E; [lia|]. apply Z.ltb_ge in E. intros _.
    destruct (IH E) as [IH1 IH2].
    replace (Z.to_nat (find c r + 1)) with (S (Z.to_nat (find c r))) by lia.
    set (n := Z.to_nat (find c r)) in *.
    change (take (S n) (String a r)) with (String a (take n r)).
    change (drop (S (S n)) (String a r)) with (drop (S n) r).
    rewrite str_app_cons, <- IH1. split; [reflexivity|].
    cbn [contains]. unfold ascii_eqb.
    rewrite bool_decide_eq_false_2 by exact Hac. exact IH2.
Qed.

Lemma find_app_sep c a b :
  contains c a = false -> find c (a ++ String c b) = len a.
Proof.
  intros Ha. induction a as [|x a IH].
  - rewrite str_app_nil_l. simpl. unfold ascii_eqb.
    rewrite bool_decide_eq_true_2 by reflexivity. reflexivity.
  - simpl in Ha. apply orb_false_iff in Ha as [Hx Ha].
    rewrite str_app_cons. simpl find. rewrite Hx, (IH Ha), len_String.
    pose proof (len_nonneg a).
    destruct (len a <? 0) eqn:E; [apply Z.ltb_lt in E; lia|reflexivity].
Qed.

Lemma line_cut (line rest : string) :
  line ++ LF ++ rest = line ++ String newline rest.
Proof. unfold LF. rewrite str_app_cons, str_app_nil_l. reflexivity. Qed.

End FindFacts.

(** X5.  [read_newline] returns a line exactly when the line, followed
    by a line feed, is at the head of the buffer already; it then takes
    the two off the buffer and does nothing else: the socket is not read
    and nothing is logged.  A line never comes from the socket. *)
Theorem read_newline_serves_buffer (cid : nat) (w w' : World) (line : string) :
  read_newline cid w = (Ok line, w') <->
  PyStr.contains PyStr.newline line = false
  /\ exists rest,
       ctx_buf (ctxs w !!! cid) = Some (line ++ LF ++ rest)
       /\ w' = set_ctxs (fun m => <[cid := with_buf (Some rest) (m !!! cid)]> m) w.
Proof.
  split.
  - intros H. apply read_newline_Ok in H as (buf & Hb & Hpos & -> & ->).
    pose proof (find_bounds PyStr.newline buf) as Hfb.
    destruct (find_split PyStr.newline buf Hpos) as [Hcut Hclean].
    rewrite slice_to_nonneg by lia. split; [exact Hclean|].
    exists (PyStr.drop (S (Z.to_nat (PyStr.find PyStr.newline buf))) buf).
    split.
    + rewrite Hb, line_cut. f_equal. exact Hcut.
    + replace (PyStr.find PyStr.newline buf + 1)
        with (Z.of_nat (S (Z.to_nat (PyStr.find PyStr.newline buf)))) by lia.
      rewrite slice_from_nat by (unfold PyStr.len in Hfb; lia). reflexivity.
  - intros (Hclean & rest & Hb & ->).
    rewrite read_newline_turn_eq. unfold read_newline_turn.
    unfold bind at 1, the_ctx at 1. rewrite Hb. cbn zeta.
    rewrite line_cut, (find_app_sep _ _ _ Hclean).
    pose proof (len_nonneg line) as Hl.
    destruct (PyStr.len line <? 0) eqn:E; [apply Z.ltb_lt in E; lia|].
    unfold bind, update_ctx, modify, ret. f_equal.
    + f_equal.
      rewrite slice_to_nonneg
        by (rewrite len_app; pose proof (len_nonneg (String PyStr.newline rest)); lia).
      unfold PyStr.len. rewrite Nat2Z.id, take_app_le, take_ge by lia. reflexivity.
    + do 4 f_equal. unfold PyStr.len.
      replace (Z.of_nat (String.length line) + 1)
        with (Z.of_nat (String.length line + 1)) by lia.
      rewrite slice_from_nat by (rewrite str_length_app; cbn; lia).
      rewrite str_drop_app_length. reflexivity.
Qed.

(** A copy without a cap ends at its first write. *)
Lemma copy_to_fd_uncapped cid fd max_size w :
  max_size = None \/ max_size = Some 0 ->
  copy_to_fd cid fd max_size w
  = (Raise TypeError,
     set_ctxs (fun m => <[cid := with_buf None (m !!! cid)]> m) w).
Proof.
  intros Hm. unfold copy_to_fd.
  assert (Hsink : match max_size with
                  | Some n => if negb (n =? 0)
                              then ToLimiter {| wl_fd := fd; wl_remain := n;
                                                wl_warned := false |}
                              else ToFile fd
                  | None => ToFile fd
                  end = ToFile fd) by (destruct Hm as [-> | ->]; reflexivity).
  rewrite Hsink.
  unfold bind at 1, drain_buffer, bind at 1, the_ctx at 1.
  unfold bind at 1, update_ctx at 1, modify at 1. unfold ret at 1.
  destruct (ctx_buf (ctxs w !!! cid)) as [buf|]; reflexivity.
Qed.

(** X7.  Without a cap, [copy_to_fd] writes what it drains from the
    buffer straight to its file, and the file, opened in binary mode,
    takes neither the [str] that the buffer is nor the [None] of a
    buffer that was drained before: the copy ends with [TypeError]
    before it has read anything, with the buffer drained and nothing
    written.  No cap is [max_size=None], as for LOG and BSON, and also
    an [upload_max_size] of [0]. *)
Theorem copy_to_fd_uncapped_fails (cid : nat) (fd : string) (max_size : option Z)
    (w : World) :
  max_size = None \/ max_size = Some 0 ->
  copy_to_fd cid fd max_size w
  = (Raise TypeError,
     set_ctxs (fun m => <[cid := with_buf None (m !!! cid)]> m) w).
Proof. exact (copy_to_fd_uncapped cid fd max_size w). Qed.

Lemma copy_to_fd_uncapped_fails_witness :
  copy_to_fd 3%nat "/s/7/shots/1.jpg" (Some 0) copying_world
  = (Raise TypeError,
     set_ctxs (fun m => <[3%nat := with_buf None (m !!! 3%nat)]> m) copying_world).
Proof.
  apply (copy_to_fd_uncapped_fails 3%nat "/s/7/shots/1.jpg" (Some 0) copying_world).
  right. reflexivity.
Defined.




(** * What the negotiation and the protocol handlers leave alone *)

Global Instance session_footprint_preorder : PreOrder session_footprint.
Proof.
  split.
  - intros w. repeat split; try reflexivity. exists []. by rewrite app_nil_r.
  - intros a b c ((T1 & R1 & H1) & S1 & D1 & I1 & t1 & E1 & F1)
                 ((T2 & R2 & H2) & S2 & D2 & I2 & t2 & E2 & F2).
    split; [repeat split; congruence|]. split; [congruence|]. split; [congruence|].
    split; [intros cid; rewrite I2; apply I1|].
    exists (t1 ++ t2)%list. rewrite E2, E1, <- app_assoc. split; [reflexivity|].
    rewrite forallb_app, F1, F2. reflexivity.
Qed.

Lemma footprint_update_ctx cid f w :
  (forall c, ctx_response_id (f c) = ctx_response_id c) ->
  session_footprint w (set_ctxs (fun m => <[cid := f (m !!! cid)]> m) w).
Proof.
  intros Hf. repeat split; try reflexivity.
  - intros cid0. cbn. destruct (decide (cid = cid0)) as [->|Hne].
    + rewrite lookup_total_insert_eq. apply Hf.
    + rewrite lookup_total_insert_ne by done. reflexivity.
  - exists []. by rewrite app_nil_r.
Qed.

Lemma footprint_emit ev w :
  is_session_event ev = true ->
  session_footprint w (set_trace (fun t => (t ++ [ev])%list) w).
Proof.
  intros Hev. repeat split; try reflexivity.
  exists [ev]. split; [reflexivity|]. cbn. by rewrite Hev.
Qed.

Lemma footprint_fs f w : session_footprint w (set_fs_files f w).
Proof.
  repeat split; try reflexivity. exists []. by rewrite app_nil_r.
Qed.

Lemma footprint_sock_recv cid : preserves session_footprint (sock_recv cid).
Proof.
  intros w. unfold sock_recv. case_bool_decide; [reflexivity|].
  destruct (ctx_incoming _); [reflexivity|]. cbn.
  apply footprint_update_ctx. reflexivity.
Qed.

Lemma footprint_Os_open path flags : preserves session_footprint (Os.open path flags).
Proof.
  intros w. unfold Os.open.
  repeat match goal with |- context [if ?b then _ else _] => destruct b end;
    cbn; first [reflexivity | apply footprint_fs].
Qed.

Lemma footprint_Os_tell fd : preserves session_footprint (Os.tell fd).
Proof. intros w. reflexivity. Qed.

Ltac footprint_leaf :=
  first [ apply footprint_sock_recv | apply footprint_Os_open | apply footprint_Os_tell
        | apply (preserves_modify session_footprint); intros ?;
          first [ apply footprint_update_ctx; intros ?; reflexivity
                | apply footprint_emit; reflexivity
                | apply footprint_fs ] ].

Ltac footprint_with tac :=
  repeat first
    [ tac
    | frame_step
    | progress unfold log, emit, update_ctx, drain_buffer, read, sink_write,
        WriteLimiter_write, file_write, open_exclusive, builtin_open, diverge,
        Os.write
    | footprint_leaf ].

Lemma footprint_read cid : preserves session_footprint (read cid).
Proof. unfold read. footprint_with fail. Qed.

Lemma footprint_read_newline_loop fuel cid :
  preserves session_footprint (read_newline_loop fuel cid).
Proof.
  induction fuel as [|fuel IH]; cbn [read_newline_loop];
    [apply (preserves_ret session_footprint)|].
  footprint_with ltac:(first [apply footprint_read | apply IH]).
Qed.

Lemma footprint_read_newline cid : preserves session_footprint (read_newline cid).
Proof.
  unfold read_newline.
  apply (preserves_fun session_footprint (fun w0 =>
    bind (read_newline_loop (S (pending cid w0)) cid)
         (fun r => match r with Some line => ret line | None => diverge end))).
  intros w0. footprint_with ltac:(apply footprint_read_newline_loop).
Qed.

Lemma footprint_sink_write s buf : preserves session_footprint (sink_write s buf).
Proof. unfold sink_write. footprint_with fail. Qed.

Lemma footprint_copy_loop fuel cid :
  forall s, preserves session_footprint (copy_loop fuel cid s).
Proof.
  induction fuel as [|fuel IH]; intros s; cbn [copy_loop];
    [apply (preserves_ret session_footprint)|].
  footprint_with ltac:(first [apply footprint_read | apply footprint_sink_write | apply IH]).
Qed.

Lemma footprint_copy_to_fd cid fd max_size :
  preserves session_footprint (copy_to_fd cid fd max_size).
Proof.
  unfold copy_to_fd.
  footprint_with ltac:(first [apply footprint_sink_write | apply footprint_copy_loop]).
Qed.

Lemma footprint_FileUpload_handle X p :
  preserves session_footprint (FileUpload_handle X p).
Proof.
  unfold FileUpload_handle, FileUpload_header, FileUpload_store, FileUpload_open,
    FileUpload_receive.
  footprint_with ltac:(first [apply footprint_read_newline | apply footprint_copy_to_fd]).
Qed.

Lemma footprint_LogHandler p :
  preserves session_footprint (LogHandler_init p)
  /\ preserves session_footprint (LogHandler_handle p).
Proof.
  split; unfold LogHandler_init, LogHandler_handle;
    footprint_with ltac:(apply footprint_copy_to_fd).
Qed.

Lemma footprint_BsonStore p :
  preserves session_footprint (BsonStore_init p)
  /\ preserves session_footprint (BsonStore_handle p).
Proof.
  split; unfold BsonStore_init, BsonStore_handle;
    footprint_with ltac:(apply footprint_copy_to_fd).
Qed.

Lemma footprint_RealTime_loop X fuel cid rt :
  preserves session_footprint (RealTime_loop X fuel cid rt).
Proof.
  induction fuel as [|fuel IH]; cbn [RealTime_loop];
    [apply (preserves_ret session_footprint)|].
  footprint_with ltac:(first [apply footprint_read_newline | apply IH]).
Qed.

Lemma footprint_RealTimeHandler X p :
  preserves session_footprint (RealTimeHandler_handle X p).
Proof.
  unfold RealTimeHandler_handle.
  footprint_with ltac:(apply footprint_RealTime_loop).
Qed.

Lemma footprint_with_protocol X protocol :
  preserves session_footprint (with_protocol X protocol).
Proof.
  unfold with_protocol. destruct protocol as [p|];
    [|apply (preserves_raise session_footprint)].
  apply (preserves_bind session_footprint).
  - unfold init. destruct (ph_class p);
      first [ apply (preserves_ret session_footprint)
            | apply footprint_LogHandler
            | apply footprint_BsonStore ].
  - intros p1. apply (preserves_try_finally session_footprint);
      [|apply (preserves_ret session_footprint)].
    apply (preserves_bind session_footprint);
      [|intros ?; apply (preserves_ret session_footprint)].
    unfold handle_protocol. destruct (ph_class p1);
      first [ apply footprint_FileUpload_handle
            | apply footprint_LogHandler
            | apply footprint_BsonStore
            | apply footprint_RealTimeHandler ].
Qed.

Lemma footprint_negotiate_protocol X task_id ctx :
  preserves session_footprint (negotiate_protocol X task_id ctx).
Proof.
  unfold negotiate_protocol, negotiate_line.
  footprint_with ltac:(apply footprint_read_newline).
Qed.

(** X9.  Whatever the peer sends, the negotiation and the four protocol
    handlers never write the task registry, never take the lock, shut no
    socket, create no directory and set no [response_id]: all they add to
    the trace are log records, socket timeouts and dispatcher calls. *)
Theorem session_keeps_footprint (X : Externals) (task_id : Z) (ctx : nat)
    (protocol : option ProtocolHandler) (w : World) :
  session_footprint w (snd (negotiate_protocol X task_id ctx w))
  /\ session_footprint w (snd (with_protocol X protocol w)).
Proof.
  split; [apply footprint_negotiate_protocol|apply footprint_with_protocol].
Qed.
(** * The LOG, BSON and REALTIME handlers, and the header of FILE *)

(** X10.  The live log cannot be opened a second time: when [analysis.log] is
    there already, or cannot be created because its directory is missing,
    the LOG handler logs that a reopen was attempted and does nothing
    more.  It reads nothing from its socket, writes to no file, and the
    session ends without an error. *)
Theorem log_reopen_is_ignored (X : Externals) (task_id : Z) (cid : nat)
    (header : json) (w : World) :
  let logpath := PosixPath.join (ctx_storagepath (ctxs w !!! cid)) "analysis.log" in
  Os.exists_b logpath w = true \/ fst (PosixPath.split logpath) ∉ fs_dirs w ->
  with_protocol X (Some (new_protocol LOG task_id cid header)) w
  = (Ok tt, set_trace (fun t => (t ++ [EvLog DEBUG (MsgLiveLogReopen task_id)])%list) w).
Proof.
  intros logpath Hno.
  unfold with_protocol, init, handle_protocol, LogHandler_init, LogHandler_handle.
  cbn [ph_class new_protocol ph_handler ph_task_id].
  unfold bind at 1 2, the_ctx at 1, try_except. fold logpath.
  unfold bind at 1, open_exclusive, Os.open.
  change (Os.has_flag _ Os.O_CREAT) with true.
  change (Os.has_flag _ Os.O_EXCL) with true. cbn [andb].
  destruct (Os.exists_b logpath w) eqn:E.
  - munfold. cbn. reflexivity.
  - destruct Hno as [Hno|Hno]; [discriminate|].
    rewrite bool_decide_eq_false_2 by exact Hno. munfold. cbn. reflexivity.
Qed.

Lemma log_reopen_is_ignored_witness :
  let w := set_fs_files (insert "/s/7/analysis.log" "first")
             (legacy_upload 3%nat "line" "more" idle_world) in
  with_protocol (stub_externals [] 10) (Some (new_protocol LOG 7 3%nat JNull)) w
  = (Ok tt, set_trace (fun t => (t ++ [EvLog DEBUG (MsgLiveLogReopen 7)])%list) w).
Proof.
  intros w. apply (log_reopen_is_ignored (stub_externals [] 10) 7 3%nat JNull w).
  left. vm_compute. reflexivity.
Defined.

(** X11.  The first LOG session of a task creates [analysis.log] and
    stores nothing in it.  The copy has no cap, so what it drains from
    the buffer goes straight to the file, which refuses it: the session
    ends with [TypeError], the log is left empty, and nothing was read
    from the socket. *)
Theorem log_first_open_stores_nothing (X : Externals) (task_id : Z) (cid : nat)
    (header : json) (w : World) :
  let logpath := PosixPath.join (ctx_storagepath (ctxs w !!! cid)) "analysis.log" in
  Os.exists_b logpath w = false ->
  fst (PosixPath.split logpath) ∈ fs_dirs w ->
  with_protocol X (Some (new_protocol LOG task_id cid header)) w
  = (Raise TypeError,
     set_ctxs (fun m => <[cid := with_buf None (m !!! cid)]> m)
       (set_trace (fun t => (t ++ [EvLog DEBUG (MsgLiveLogInit task_id)])%list)
          (set_fs_files (insert logpath "") w))).
Proof.
  intros logpath Hnew Hdir.
  unfold with_protocol, init, handle_protocol, LogHandler_init, LogHandler_handle.
  cbn [ph_class new_protocol ph_handler ph_task_id].
  unfold bind at 1 2, the_ctx at 1, try_except. fold logpath.
  unfold bind at 1, open_exclusive, Os.open.
  change (Os.has_flag _ Os.O_CREAT) with true.
  change (Os.has_flag _ Os.O_EXCL) with true. cbn [andb].
  rewrite Hnew. rewrite bool_decide_eq_true_2 by exact Hdir.
  unfold bind at 1, log, emit, modify. unfold ret at 1.
  cbn [with_fd ph_fd ph_class ph_handler new_protocol].
  unfold try_finally, bind at 1, bind at 1.
  rewrite copy_to_fd_uncapped by (by left). reflexivity.
Qed.

Lemma log_first_open_stores_nothing_witness :
  let w := legacy_upload 3%nat "line" "more" idle_world in
  let '(r, w') := with_protocol (stub_externals [] 10)
                    (Some (new_protocol LOG 7 3%nat JNull)) w in
  r = Raise TypeError
  /\ fs_files w' = {[ "/s/7/analysis.log" := "" ]}
  /\ ctx_incoming (ctxs w' !!! 3%nat) = ctx_incoming (ctxs w !!! 3%nat).
Proof.
  intros w.
  rewrite (log_first_open_stores_nothing (stub_externals [] 10) 7 3%nat JNull w).
  - repeat split; reflexivity.
  - vm_compute. reflexivity.
  - vm_compute. set_solver.
Defined.

(** X12.  The BSON handler opens [logs/<pid>.bson] for writing with
    truncation, which empties the file, and then stores nothing in it:
    the copy, which has no cap, ends with [TypeError] at its first
    write.  Whatever the file held before is lost, and nothing was read
    from the socket. *)
Theorem bson_store_empties_log (X : Externals) (task_id : Z) (cid : nat)
    (kv : list (string * json)) (pid : Z) (w : World) :
  let path := PosixPath.join (PosixPath.join (ctx_storagepath (ctxs w !!! cid)) "logs")
                (pretty pid ++ ".bson") in
  assoc_get "pid" kv = Some (JInt pid) ->
  path ∉ fs_dirs w ->
  is_Some (fs_files w !! path) \/ fst (PosixPath.split path) ∈ fs_dirs w ->
  with_protocol X (Some (new_protocol BSON task_id cid (JDict kv))) w
  = (Raise TypeError,
     set_ctxs (fun m => <[cid := with_buf None (m !!! cid)]> m)
       (set_trace (fun t => (t ++ [EvLog DEBUG (MsgBsonStream task_id)])%list)
          (set_fs_files (insert path "") w))).
Proof.
  intros path Hpid Hnd Hcan.
  unfold with_protocol, init, handle_protocol, BsonStore_init, BsonStore_handle.
  cbn [ph_class new_protocol ph_handler ph_task_id ph_header].
  unfold bind at 1 2, lift, dict_get. rewrite Hpid. cbn [default from_option id].
  unfold bind at 1, ret at 1. unfold bind at 1, the_ctx at 1. fold path.
  unfold bind at 1, builtin_open, Os.open.
  change (Os.has_flag _ Os.O_CREAT) with true.
  change (Os.has_flag _ Os.O_EXCL) with false.
  change (Os.has_flag _ Os.O_TRUNC) with true. cbn [andb].
  rewrite (bool_decide_eq_false_2 (path ∈ fs_dirs w)) by exact Hnd.
  assert (Hopen : (if Os.exists_b path w
                   then (Ok path, set_fs_files (insert path "") w)
                   else if bool_decide (fst (PosixPath.split path) ∈ fs_dirs w)
                        then (Ok path, set_fs_files (insert path "") w)
                        else (@Raise string (OSError ENOENT), w))
                  = (Ok path, set_fs_files (insert path "") w)).
  { destruct (Os.exists_b path w) eqn:E; [reflexivity|].
    destruct Hcan as [Hin|Hdir].
    - exfalso. unfold Os.exists_b in E. apply orb_false_iff in E as [E _].
      apply bool_decide_eq_false in E. done.
    - rewrite bool_decide_eq_true_2 by exact Hdir. reflexivity. }
  rewrite Hopen. unfold ret at 1.
  cbn [ph_class ph_handler ph_task_id ph_fd with_fd new_protocol].
  unfold try_finally, bind at 1, bind at 1, log, emit, modify.
  unfold bind at 1.
  rewrite copy_to_fd_uncapped by (by left). reflexivity.
Qed.

Lemma bson_store_empties_log_witness :
  let w := set_fs_files (insert "/s/7/logs/42.bson" "old stream")
             (legacy_upload 3%nat "new" "stream" idle_world) in
  let '(r, w') := with_protocol (stub_externals [] 10)
                    (Some (new_protocol BSON 7 3%nat (JDict [("pid", JInt 42)]))) w in
  r = Raise TypeError
  /\ fs_files w !! "/s/7/logs/42.bson" = Some "old stream"
  /\ fs_files w' !! "/s/7/logs/42.bson" = Some ""
  /\ ctx_incoming (ctxs w' !!! 3%nat) = ctx_incoming (ctxs w !!! 3%nat).
Proof.
  intros w.
  rewrite (bson_store_empties_log (stub_externals [] 10) 7 3%nat [("pid", JInt 42)] 42 w).
  - repeat split; reflexivity.
  - reflexivity.
  - vm_compute. set_solver.
  - left. vm_compute. eexists. reflexivity.
Defined.

(** X13.  A BSON session whose header is a JSON object without a [pid] stores
    nothing: the handler logs an error, opens no file and reads nothing,
    and the session ends without an exception.  A BSON session with no
    header at all fails: [self.header.get] on [None] raises
    [AttributeError] before anything is done. *)
Theorem bson_without_pid_stores_nothing (X : Externals) (task_id : Z) (cid : nat)
    (w : World) :
  (forall kv,
     assoc_get "pid" kv = None \/ assoc_get "pid" kv = Some JNull ->
     with_protocol X (Some (new_protocol BSON task_id cid (JDict kv))) w
     = (Ok tt, set_trace (fun t => (t ++ [EvLog ERROR MsgBsonNoPid;
                                          EvLog DEBUG (MsgBsonStream task_id)])%list) w))
  /\ with_protocol X (Some (new_protocol BSON task_id cid JNull)) w
     = (Raise AttributeError, w).
Proof.
  split; [|reflexivity].
  intros kv Hpid.
  unfold with_protocol, init, handle_protocol, BsonStore_init, BsonStore_handle.
  cbn [ph_class new_protocol ph_handler ph_task_id ph_header].
  unfold bind at 1 2, lift, dict_get.
  destruct Hpid as [-> | ->]; cbn [default from_option id]; munfold; cbn;
    f_equal; apply world_eq; cbn; try reflexivity; rewrite <- !app_assoc; reflexivity.
Qed.

Lemma bson_without_pid_stores_nothing_witness :
  let X := stub_externals [] 10 in
  let w := legacy_upload 3%nat "data" "more" idle_world in
  with_protocol X (Some (new_protocol BSON 7 3%nat (JDict [("rid", JInt 1)]))) w
  = (Ok tt, set_trace (fun t => (t ++ [EvLog ERROR MsgBsonNoPid;
                                       EvLog DEBUG (MsgBsonStream 7)])%list) w).
Proof.
  intros X w.
  apply (bson_without_pid_stores_nothing X 7 3%nat w). left. reflexivity.
Defined.

(** X14.  The REALTIME handler tells the dispatcher that the connection
    is up and then forwards nothing that arrives.  With no line in the
    buffer, the first [read_newline] reads the socket, and whatever it
    gets, the [b''] of a closed or shut socket included, ends the
    handler with [TypeError]; no [on_message] call is made.  The handler
    returns normally only when the read fails with [EBADF] or
    [ECONNRESET]. *)
Theorem realtime_forwards_no_delivery (X : Externals) (task_id : Z) (cid : nat)
    (header : json) (rt : nat) (w : World) (buf : string) :
  ctx_rt (ctxs w !!! cid) = Some rt ->
  ctx_buf (ctxs w !!! cid) = Some buf ->
  PyStr.find PyStr.newline buf < 0 ->
  PyStr.len buf < MAX_NETLOG_LINE ->
  let run := with_protocol X (Some (new_protocol REALTIME task_id cid header)) w in
  let started := set_trace (fun t => (t ++ [EvRtStart rt cid])%list) w in
  (forall d rest,
     cid ∉ shut_rd w ->
     ctx_incoming (ctxs w !!! cid) = RecvData d :: rest ->
     run = (Raise TypeError,
            set_ctxs (fun m => <[cid := with_incoming rest (m !!! cid)]> m) started))
  /\ (cid ∈ shut_rd w \/ ctx_incoming (ctxs w !!! cid) = [] ->
      run = (Raise TypeError, started))
  /\ (forall e rest,
        cid ∉ shut_rd w ->
        ctx_incoming (ctxs w !!! cid) = RecvError e :: rest ->
        e = Some EBADF \/ e = Some ECONNRESET ->
        exists w', run = (Ok tt, w')
          /\ List.filter is_on_message (trace w') = List.filter is_on_message (trace w)).
Proof.
  intros Hrt Hbuf Hnl Hlen run started.
  assert (Hrun : run
                 = (r <- RealTime_loop X (S (pending_bytes cid started)) cid rt ;;
                    match r with
                    | Some _ => ret tt
                    | None => diverge
                    end) started).
  { subst run. unfold with_protocol, init, handle_protocol, RealTimeHandler_handle.
    cbn [ph_class new_protocol ph_handler].
    unfold bind at 1, ret at 1. unfold try_finally.
    cbn [ph_class new_protocol ph_handler].
    unfold bind, the_ctx, of_option, emit, modify, get, ret, diverge, raise.
    rewrite Hrt. fold started.
    destruct (RealTime_loop X (S (pending_bytes cid started)) cid rt started)
      as [[[u|]|e] w1]; reflexivity. }
  rewrite Hrun. cbn [RealTime_loop].
  assert (Hb : ctx_buf (ctxs started !!! cid) = Some buf) by exact Hbuf.
  unfold bind, try_except.
  split; [|split].
  - intros d rest Hs Hi.
    rewrite (read_newline_delivery cid started buf Hb Hnl Hlen d rest Hs Hi).
    reflexivity.
  - intros Hc.
    rewrite (read_newline_closed cid started buf Hb Hnl Hlen Hc). reflexivity.
  - intros e rest Hs Hi He.
    destruct (read_newline_swallowed cid started buf Hb Hnl Hlen e rest Hs Hi He)
      as (t & -> & Ht).
    eexists. split; [reflexivity|]. cbn. rewrite !List.filter_app. cbn.
    destruct Ht as [-> | ->]; cbn; rewrite !app_nil_r; reflexivity.
Qed.

Lemma realtime_forwards_no_delivery_witness :
  let X := stub_externals [("{}", JDict [])] 10 in
  let w := legacy_upload 3%nat "{}" "" idle_world in
  with_protocol X (Some (new_protocol REALTIME 7 3%nat JNull)) w
  = (Raise TypeError,
     set_ctxs (fun m => <[3%nat := with_incoming [] (m !!! 3%nat)]> m)
       (set_trace (fun t => (t ++ [EvRtStart 1%nat 3%nat])%list) w)).
Proof.
  intros X w.
  apply (proj1 (realtime_forwards_no_delivery X 7 3%nat JNull 1%nat w ""
                  eq_refl eq_refl eq_refl eq_refl) ("{}" ++ LF ++ "") []).
  - apply not_elem_of_empty.
  - reflexivity.
Defined.

(** X16.  A FILE header that is a JSON object needs a [store_as]: when the
    field is missing, or is [null], empty, zero or [false], the upload
    fails with the error of a missing dump path; when it is anything
    else that is not a string, [netlog_sanitize_fname] fails on it with
    [AttributeError].  Either way nothing was read from the socket and no
    file was touched. *)
Theorem file_header_needs_store_as (X : Externals) (task_id : Z) (cid : nat)
    (kv : list (string * json)) (w : World) :
  let p := new_protocol FILE task_id cid (JDict kv) in
  let v := default JNull (assoc_get "store_as" kv) in
  let w' := set_trace (fun t => (t ++ [EvSetTimeout cid (Some 30)])%list) w in
  (truthy v = false ->
   FileUpload_handle X p w = (Raise (CuckooOperationalError (NoDumpPath task_id)), w'))
  /\ (truthy v = true -> (forall s, v <> JStr s) ->
      FileUpload_handle X p w = (Raise AttributeError, w')).
Proof.
  intros p v w'.
  assert (Hrun : FileUpload_handle X p w
                 = FileUpload_store X (with_response_id (default JNull (assoc_get "rid" kv)) p) w').
  { unfold FileUpload_handle, FileUpload_header. subst p.
    cbn [ph_handler new_protocol ph_header]. cbn iota.
    unfold bind at 1. unfold bind at 1, emit, modify. fold w'.
    unfold bind at 1, lift, dict_get. unfold ret. reflexivity. }
  rewrite Hrun. unfold FileUpload_store, FileUpload_open.
  cbn [ph_handler ph_task_id ph_header with_response_id new_protocol p].
  unfold bind, the_ctx, lift, dict_get. cbn beta iota. fold v.
  split.
  - intros Hv. rewrite Hv. reflexivity.
  - intros Hv Hns. rewrite Hv. cbn [negb].
    destruct v as [| | |s| | |]; try reflexivity. exfalso. by apply (Hns s).
Qed.

Lemma file_header_needs_store_as_witness :
  let X := stub_externals [] 10 in
  let w := legacy_upload 3%nat "data" "more" idle_world in
  FileUpload_handle X (new_protocol FILE 7 3%nat (JDict [("store_as", JStr "")])) w
  = (Raise (CuckooOperationalError (NoDumpPath 7)),
     set_trace (fun t => (t ++ [EvSetTimeout 3%nat (Some 30)])%list) w).
Proof.
  intros X w.
  apply (file_header_needs_store_as X 7 3%nat [("store_as", JStr "")] w). reflexivity.
Defined.

(** * The handlers end

    No handler gets to the one loop that may go on forever, the copy
    under a cap: FILE fails before its copy, LOG and BSON copy without a
    cap, and the loop of REALTIME takes a line off the buffer at every
    turn. *)

Lemma init_total p w e w' : init p w = (Raise e, w') -> e <> NonTermination.
Proof.
  unfold init, LogHandler_init, BsonStore_init, open_exclusive, builtin_open, Os.open.
  destruct (ph_class p).
  - unfold bind at 1, lift, dict_get.
    destruct (ph_header p); try (intros [= <- _]; discriminate).
    destruct (default JNull (assoc_get "pid" kv)); munfold; cbn;
      repeat match goal with
             | |- context [if ?b then _ else _] => destruct b
             end; intros [= <- _]; discriminate.
  - discriminate.
  - munfold. cbn.
    repeat match goal with
           | |- context [if ?b then _ else _] => destruct b
           end; discriminate.
  - discriminate.
Qed.

Lemma RealTime_loop_no_diverge X fuel : forall cid rt w w',
  RealTime_loop X fuel cid rt w <> (Raise NonTermination, w').
Proof.
  induction fuel as [|fuel IH]; intros cid rt w w'; [discriminate|].
  cbn [RealTime_loop]. unfold bind at 1, try_except, bind at 1.
  pose proof (read_newline_total cid w) as Ht.
  destruct (read_newline cid w) as [[l|e] w1].
  - unfold ret at 1 2. unfold bind at 1, of_option.
    destruct (json_loads X l); [|discriminate].
    unfold ret at 1. unfold bind at 1, emit, modify. apply IH.
  - cbn in Ht. destruct e; try discriminate. congruence.
Qed.

Lemma handle_protocol_total X p w e w' :
  handle_protocol X p w = (Raise e, w') -> e <> NonTermination.
Proof.
  unfold handle_protocol. destruct (ph_class p).
  - unfold BsonStore_handle. unfold bind at 1, log, emit, modify.
    destruct (ph_fd p) as [fd|]; [|discriminate].
    unfold bind. rewrite copy_to_fd_uncapped by (by left).
    intros [= <- _]. discriminate.
  - destruct (FileUpload_handle_raises X p w) as (e0 & w0 & -> & He & _).
    intros [= <- _] ->. exact He.
  - unfold LogHandler_handle. destruct (ph_fd p) as [fd|]; [|discriminate].
    unfold bind. rewrite copy_to_fd_uncapped by (by left).
    intros [= <- _]. discriminate.
  - unfold RealTimeHandler_handle. unfold bind at 1, the_ctx at 1.
    unfold bind at 1, of_option.
    destruct (ctx_rt (ctxs w !!! ph_handler p)) as [rt|]; [|intros [= <- _]; discriminate].
    unfold ret at 1. unfold bind at 1, emit, modify.
    unfold bind at 1, get at 1. unfold bind.
    set (w1 := set_trace _ w).
    pose proof (RealTime_loop_total X (S (pending_bytes (ph_handler p) w1))
                  (ph_handler p) rt w1 ltac:(lia)) as Ht.
    pose proof (RealTime_loop_no_diverge X (S (pending_bytes (ph_handler p) w1))
                  (ph_handler p) rt w1) as Hn.
    destruct (RealTime_loop X (S (pending_bytes (ph_handler p) w1)) (ph_handler p) rt w1)
      as [[[u|]|e0] w2].
    + discriminate.
    + exfalso. by apply Ht.
    + intros [= <- _] ->. by eapply Hn.
Qed.

(** A run of [with protocol: protocol.handle()] never stands for a loop
    without end. *)
Lemma with_protocol_total X protocol w :
  fst (with_protocol X protocol w) <> Raise NonTermination.
Proof.
  destruct protocol as [p|]; [|discriminate].
  unfold with_protocol, bind.
  destruct (init p w) as [[p1|e] w1] eqn:Hinit.
  - unfold try_finally, bind.
    destruct (handle_protocol X p1 w1) as [[p2|e] w2] eqn:Hh; cbn; [discriminate|].
    intros [= ->]. by eapply handle_protocol_total.
  - cbn. intros [= ->]. by eapply init_total.
Qed.

(** * The worker: the lock, the registry and the sessions *)

(** ** The discipline of [task_mgmt_lock] *)

Lemma lock_discipline_app h a b :
  lock_discipline h (a ++ b)
  = match lock_discipline h a with
    | Some h' => lock_discipline h' b
    | None => None
    end.
Proof.
  revert h. induction a as [|e a IH]; intros h; [reflexivity|].
  destruct e; cbn; try apply IH; destruct h; try reflexivity; apply IH.
Qed.

Lemma lock_discipline_session h t :
  forallb is_session_event t = true -> lock_discipline h t = Some h.
Proof.
  induction t as [|e t IH]; [reflexivity|]. cbn.
  intros H. apply andb_true_iff in H as [He Ht].
  destruct e; try discriminate He; cbn; exact (IH Ht).
Qed.

Global Instance lock_run_preorder h : PreOrder (lock_run h).
Proof.
  split.
  - intros w. exists []. by rewrite app_nil_r.
  - intros a b c (t1 & E1 & D1) (t2 & E2 & D2).
    exists (t1 ++ t2)%list. rewrite E2, E1, <- app_assoc. split; [reflexivity|].
    by rewrite lock_discipline_app, D1.
Qed.

Lemma lock_run_footprint h w w' : session_footprint w w' -> lock_run h w w'.
Proof.
  intros (_ & _ & _ & _ & t & E & F). exists t. split; [exact E|].
  by apply lock_discipline_session.
Qed.

Lemma lock_run_same_trace h w w' : trace w' = trace w -> lock_run h w w'.
Proof. intros E. exists []. by rewrite app_nil_r. Qed.

Lemma lock_run_emit h ev w :
  lock_discipline h [ev] = Some h ->
  lock_run h w (set_trace (fun t => (t ++ [ev])%list) w).
Proof. intros H. exists [ev]. done. Qed.

Ltac lock_leaf :=
  apply (preserves_modify (lock_run _)); intros ?;
  first [ apply lock_run_emit; reflexivity
        | apply lock_run_same_trace;
          first [ reflexivity
                | match goal with |- context [apply_op ?op] => destruct op end;
                  reflexivity ] ].

(** [with lock: body]: a body that keeps to the discipline while the lock
    is held makes a block that keeps to it while the lock is free. *)
Lemma lock_run_with_lock {A} (body : M A) :
  preserves (lock_run true) body -> preserves (lock_run false) (with_lock body).
Proof.
  intros Hb w. unfold with_lock, emit, modify, bind, try_finally. cbn.
  set (w1 := set_trace _ w). specialize (Hb w1).
  destruct (body w1) as [r w2]. cbn in *.
  destruct Hb as (t & E & D). exists (EvAcquire :: t ++ [EvRelease])%list.
  subst w1. cbn in *. rewrite E, <- !app_assoc. split; [reflexivity|].
  cbn. rewrite lock_discipline_app, D. reflexivity.
Qed.

Lemma lock_run_cancel_all h task_id l : preserves (lock_run h) (cancel_all task_id l).
Proof.
  induction l as [|c l IH]; cbn [cancel_all].
  - apply (preserves_ret (lock_run h)).
  - unfold cancel, log, emit.
    repeat first [ apply IH | frame_step | lock_leaf ].
Qed.

Lemma lock_run_add_task task_id ip rt :
  preserves (lock_run false) (add_task task_id ip rt).
Proof.
  unfold add_task. apply lock_run_with_lock. unfold registry, emit.
  repeat first [ frame_step | lock_leaf ].
Qed.

Lemma lock_run_del_task task_id ip :
  preserves (lock_run false) (del_task task_id ip).
Proof.
  unfold del_task. apply lock_run_with_lock. unfold registry, log, emit.
  repeat first [ apply lock_run_cancel_all | frame_step | lock_leaf ].
Qed.

Lemma lock_run_handle_cleanup task_id sock :
  preserves (lock_run false) (handle_cleanup task_id sock).
Proof.
  unfold handle_cleanup, cancel, log, emit.
  repeat first [ apply lock_run_with_lock; unfold registry, emit | frame_step | lock_leaf ].
Qed.

Lemma lock_run_handle X meanwhile sock stream ip :
  (forall w0, trace (meanwhile w0) = trace w0) ->
  preserves (lock_run false) (handle X meanwhile sock stream ip).
Proof.
  intros Hm. unfold handle, handle_session, register_and_run, log, emit.
  repeat first
    [ apply lock_run_handle_cleanup
    | intros w0; apply lock_run_footprint; apply footprint_with_protocol
    | intros w0; apply lock_run_footprint; apply footprint_negotiate_protocol
    | apply (preserves_modify (lock_run false)); intros w0;
      apply lock_run_same_trace; apply Hm
    | apply lock_run_with_lock; unfold registry, log, emit
    | frame_step
    | lock_leaf ].
Qed.

(** X17.  Every operation of the worker keeps to the discipline of the lock,
    which is not reentrant: [add_task], [del_task] and [handle] take it
    only while it is free, write the registry only while they hold it,
    and have released it when they are left, by return or by exception,
    whatever the peer sends. *)
Theorem worker_keeps_lock_discipline (X : Externals) (meanwhile : World -> World)
    (sock : nat) (stream : list recv_result) (ip : string) (task_id : Z)
    (rt : nat) (w : World) :
  (forall w0, trace (meanwhile w0) = trace w0) ->
  lock_run false w (snd (add_task task_id ip rt w))
  /\ lock_run false w (snd (del_task task_id ip w))
  /\ lock_run false w (snd (handle X meanwhile sock stream ip w)).
Proof.
  intros Hm. split; [apply lock_run_add_task|].
  split; [apply lock_run_del_task|by apply lock_run_handle].
Qed.

Lemma worker_keeps_lock_discipline_witness :
  let X := stub_externals [] 10 in
  let stream := [RecvData ("FILE" ++ LF ++ "shots/1.jpg" ++ LF ++ "abc")] in
  lock_run false idle_world (snd (add_task 7 "10.0.0.5" 2%nat idle_world))
  /\ lock_run false idle_world (snd (del_task 7 "10.0.0.5" idle_world))
  /\ lock_run false idle_world (snd (handle X id 3%nat stream "10.0.0.5" idle_world)).
Proof.
  intros X stream.
  apply (worker_keeps_lock_discipline X id 3%nat stream "10.0.0.5" 7 2%nat idle_world).
  reflexivity.
Defined.

(** ** Sessions and the registry *)

(** The [finally] block of a session, for a context whose [response_id]
    is [None]. *)
Lemma handle_cleanup_spec task_id sock w :
  ctx_response_id (ctxs w !!! sock) = JNull ->
  exists w' warn,
    handle_cleanup task_id sock w = (Ok tt, w')
    /\ tasks w' = tasks w /\ rthandlers w' = rthandlers w
    /\ handlers w' = handlers (apply_op (HandlersDiscard task_id sock) w)
    /\ shut_rd w' = {[sock]} ∪ shut_rd w
    /\ fs_files w' = fs_files w /\ fs_dirs w' = fs_dirs w /\ ctxs w' = ctxs w
    /\ trace w' = (trace w ++ [EvAcquire; EvRegistry (HandlersDiscard task_id sock);
                               EvRelease; EvCancel sock] ++ warn)%list
    /\ (warn = [] \/ warn = [EvLog WARNING (MsgUnprocessedData task_id)]).
Proof.
  intros Hr. unfold handle_cleanup, cancel. munfold. cbn. rewrite Hr. cbn.
  destruct (negb (PyStr.str_eqb (default "" (ctx_buf (ctxs w !!! sock))) "")); cbn.
  - eexists _, [EvLog WARNING (MsgUnprocessedData task_id)].
    split; [reflexivity|]. cbn. rewrite <- !app_assoc. cbn.
    repeat (split; [reflexivity|]). by right.
  - eexists _, []. split; [reflexivity|]. cbn. rewrite <- !app_assoc. cbn.
    repeat (split; [reflexivity|]). by left.
Qed.

(** Registering a context and running its handler: the handler's outcome
    is the outcome, and the context is unregistered and cancelled
    whatever that is. *)
Lemma register_and_run_spec X task_id sock ip protocol w :
  tasks w !! ip = Some task_id ->
  ctx_response_id (ctxs w !!! sock) = JNull ->
  let w_reg := set_handlers (fun h => <[task_id := {[sock]} ∪ default ∅ (h !! task_id)]> h)
                 (set_trace (fun t => (t ++ [EvAcquire; EvRegistry (HandlersAdd task_id sock);
                                            EvRelease])%list) w) in
  exists w' t warn,
    register_and_run X id task_id sock ip protocol w
    = (fst (with_protocol X protocol w_reg), w')
    /\ tasks w' = tasks w /\ rthandlers w' = rthandlers w
    /\ handlers w' = <[task_id := running task_id w ∖ {[sock]}]> (handlers w)
    /\ shut_rd w' = {[sock]} ∪ shut_rd w
    /\ fs_dirs w' = fs_dirs w
    /\ fs_files w' = fs_files (snd (with_protocol X protocol w_reg))
    /\ ctxs w' = ctxs (snd (with_protocol X protocol w_reg))
    /\ trace w' = (trace w ++ [EvAcquire; EvRegistry (HandlersAdd task_id sock); EvRelease]
                     ++ t ++ [EvAcquire; EvRegistry (HandlersDiscard task_id sock);
                              EvRelease; EvCancel sock] ++ warn)%list
    /\ forallb is_session_event t = true
    /\ (warn = [] \/ warn = [EvLog WARNING (MsgUnprocessedData task_id)]).
Proof.
  intros Ht Hr w_reg.
  assert (Hrun : register_and_run X id task_id sock ip protocol w
                 = try_finally (with_protocol X protocol) (handle_cleanup task_id sock) w_reg).
  { unfold register_and_run. munfold. cbn. rewrite Ht.
    rewrite bool_decide_eq_true_2 by reflexivity. cbn.
    subst w_reg. unfold set_handlers, set_trace. cbn. rewrite <- !app_assoc. reflexivity. }
  rewrite Hrun. unfold try_finally.
  pose proof (footprint_with_protocol X protocol w_reg) as Hfp.
  destruct (with_protocol X protocol w_reg) as [r w2]. cbn [fst snd] in *.
  destruct Hfp as ((T2 & R2 & H2) & S2 & D2 & I2 & t & E2 & F2).
  destruct (handle_cleanup_spec task_id sock w2) as (w3 & warn & Hc & T3 & R3 & H3 & S3 & Ff3 & D3 & C3 & E3 & Hwarn).
  { rewrite I2. subst w_reg. exact Hr. }
  rewrite Hc. exists w3, t, warn. split; [reflexivity|].
  split; [rewrite T3, T2; reflexivity|]. split; [rewrite R3, R2; reflexivity|].
  split.
  { rewrite H3. cbn. rewrite H2. subst w_reg. cbn. rewrite lookup_insert_eq.
    rewrite insert_insert_eq. f_equal. unfold running. set_solver. }
  split; [rewrite S3, S2; reflexivity|]. split; [rewrite D3, D2; reflexivity|].
  split; [exact Ff3|]. split; [exact C3|].
  split; [|split; [exact F2|exact Hwarn]].
  rewrite E3, E2. subst w_reg. cbn. rewrite <- !app_assoc. reflexivity.
Qed.

(** [handle] for a registered address, by the outcome of the
    negotiation. *)
Lemma handle_run X meanwhile sock stream ip task_id w :
  tasks w !! ip = Some task_id -> task_id <> 0 ->
  handle X meanwhile sock stream ip w
  = match negotiate_protocol X task_id sock (session_world X sock stream task_id w) with
    | (Ok protocol, w1) =>
        let '(r, w2) := register_and_run X meanwhile task_id sock ip protocol w1 in
        (r, set_trace (fun t => (t ++ [EvTaskLogStop task_id])%list) w2)
    | (Raise e, w1) =>
        (match e with EOFError => Ok tt | _ => Raise e end,
         set_trace (fun t => (t ++ [EvTaskLogStop task_id])%list) w1)
    end.
Proof.
  intros Ht Hz. rewrite (handle_found X meanwhile sock stream ip w task_id Ht Hz).
  unfold try_finally, handle_session, try_except, bind, emit, modify, ret.
  destruct (negotiate_protocol X task_id sock _) as [[p|e] w1]; cbn.
  - destruct (register_and_run X meanwhile task_id sock ip p w1); reflexivity.
  - destruct e; reflexivity.
Qed.

Lemma session_event_not_registry t op :
  forallb is_session_event t = true -> EvRegistry op ∉ t.
Proof.
  intros F Hin. rewrite forallb_forall in F.
  apply list_elem_of_In in Hin. apply F in Hin. discriminate.
Qed.

Lemma session_world_facts X sock stream task_id w :
  let ws := session_world X sock stream task_id w in
  same_registry w ws /\ same_files w ws /\ shut_rd ws = shut_rd w
  /\ ctx_response_id (ctxs ws !!! sock) = JNull
  /\ ctx_buf (ctxs ws !!! sock) = Some ""
  /\ ctx_incoming (ctxs ws !!! sock) = stream
  /\ trace ws = (trace w ++ [EvAcquire; EvRelease; EvTaskLogStart task_id])%list.
Proof.
  cbn. rewrite lookup_total_insert_eq. cbn. repeat split; reflexivity.
Qed.

(** X18.  Once [handle] is left, by return or by exception and whatever the
    peer sent, the registry is as it was found: the task and dispatcher
    entries are untouched and every task has the running contexts it had
    before.  A session that got as far as registering its context has
    unregistered it and shut its socket. *)
Theorem session_leaves_registry_as_found (X : Externals) (sock : nat)
    (stream : list recv_result) (ip : string) (task_id : Z) (w : World)
    (r : res unit) (w' : World) :
  tasks w !! ip = Some task_id -> task_id <> 0 ->
  sock ∉ running task_id w ->
  handle X id sock stream ip w = (r, w') ->
  tasks w' = tasks w /\ rthandlers w' = rthandlers w
  /\ (forall t, running t w' = running t w)
  /\ fs_dirs w' = fs_dirs w
  /\ exists t, trace w' = (trace w ++ t)%list
       /\ (EvRegistry (HandlersAdd task_id sock) ∈ t ->
           EvRegistry (HandlersDiscard task_id sock) ∈ t /\ sock ∈ shut_rd w').
Proof.
  intros Ht Hz Hfresh. rewrite (handle_run X id sock stream ip task_id w Ht Hz).
  destruct (session_world_facts X sock stream task_id w)
    as ((T0 & R0 & H0) & (_ & D0) & S0 & I0 & _ & _ & E0).
  set (ws := session_world X sock stream task_id w) in *.
  pose proof (footprint_negotiate_protocol X task_id sock ws) as Hfp.
  destruct (negotiate_protocol X task_id sock ws) as [[protocol|e] w1]; cbn [snd] in Hfp;
    destruct Hfp as ((T1 & R1 & H1) & S1 & D1 & I1 & tn & E1 & F1).
  - destruct (register_and_run_spec X task_id sock ip protocol w1)
      as (w2 & t & warn & Hrun & T2 & R2 & H2 & S2 & D2 & _ & _ & E2 & F2 & Hwarn).
    { rewrite T1, T0. exact Ht. }
    { rewrite I1. exact I0. }
    rewrite Hrun. intros [= <- <-]. cbn.
    split; [congruence|]. split; [congruence|]. split.
    { intros t0. unfold running. cbn. rewrite H2, H1, H0.
      destruct (decide (t0 = task_id)) as [->|Hne].
      - rewrite lookup_insert_eq. cbn. unfold running. rewrite H1, H0.
        fold (running task_id w). set_solver.
      - rewrite lookup_insert_ne by done. reflexivity. }
    split; [congruence|].
    eexists. split.
    { rewrite E2, E1, E0. rewrite <- !app_assoc. reflexivity. }
    intros _. split; [|rewrite S2; set_solver].
    rewrite !elem_of_app, !elem_of_cons. tauto.
  - intros [= <- <-]. cbn.
    split; [congruence|]. split; [congruence|]. split.
    { intros t0. unfold running. cbn. rewrite H1, H0. reflexivity. }
    split; [congruence|].
    eexists. split.
    { rewrite E1, E0. rewrite <- !app_assoc. reflexivity. }
    intros Hin. exfalso.
    pose proof (session_event_not_registry tn (HandlersAdd task_id sock) F1).
    set_solver.
Qed.

Lemma session_leaves_registry_as_found_witness :
  let X := stub_externals [] 10 in
  let stream := [RecvData ("FILE" ++ LF ++ "shots/1.jpg" ++ LF ++ "abc")] in
  let w' := snd (handle X id 3%nat stream "10.0.0.5" idle_world) in
  tasks w' = tasks idle_world /\ rthandlers w' = rthandlers idle_world
  /\ (forall t, running t w' = running t idle_world)
  /\ fs_dirs w' = fs_dirs idle_world
  /\ exists t, trace w' = (trace idle_world ++ t)%list
       /\ (EvRegistry (HandlersAdd 7 3%nat) ∈ t ->
           EvRegistry (HandlersDiscard 7 3%nat) ∈ t /\ 3%nat ∈ shut_rd w').
Proof.
  intros X stream w'.
  apply (session_leaves_registry_as_found X 3%nat stream "10.0.0.5" 7 idle_world
           (fst (handle X id 3%nat stream "10.0.0.5" idle_world)) w').
  - reflexivity.
  - discriminate.
  - vm_compute. set_solver.
  - vm_compute. reflexivity.
Defined.

(** ** Tasks coming and going *)

Lemma cancel_all_shut task_id l w :
  shut_rd (snd (cancel_all task_id l w)) = list_to_set l ∪ shut_rd w
  /\ fs_dirs (snd (cancel_all task_id l w)) = fs_dirs w
  /\ ctxs (snd (cancel_all task_id l w)) = ctxs w.
Proof.
  revert w. induction l as [|c l IH]; intros w.
  - cbn. split; [set_solver|done].
  - cbn [cancel_all]. unfold cancel. munfold. cbn.
    match goal with |- context [cancel_all task_id l ?w1] =>
      destruct (IH w1) as (S1 & D1 & C1) end.
    rewrite S1, D1, C1. cbn. split; [set_solver|done].
Qed.

(** What [del_task] does beside the registry: it shuts the sockets of
    the sessions it cancels, and nothing else. *)
Lemma del_task_state task_id ip w :
  fs_dirs (snd (del_task task_id ip w)) = fs_dirs w
  /\ ctxs (snd (del_task task_id ip w)) = ctxs w
  /\ shut_rd (snd (del_task task_id ip w))
     = match rthandlers w !! task_id with
       | Some _ => running task_id w
       | None => ∅
       end ∪ shut_rd w.
Proof.
  unfold del_task. munfold. cbn.
  destruct (rthandlers w !! task_id) as [rt|] eqn:Hrt.
  - case_bool_decide as Hip; cbn; rewrite ?Hrt; cbn;
      match goal with |- context [cancel_all task_id ?l ?w1] =>
        destruct (cancel_all_shut task_id l w1) as (S1 & D1 & C1);
        destruct (cancel_all_spec task_id l w1) as (w' & Hca & _)
      end;
      rewrite Hca in *; cbn in *; rewrite S1, D1, C1; cbn;
      (split; [reflexivity|]); (split; [reflexivity|]);
      unfold running; set_solver.
  - case_bool_decide as Hip; cbn; rewrite ?Hrt; cbn;
      (split; [reflexivity|]); (split; [reflexivity|]); set_solver.
Qed.

Lemma add_task_spec task_id ip rt w :
  add_task task_id ip rt w
  = (Ok tt,
     set_trace (fun t => (t ++ [EvAcquire; EvRegistry (TasksSet ip task_id);
                                EvRegistry (RtSet task_id rt); EvRelease])%list)
       (set_rthandlers (insert task_id rt) (set_tasks (insert ip task_id) w))).
Proof.
  unfold add_task. munfold. cbn. f_equal. apply world_eq; cbn; try reflexivity.
  rewrite <- !app_assoc. reflexivity.
Qed.

(** X19.  [add_task] followed by [del_task] for a task and an address that
    were not registered is a round trip: [del_task] returns, and the
    three dictionaries are as before, with no warning logged and no
    session cancelled. *)
Theorem add_then_del_task_restores (task_id : Z) (ip : string) (rt : nat) (w : World) :
  tasks w !! ip = None -> rthandlers w !! task_id = None ->
  handlers w !! task_id = None ->
  exists w1 w2,
    add_task task_id ip rt w = (Ok tt, w1)
    /\ tasks w1 !! ip = Some task_id /\ rthandlers w1 !! task_id = Some rt
    /\ del_task task_id ip w1 = (Ok tt, w2)
    /\ same_registry w w2 /\ same_files w w2 /\ shut_rd w2 = shut_rd w
    /\ trace w2 = (trace w1 ++ [EvAcquire; EvRegistry (TasksPop ip);
                                EvRegistry (RtPop task_id);
                                EvRegistry (HandlersPop task_id); EvRelease])%list.
Proof.
  intros Ht Hr Hh. rewrite add_task_spec.
  set (w1 := set_trace _ _). exists w1.
  assert (Hw1 : tasks w1 = <[ip := task_id]> (tasks w)
                /\ rthandlers w1 = <[task_id := rt]> (rthandlers w)
                /\ handlers w1 = handlers w /\ shut_rd w1 = shut_rd w
                /\ fs_files w1 = fs_files w /\ fs_dirs w1 = fs_dirs w) by done.
  destruct Hw1 as (T1 & R1 & H1 & S1 & F1 & D1).
  destruct (del_task_spec task_id ip w1) as (w2 & T2 & F2 & Hcase).
  destruct (del_task_state task_id ip w1) as (D2 & _ & S2).
  unfold running in S2.
  rewrite R1, lookup_insert_eq in Hcase, S2.
  destruct Hcase as (Hd & R2 & H2 & E2). rewrite Hd in D2, S2. cbn in D2, S2.
  rewrite H1, Hh in E2. rewrite ?H1, ?Hh in S2.
  rewrite T1, lookup_insert_eq in E2.
  rewrite bool_decide_eq_false_2 in E2 by discriminate.
  cbn [default from_option] in E2, S2.
  rewrite elements_empty in E2. cbn [cancel_events flat_map app] in E2.
  exists w2. split; [reflexivity|].
  split; [rewrite T1; apply lookup_insert_eq|].
  split; [rewrite R1; apply lookup_insert_eq|].
  split; [exact Hd|].
  split; [|split; [split; congruence|split; [rewrite S2, ?S1; cbn; set_solver|exact E2]]].
  split; [rewrite T2, T1; by apply delete_insert_id|].
  split; [rewrite R2, ?R1; by apply delete_insert_id|].
  rewrite H2, ?H1. by apply delete_id.
Qed.

Lemma add_then_del_task_restores_witness :
  exists w1 w2,
    add_task 8 "10.0.0.6" 2%nat idle_world = (Ok tt, w1)
    /\ tasks w1 !! "10.0.0.6" = Some 8 /\ rthandlers w1 !! 8 = Some 2%nat
    /\ del_task 8 "10.0.0.6" w1 = (Ok tt, w2)
    /\ same_registry idle_world w2 /\ same_files idle_world w2
    /\ shut_rd w2 = shut_rd idle_world
    /\ trace w2 = (trace w1 ++ [EvAcquire; EvRegistry (TasksPop "10.0.0.6");
                                EvRegistry (RtPop 8);
                                EvRegistry (HandlersPop 8); EvRelease])%list.
Proof.
  apply (add_then_del_task_restores 8 "10.0.0.6" 2%nat idle_world); reflexivity.
Defined.

(** X20.  [del_task] does not check that the address belongs to the task it
    deletes: when the address is registered for another task, that
    task's entry for the address is removed all the same, and no warning
    is logged; connections of the other task are refused from then on. *)
Theorem del_task_drops_foreign_address (X : Externals) (task_id other : Z)
    (ip : string) (rt : nat) (w : World) :
  tasks w !! ip = Some other -> other <> task_id ->
  rthandlers w !! task_id = Some rt ->
  exists w',
    del_task task_id ip w = (Ok tt, w')
    /\ tasks w' !! ip = None
    /\ rthandlers w' !! other = rthandlers w !! other
    /\ trace w' = (trace w ++ [EvAcquire; EvRegistry (TasksPop ip);
                               EvRegistry (RtPop task_id);
                               EvRegistry (HandlersPop task_id)]
                     ++ cancel_events task_id (elements (running task_id w))
                     ++ [EvRelease])%list
    /\ forall meanwhile sock stream,
         handle X meanwhile sock stream ip w'
         = (Ok tt, set_trace (fun t => (t ++ [EvAcquire; EvLog WARNING (MsgNoTaskForIP ip);
                                              EvRelease])%list) w').
Proof.
  intros Ht Hne Hr.
  destruct (del_task_spec task_id ip w) as (w' & T & _ & Hcase).
  rewrite Hr in Hcase. destruct Hcase as (Hd & R & H & E).
  exists w'. split; [exact Hd|].
  assert (Hnone : tasks w' !! ip = None) by (rewrite T; apply lookup_delete_eq).
  split; [exact Hnone|].
  split; [rewrite R; by apply lookup_delete_ne|].
  split.
  - rewrite E. rewrite bool_decide_eq_false_2 by (rewrite Ht; discriminate).
    reflexivity.
  - intros meanwhile sock stream. apply handle_not_found. by left.
Qed.

Lemma del_task_drops_foreign_address_witness :
  let X := stub_externals [] 10 in
  let w := snd (add_task 8 "10.0.0.5" 2%nat idle_world) in
  exists w',
    del_task 7 "10.0.0.5" w = (Ok tt, w')
    /\ tasks w' !! "10.0.0.5" = None
    /\ rthandlers w' !! 8 = rthandlers w !! 8
    /\ trace w' = (trace w ++ [EvAcquire; EvRegistry (TasksPop "10.0.0.5");
                               EvRegistry (RtPop 7); EvRegistry (HandlersPop 7)]
                     ++ cancel_events 7 (elements (running 7 w))
                     ++ [EvRelease])%list
    /\ forall meanwhile sock stream,
         handle X meanwhile sock stream "10.0.0.5" w'
         = (Ok tt, set_trace (fun t => (t ++ [EvAcquire;
                                              EvLog WARNING (MsgNoTaskForIP "10.0.0.5");
                                              EvRelease])%list) w').
Proof.
  intros X w.
  apply (del_task_drops_foreign_address X 7 8 "10.0.0.5" 1%nat w);
    [reflexivity|discriminate|reflexivity].
Defined.

(** X21.  After [del_task], whether it returned or raised, a connection from
    the address is refused: [handle] logs that there is no task for it
    and returns, with no context made and nothing else done. *)
Theorem deleted_task_is_refused (X : Externals) (meanwhile : World -> World)
    (sock : nat) (stream : list recv_result) (task_id : Z) (ip : string)
    (w : World) (r : res unit) (w1 : World) :
  del_task task_id ip w = (r, w1) ->
  handle X meanwhile sock stream ip w1
  = (Ok tt, set_trace (fun t => (t ++ [EvAcquire; EvLog WARNING (MsgNoTaskForIP ip);
                                       EvRelease])%list) w1).
Proof.
  intros Hd. apply handle_not_found. left.
  destruct (del_task_spec task_id ip w) as (w' & T & _ & Hcase).
  destruct (rthandlers w !! task_id); destruct Hcase as (Hd' & _);
    rewrite Hd' in Hd; injection Hd as _ <-; rewrite T; apply lookup_delete_eq.
Qed.

Lemma deleted_task_is_refused_witness :
  let X := stub_externals [] 10 in
  let w1 := snd (del_task 7 "10.0.0.5" idle_world) in
  handle X id 3%nat [RecvData ("FILE" ++ LF)] "10.0.0.5" w1
  = (Ok tt, set_trace (fun t => (t ++ [EvAcquire; EvLog WARNING (MsgNoTaskForIP "10.0.0.5");
                                       EvRelease])%list) w1).
Proof.
  intros X w1.
  apply (deleted_task_is_refused X id 3%nat _ 7 "10.0.0.5" idle_world
           (fst (del_task 7 "10.0.0.5" idle_world)) w1).
  vm_compute. reflexivity.
Defined.



(** ** Sessions that end in the negotiation *)

(** X24.  A connection whose first [recv] fails with [EBADF] or
    [ECONNRESET]: [read] turns the error into the [str] [""], the
    negotiation meets the end of the stream, and [handle] returns
    quietly, with the registry and the files as they were, the context
    not registered and the socket of the session not shut by the
    worker. *)
Theorem negotiation_reset_is_quiet (X : Externals) (meanwhile : World -> World)
    (sock : nat) (e : option errno) (rest : list recv_result) (ip : string)
    (task_id : Z) (w : World) :
  tasks w !! ip = Some task_id -> task_id <> 0 ->
  sock ∉ shut_rd w ->
  e = Some EBADF \/ e = Some ECONNRESET ->
  exists w' t,
    handle X meanwhile sock (RecvError e :: rest) ip w = (Ok tt, w')
    /\ same_registry w w' /\ same_files w w' /\ shut_rd w' = shut_rd w
    /\ trace w' = (trace w ++ [EvAcquire; EvRelease; EvTaskLogStart task_id] ++ t
                           ++ [EvTaskLogStop task_id])%list
    /\ (t = [] \/ t = [EvLog DEBUG (MsgConnReset task_id sock)]).
Proof.
  intros Ht Hz Hs He.
  rewrite (handle_found X meanwhile sock _ ip w task_id Ht Hz).
  set (ws := session_world X sock (RecvError e :: rest) task_id w).
  pose proof (session_world_ctx X sock (RecvError e :: rest) task_id w) as Hc.
  fold ws in Hc.
  destruct (read_newline_swallowed sock ws "" ltac:(by rewrite Hc)
              ltac:(reflexivity) ltac:(reflexivity) e rest Hs ltac:(by rewrite Hc) He)
    as (t & Hr & Ht').
  unfold try_finally, handle_session, negotiate_protocol, try_except.
  unfold bind at 1 2 3. rewrite Hr. unfold ret at 1. cbn iota beta.
  unfold ret at 1. unfold emit, modify.
  eexists. exists t. split; [reflexivity|]. cbn.
  split; [repeat split; reflexivity|]. split; [split; reflexivity|].
  split; [reflexivity|]. split; [rewrite <- !app_assoc; reflexivity|].
  rewrite Hc in Ht'. exact Ht'.
Qed.

Lemma negotiation_reset_is_quiet_witness :
  exists w' t,
    handle (stub_externals [] 10) id 3%nat [RecvError (Some ECONNRESET)] "10.0.0.5"
      idle_world = (Ok tt, w')
    /\ same_registry idle_world w' /\ same_files idle_world w'
    /\ shut_rd w' = shut_rd idle_world
    /\ trace w' = (trace idle_world ++ [EvAcquire; EvRelease; EvTaskLogStart 7] ++ t
                     ++ [EvTaskLogStop 7])%list
    /\ (t = [] \/ t = [EvLog DEBUG (MsgConnReset 7 3%nat)]).
Proof.
  apply (negotiation_reset_is_quiet (stub_externals [] 10) id 3%nat (Some ECONNRESET) []
           "10.0.0.5" 7 idle_world).
  - reflexivity.
  - discriminate.
  - apply not_elem_of_empty.
  - by right.
Defined.

(** X27.  For a registered address [handle] never gets past the
    negotiation, whatever the peer does.  It returns, after [EBADF] or
    [ECONNRESET]; or it is left by the [TypeError] of [read_newline],
    after any delivery and after a close; or by another error of the
    socket.  In every case the context gets no command and is not
    registered, no handler is initialised or run, and registry, files
    and sockets are as they were: all that is added to the trace is the
    lookup under the lock, the start and the stop of the task log, and
    at most the debug record of a connection reset. *)
Theorem connection_reaches_no_handler (X : Externals) (meanwhile : World -> World)
    (sock : nat) (stream : list recv_result) (ip : string) (task_id : Z)
    (w : World) :
  tasks w !! ip = Some task_id -> task_id <> 0 ->
  exists r w' t,
    handle X meanwhile sock stream ip w = (r, w')
    /\ (r = Ok tt \/ r = Raise TypeError \/ exists e, r = Raise (SocketError e))
    /\ trace w' = (trace w ++ [EvAcquire; EvRelease; EvTaskLogStart task_id] ++ t
                           ++ [EvTaskLogStop task_id])%list
    /\ (t = [] \/ t = [EvLog DEBUG (MsgConnReset task_id sock)])
    /\ same_registry w w' /\ same_files w w' /\ shut_rd w' = shut_rd w
    /\ ctx_command (ctxs w' !!! sock) = None.
Proof.
  intros Ht Hz.
  rewrite (handle_found X meanwhile sock _ ip w task_id Ht Hz).
  set (ws := session_world X sock stream task_id w).
  pose proof (session_world_ctx X sock stream task_id w) as Hc. fold ws in Hc.
  assert (Hb : ctx_buf (ctxs ws !!! sock) = Some "") by (by rewrite Hc).
  assert (Hi : ctx_incoming (ctxs ws !!! sock) = stream) by (by rewrite Hc).
  assert (Hn : PyStr.find PyStr.newline "" < 0) by reflexivity.
  assert (Hl : PyStr.len "" < MAX_NETLOG_LINE) by reflexivity.
  unfold try_finally, handle_session, negotiate_protocol, try_except.
  unfold bind at 1 2 3.
  destruct (decide (sock ∈ shut_rd w)) as [Hs|Hs].
  { rewrite (read_newline_closed sock ws "" Hb Hn Hl (or_introl Hs)).
    unfold emit, modify. eexists _, _, []. split; [reflexivity|].
    split; [right; left; reflexivity|]. cbn.
    split; [rewrite <- !app_assoc; reflexivity|]. split; [by left|].
    split; [repeat split; reflexivity|]. split; [split; reflexivity|].
    split; [reflexivity|]. rewrite lookup_total_insert_eq. reflexivity. }
  destruct stream as [|[d|e] rest].
  - rewrite (read_newline_closed sock ws "" Hb Hn Hl (or_intror Hi)).
    unfold emit, modify. eexists _, _, []. split; [reflexivity|].
    split; [right; left; reflexivity|]. cbn.
    split; [rewrite <- !app_assoc; reflexivity|]. split; [by left|].
    split; [repeat split; reflexivity|]. split; [split; reflexivity|].
    split; [reflexivity|]. rewrite lookup_total_insert_eq. reflexivity.
  - rewrite (read_newline_delivery sock ws "" Hb Hn Hl d rest Hs Hi).
    unfold emit, modify. eexists _, _, []. split; [reflexivity|].
    split; [right; left; reflexivity|]. cbn.
    split; [rewrite <- !app_assoc; reflexivity|]. split; [by left|].
    split; [repeat split; reflexivity|]. split; [split; reflexivity|].
    split; [reflexivity|]. rewrite !lookup_total_insert_eq. reflexivity.
  - destruct (decide (e = Some EBADF \/ e = Some ECONNRESET)) as [He|He].
    + destruct (read_newline_swallowed sock ws "" Hb Hn Hl e rest Hs Hi He)
        as (t & -> & Ht').
      unfold ret, emit, modify. eexists _, _, t. split; [reflexivity|].
      split; [left; reflexivity|]. cbn.
      split; [rewrite <- !app_assoc; reflexivity|].
      split; [rewrite Hc in Ht'; exact Ht'|].
      split; [repeat split; reflexivity|]. split; [split; reflexivity|].
      split; [reflexivity|]. rewrite !lookup_total_insert_eq. reflexivity.
    + rewrite (read_newline_raises sock ws "" Hb Hn Hl e rest Hs Hi)
        by (intros ->; apply He; auto).
      unfold emit, modify. eexists _, _, []. split; [reflexivity|].
      split; [right; right; eauto|]. cbn.
      split; [rewrite <- !app_assoc; reflexivity|]. split; [by left|].
      split; [repeat split; reflexivity|]. split; [split; reflexivity|].
      split; [reflexivity|]. rewrite !lookup_total_insert_eq. reflexivity.
Qed.

Lemma connection_reaches_no_handler_witness :
  exists r w' t,
    handle (stub_externals [(rid_header_text, rid_header)] 10) id 3%nat
      [RecvData ("FILE " ++ rid_header_text ++ LF ++ "abc")] "10.0.0.5" idle_world
    = (r, w')
    /\ (r = Ok tt \/ r = Raise TypeError \/ exists e, r = Raise (SocketError e))
    /\ trace w' = (trace idle_world ++ [EvAcquire; EvRelease; EvTaskLogStart 7] ++ t
                     ++ [EvTaskLogStop 7])%list
    /\ (t = [] \/ t = [EvLog DEBUG (MsgConnReset 7 3%nat)])
    /\ same_registry idle_world w' /\ same_files idle_world w'
    /\ shut_rd w' = shut_rd idle_world
    /\ ctx_command (ctxs w' !!! 3%nat) = None.
Proof.
  apply (connection_reaches_no_handler (stub_externals [(rid_header_text, rid_header)] 10)
           id 3%nat _ "10.0.0.5" 7 idle_world).
  - reflexivity.
  - discriminate.
Defined.

(** * [Files.create] *)




